(** * clang-build: the project tree, the target graph and the platform table

    A shallow embedding of [clang_build/platform.py], [clang_build/target.py]
    and [clang_build/project.py], and the properties of the build-graph
    specification checked against them.

    Conventions.
    - A configuration value is a TOML value: a string, a boolean, an array
      or a table (a Python [dict], kept as an association list in
      declaration order, keys unique).  Where the code uses a value as a
      string, an array of strings or a table and the configuration gives
      another shape, the model raises [TypeError] at that use.
    - A string is the UTF-8 encoding of the Python string, one [ascii] per
      byte.
    - Exceptions and [sys.exit] are results of the monad [M]; what the code
      writes to a logger or to standard output is appended to the trace the
      monad threads.
    - [pathlib], [list(set(...))], the dialect probe, the source walker, the
      dependency analyser and the [SingleSource] class live outside these
      three files; they are the fields of the classes [PathLib], [PySet],
      [Collaborators], [ProjectImports] and [Calls.Imports].
    - [Project.__init__] is modelled over any four constructors
      ([ProjectImports]); the module [Calls] gives the ones it has, the
      classes of [target.py] with the arguments [project.py] passes. *)

From Stdlib Require Import ZArith Ascii String List.
From stdpp Require Import base list strings pretty.

Set Warnings "-register-all".

Local Open Scope string_scope.
Local Open Scope list_scope.

(** ** Python values and the effects of the interpreter *)

Module Py.

Inductive value : Type :=
| VStr (s : string)
| VBool (b : bool)
| VList (xs : list value)
| VDict (kv : list (string * value)).

(** A Python [dict] with string keys. *)
Definition dict : Type := list (string * value).

Inductive exn : Type :=
| RuntimeError (msg : string)
| AttributeError (name : string)
| KeyError (key : string)
| ValueError
| IndexError
| TypeError
| SystemExit (code : Z).

Inductive logger : Type := ModuleLogger | EnvironmentLogger.
Inductive level : Type := DEBUG | INFO | ERROR.

Inductive event : Type :=
| Log (lg : logger) (lv : level) (msg : string)
| Print (msg : string).

(** Computations that may raise and that write to the trace. *)
Definition M (A : Type) : Type := list event -> (exn + A) * list event.

Definition ret {A} (a : A) : M A := fun tr => (inr a, tr).
Definition raise {A} (e : exn) : M A := fun tr => (inl e, tr).
Definition bind {A B} (m : M A) (k : A -> M B) : M B :=
  fun tr => match m tr with
            | (inr a, tr') => k a tr'
            | (inl e, tr') => (inl e, tr')
            end.
Definition emit (e : event) : M unit := fun tr => (inr tt, tr ++ [e]).

Definition lift {A} (r : exn + A) : M A := fun tr => (r, tr).

(** The same for code that writes nothing. *)
Definition and_then {A B} (r : exn + A) (k : A -> exn + B) : exn + B :=
  match r with inr a => k a | inl e => inl e end.

(** [for x in xs: acc = body(acc, x)] *)
Fixpoint foldM {A S} (body : S -> A -> M S) (xs : list A) (s : S) : M S :=
  match xs with
  | [] => ret s
  | x :: xs' => bind (body s x) (foldM body xs')
  end.

(** *** dict operations *)

Fixpoint dict_get (k : string) (d : dict) : option value :=
  match d with
  | [] => None
  | (k', v) :: d' => if String.eqb k k' then Some v else dict_get k d'
  end.

(** [k in d] *)
Definition contains (k : string) (d : dict) : bool :=
  match dict_get k d with Some _ => true | None => false end.

(** [d.get(k, dflt)] *)
Definition get_default (k : string) (dflt : value) (d : dict) : value :=
  match dict_get k d with Some v => v | None => dflt end.

(** [d[k]] *)
Definition getitem (k : string) (d : dict) : exn + value :=
  match dict_get k d with Some v => inr v | None => inl (KeyError k) end.

(** [{key: val for key, val in d.items() if p(key)}] *)
Definition filter_keys (p : string -> bool) (d : dict) : dict :=
  List.filter (fun kv => p (fst kv)) d.

(** *** shapes *)

Definition as_str (v : value) : exn + string :=
  match v with VStr s => inr s | _ => inl TypeError end.

Definition as_dict (v : value) : exn + dict :=
  match v with VDict d => inr d | _ => inl TypeError end.

Fixpoint all_str (xs : list value) : exn + list string :=
  match xs with
  | [] => inr []
  | VStr s :: xs' =>
      match all_str xs' with inr ss => inr (s :: ss) | inl e => inl e end
  | _ :: _ => inl TypeError
  end.

(** an array of strings *)
Definition as_strs (v : value) : exn + list string :=
  match v with VList xs => all_str xs | _ => inl TypeError end.

(** Truth value of an object in a condition. *)
Definition truthy (v : value) : bool :=
  match v with
  | VStr s => negb (String.eqb s "")
  | VBool b => b
  | VList xs => match xs with [] => false | _ => true end
  | VDict d => match d with [] => false | _ => true end
  end.

(** *** strings *)

(** [str.lower] on the ASCII letters.  Outside ASCII the only character
    whose lower case is an ASCII letter is the Kelvin sign (mapped to
    [k]), and none of the four target-type names contains a [k]: the
    comparisons against these names are decided as in Python. *)
Definition lower_ascii (c : ascii) : ascii :=
  let n := nat_of_ascii c in
  if (65 <=? n)%nat && (n <=? 90)%nat then ascii_of_nat (n + 32) else c.

Fixpoint lower (s : string) : string :=
  match s with
  | EmptyString => EmptyString
  | String c s' => String (lower_ascii c) (lower s')
  end.

(** [s.startswith(p)] *)
Definition startswith (p s : string) : bool := String.prefix p s.

(** [sep.join(xs)] *)
Fixpoint join (sep : string) (xs : list string) : string :=
  match xs with
  | [] => ""
  | [x] => x
  | x :: xs' => x +:+ sep +:+ join sep xs'
  end.

(** [c.isspace()] for a character below U+0080: the blank, the controls
    U+0009 to U+000D and U+001C to U+001F. *)
Definition is_space (c : ascii) : bool :=
  let n := nat_of_ascii c in
  (n =? 32)%nat || ((9 <=? n)%nat && (n <=? 13)%nat)
    || ((28 <=? n)%nat && (n <=? 31)%nat).

(** The second byte of U+0085 and U+00A0 after the byte C2. *)
Definition space_after_C2 (c1 : ascii) : bool :=
  let n1 := nat_of_ascii c1 in
  (n1 =? 133)%nat || (n1 =? 160)%nat.

(** The last two bytes of a white-space character of three bytes: U+1680
    after E1; U+2000 to U+200A, U+2028, U+2029, U+202F and U+205F after
    E2; U+3000 after E3. *)
Definition space_of_three (c c1 c2 : ascii) : bool :=
  let n := nat_of_ascii c in
  let n1 := nat_of_ascii c1 in
  let n2 := nat_of_ascii c2 in
  ((n =? 225)%nat && (n1 =? 154)%nat && (n2 =? 128)%nat)
    || ((n =? 226)%nat && (n1 =? 128)%nat
          && (((128 <=? n2)%nat && (n2 <=? 138)%nat)
                || (n2 =? 168)%nat || (n2 =? 169)%nat || (n2 =? 175)%nat))
    || ((n =? 226)%nat && (n1 =? 129)%nat && (n2 =? 159)%nat)
    || ((n =? 227)%nat && (n1 =? 128)%nat && (n2 =? 128)%nat).

(** [not line.strip()]: every character of the line is white space. *)
Fixpoint blank (s : string) : bool :=
  match s with
  | EmptyString => true
  | String c s' =>
      if is_space c then blank s'
      else
        match s' with
        | String c1 s'' =>
            if (nat_of_ascii c =? 194)%nat && space_after_C2 c1 then blank s''
            else
              match s'' with
              | String c2 s''' => space_of_three c c1 c2 && blank s'''
              | EmptyString => false
              end
        | EmptyString => false
        end
  end.

(** The line boundaries of one byte but the carriage return: line feed,
    vertical tab, form feed, U+001C, U+001D, U+001E. *)
Definition is_line_break (c : ascii) : bool :=
  let n := nat_of_ascii c in
  ((10 <=? n)%nat && (n <=? 12)%nat) || ((28 <=? n)%nat && (n <=? 30)%nat).

(** [text.splitlines(True)]: the lines of a text, each with its line
    boundary.  The boundaries are those of [is_line_break], the carriage
    return, alone or followed by a line feed, U+0085 (the bytes C2 85),
    U+2028 and U+2029 (E2 80 A8, E2 80 A9). *)
Fixpoint splitlines (cur : string) (s : string) : list string :=
  match s with
  | EmptyString => if String.eqb cur "" then [] else [cur]
  | String c s' =>
      let cur_c := cur +:+ String c EmptyString in
      if is_line_break c then cur_c :: splitlines "" s'
      else if (nat_of_ascii c =? 13)%nat then
        match s' with
        | String c1 s'' =>
            if (nat_of_ascii c1 =? 10)%nat
            then (cur_c +:+ String c1 EmptyString) :: splitlines "" s''
            else cur_c :: splitlines "" s'
        | EmptyString => cur_c :: splitlines "" s'
        end
      else
        match s' with
        | String c1 s'' =>
            if (nat_of_ascii c =? 194)%nat && (nat_of_ascii c1 =? 133)%nat
            then (cur_c +:+ String c1 EmptyString) :: splitlines "" s''
            else
              match s'' with
              | String c2 s''' =>
                  if (nat_of_ascii c =? 226)%nat && (nat_of_ascii c1 =? 128)%nat
                       && ((nat_of_ascii c2 =? 168)%nat
                             || (nat_of_ascii c2 =? 169)%nat)
                  then (cur_c +:+ String c1 (String c2 EmptyString))
                         :: splitlines "" s'''
                  else splitlines cur_c s'
              | EmptyString => splitlines cur_c s'
              end
        | EmptyString => splitlines cur_c s'
        end
  end.

(** [textwrap.indent(text, prefix)]: the prefix goes before every line
    that is not made of white space only. *)
Definition indent (text prefix : string) : string :=
  join "" (List.map (fun ln => if blank ln then ln else prefix +:+ ln)
                    (splitlines "" text)).


(** *** lists *)

(** [xs.index(x)] *)
Fixpoint index (x : string) (xs : list string) : exn + nat :=
  match xs with
  | [] => inl ValueError
  | y :: xs' =>
      if String.eqb x y then inr 0%nat
      else match index x xs' with inr i => inr (S i) | inl e => inl e end
  end.

(** The line feed. *)
Definition nl : string := String "010"%char EmptyString.

(** [xs[i]] for [i >= 0] *)
Definition list_getitem {A} (xs : list A) (i : nat) : exn + A :=
  match xs !! i with Some a => inr a | None => inl IndexError end.

End Py.

Declare Scope py_scope.
Delimit Scope py_scope with py.
Notation "x <- m ;; k" := (Py.bind m (fun x => k))
  (at level 100, m at next level, right associativity) : py_scope.
Notation "m ;;; k" := (Py.bind m (fun _ => k))
  (at level 100, right associativity) : py_scope.
Notation "x <~ r ;; k" := (Py.and_then r (fun x => k))
  (at level 100, r at next level, right associativity) : py_scope.

(** ** Library code the three files call *)

(** [pathlib.Path]. *)
Class PathLib : Type := {
  path : Type;
  path_eq_dec :: EqDecision path;
  (** [p.joinpath(s)], [Path(p, s)] *)
  joinpath : path -> string -> path;
  (** [p.resolve()] *)
  resolve : path -> path;
  (** [p.exists()] *)
  path_exists : path -> bool;
  (** [str(p)] *)
  path_str : path -> string;
  (** Resolving an already resolved path changes nothing. *)
  resolve_idemp : forall p, resolve (resolve p) = resolve p
}.

(** [list(set(xs))]: the elements of [xs], each once, in the order the
    interpreter's hash table yields them. *)
Class PySet : Type := {
  list_set : forall {A} `{EqDecision A}, list A -> list A;
  list_set_NoDup : forall {A} `{EqDecision A} (xs : list A), NoDup (list_set xs);
  list_set_elem : forall {A} `{EqDecision A} (xs : list A) x,
      x ∈ list_set xs <-> x ∈ xs
}.

(** ** platform.py *)

Module Platform.
Section Platform.
Context `{PathLib}.

(** What a module attribute of [platform.py] holds. *)
Inductive pval : Type :=
| PStr (s : string)
| PStrs (xs : list string)
| PPath (p : path)
| PNone.

(** The attributes a module binds, by name. *)
Definition namespace : Type := list (string * pval).

(** What [sysconfig] and [sys.version_info] answer on the running
    interpreter. *)
Record sysconfig : Type := {
  paths_include : path;
  paths_data : path;
  version_major : nat;
  version_minor : nat;
  ext_suffix : option string
}.

Definition ext_suffix_val (sc : sysconfig) : pval :=
  match ext_suffix sc with Some s => PStr s | None => PNone end.

(** The module body: the attributes bound when the module is first
    imported on a system whose [sys.platform] is [sys_platform], or the
    exception the import raises.  (The names bound by the [import]
    statements themselves, all private, are left out.) *)
Definition platform_py (sys_platform : string) (sc : sysconfig)
  : Py.exn + namespace :=
  if String.eqb sys_platform "linux" then
    inr [ ("PLATFORM", PStr "linux");
          ("EXECUTABLE_OUTPUT_DIR", PStr "bin");
          ("SHARED_LIBRARY_OUTPUT_DIR", PStr "lib");
          ("STATIC_LIBRARY_OUTPUT_DIR", PStr "lib");
          ("PLATFORM_PYTHON_INCLUDE_PATH", PPath (paths_include sc));
          ("PLATFORM_PYTHON_LIBRARY_PATH", PPath (joinpath (paths_data sc) "lib"));
          ("PLATFORM_PYTHON_LIBRARY_NAME",
            PStr ("python" +:+ pretty (version_major sc) +:+ "."
                           +:+ pretty (version_minor sc)));
          ("PLATFORM_PYTHON_EXTENSION_SUFFIX", ext_suffix_val sc) ]
  else if String.eqb sys_platform "darwin" then
    inr [ ("PLATFORM", PStr "osx");
          ("EXECUTABLE_OUTPUT_DIR", PStr "bin");
          ("SHARED_LIBRARY_OUTPUT_DIR", PStr "lib");
          ("STATIC_LIBRARY_OUTPUT_DIR", PStr "lib");
          ("PLATFORM_PYTHON_INCLUDE_PATH", PPath (paths_include sc));
          ("PLATFORM_PYTHON_LIBRARY_PATH", PPath (joinpath (paths_data sc) "lib"));
          ("PLATFORM_PYTHON_LIBRARY_NAME",
            PStr ("python" +:+ pretty (version_major sc) +:+ "."
                           +:+ pretty (version_minor sc)));
          ("PLATFORM_PYTHON_EXTENSION_SUFFIX", ext_suffix_val sc) ]
  else if String.eqb sys_platform "win32" then
    inr [ ("PLATFORM", PStr "windows");
          ("EXECUTABLE_OUTPUT_DIR", PStr "bin");
          ("SHARED_LIBRARY_OUTPUT_DIR", PStr "bin");
          ("STATIC_LIBRARY_OUTPUT_DIR", PStr "lib");
          ("PLATFORM_PYTHON_INCLUDE_PATH", PPath (paths_include sc));
          ("PLATFORM_PYTHON_LIBRARY_PATH", PPath (joinpath (paths_data sc) "libs"));
          ("PLATFORM_PYTHON_LIBRARY_NAME",
            PStr ("python" +:+ pretty (version_major sc)
                           +:+ pretty (version_minor sc)));
          ("PLATFORM_PYTHON_EXTENSION_SUFFIX", ext_suffix_val sc) ]
  else
    inl (Py.RuntimeError
           ("Platform " +:+ sys_platform +:+ "is currently not supported.")).

Fixpoint lookup_attr (name : string) (m : namespace) : option pval :=
  match m with
  | [] => None
  | (n, v) :: m' => if String.eqb name n then Some v else lookup_attr name m'
  end.

(** [module.name] *)
Definition getattr (m : namespace) (name : string) : Py.exn + pval :=
  match lookup_attr name m with
  | Some v => inr v
  | None => inl (Py.AttributeError name)
  end.

Definition attr_str (v : pval) : Py.exn + string :=
  match v with PStr s => inr s | _ => inl Py.TypeError end.

Definition attr_strs (v : pval) : Py.exn + list string :=
  match v with PStrs xs => inr xs | _ => inl Py.TypeError end.

(** [v == s] for a string literal [s] *)
Definition attr_is (v : pval) (s : string) : bool :=
  match v with PStr s' => String.eqb s' s | _ => false end.

End Platform.
End Platform.

(** ** target.py *)

(** What [target.py] imports from files outside the three modelled here:
    the dialect helpers of [dialect_check.py] and, of [SingleSource], the
    object file its constructor derives from the source file, the target
    root and the object directory. *)
Class Collaborators `{PathLib} : Type := {
  get_dialect_string : Py.value -> string;
  get_max_supported_compiler_dialect : string -> string;
  single_source_object_file : path -> path -> path -> path
}.

Module Target.
Section Target.
Context `{PL : PathLib} `{PS : PySet} `{CO : !Collaborators}.

Import Platform.
Local Open Scope py_scope.

(** Modelled from the spec: [build_type.py] is not among the sources; the
    build type is one of Release, Debug, RelWithDebInfo, Coverage. *)
Inductive BuildType : Type := Release | Debug | RelWithDebInfo | Coverage.

(** The attributes of the environment that [target.py] reads while it
    constructs a target. *)
Record environment : Type := {
  build_type : BuildType;
  clang : string;
  clangpp : string;
  clang_ar : string;
  tests : bool;
  examples : bool
}.

(** [self.__class__] *)
Inductive target_class : Type :=
| HeaderOnly | Executable | SharedLibrary | StaticLibrary.

Definition is_HeaderOnly (c : target_class) : bool :=
  match c with HeaderOnly => true | _ => false end.

(** [f'{cls}'] *)
Definition class_repr (c : target_class) : string :=
  "<class 'clang_build.target." +:+
  match c with
  | HeaderOnly => "HeaderOnly"
  | Executable => "Executable"
  | SharedLibrary => "SharedLibrary"
  | StaticLibrary => "StaticLibrary"
  end +:+ "'>".

Definition DEFAULT_COMPILE_FLAGS : list string :=
  ["-Wall"; "-Wextra"; "-Wpedantic"; "-Werror"].
Definition DEFAULT_COMPILE_FLAGS_RELEASE : list string := ["-O3"; "-DNDEBUG"].
Definition DEFAULT_COMPILE_FLAGS_RELWITHDEBINFO : list string :=
  ["-O3"; "-g3"; "-DNDEBUG"].
Definition DEFAULT_COMPILE_FLAGS_DEBUG : list string :=
  ["-O0"; "-g3"; "-DDEBUG"].
Definition DEFAULT_COMPILE_FLAGS_COVERAGE : list string :=
  DEFAULT_COMPILE_FLAGS_DEBUG ++ ["--coverage"; "-fno-inline"].

(** A [SingleSource] as [Compilable.__init__] creates it: the keyword
    arguments of the call, and the object file. *)
Record SingleSource : Type := {
  source_file : path;
  platform_flags : pval;
  current_target_root_path : path;
  depfile_directory : path;
  object_directory : path;
  include_strings : list string;
  ss_compile_flags : list string;
  ss_clang : string;
  ss_clangpp : string;
  max_cpp_dialect : string;
  object_file : path
}.

(** The six flag vectors of a target. *)
Record flag_vectors : Type := {
  compile_flags : list string;
  link_flags : list string;
  compile_flags_interface : list string;
  link_flags_interface : list string;
  compile_flags_public : list string;
  link_flags_public : list string
}.

(** The attributes [Compilable.__init__] and its subclasses add. *)
Record compilable : Type := {
  c_object_directory : path;
  c_depfile_directory : path;
  output_folder : path;
  outname : string;
  outfile : path;
  source_files : list path;
  include_directories_command : list string;
  buildables : list SingleSource;
  link_command : list string;
  before_compile_script : Py.value;
  before_link_script : Py.value;
  after_build_script : Py.value
}.

(** A constructed target.  [compiled] is [None] on a [HeaderOnly], which
    has none of the attributes of a [Compilable].  The attributes of the
    test and example expansion ([dependency_targets_tests], which starts
    with the target itself, [test_targets], ...) are read by
    [create_test_targets] and [create_example_targets] only; they are not
    fields here, and the module [Expansion] gives them as functions of the
    target and of the arguments of the constructor. *)
Inductive target : Type := Build_target {
  cls : target_class;
  options : Py.dict;
  dependency_targets : list target;
  project_identifier : string;
  name : string;
  identifier : string;
  root_directory : path;
  build_directory : path;
  include_directories : list path;
  include_directories_public : list path;
  headers : list path;
  tests_folder : option path;
  examples_folder : option path;
  dialect : string;
  flags : flag_vectors;
  compiled : option compilable
}.

(** [Target.parse_flags_options]: the table of [flags_kind] and the
    tables of the same kind under the platform keys. *)
Definition platform_flags_dict (pf : namespace) (options : Py.dict)
    (plat flags_kind : string) : Py.exn + list Py.dict :=
  if Py.contains plat options then
    p <~ getattr pf "PLATFORM" ;;
    if attr_is p plat then
      sub <~ Py.getitem plat options ;;
      sub <~ Py.as_dict sub ;;
      d <~ Py.as_dict (Py.get_default flags_kind (Py.VDict []) sub) ;;
      inr [d]
    else inr []
  else inr [].

Definition fdict_strs (key : string) (fdict : Py.dict) : Py.exn + list string :=
  Py.as_strs (Py.get_default key (Py.VList []) fdict).

(** One round of the loop over [flags_dicts]. *)
Definition parse_fdict (env : environment) (acc : list string * list string)
    (fdict : Py.dict) : Py.exn + (list string * list string) :=
  c <~ fdict_strs "compile" fdict ;;
  l <~ fdict_strs "link" fdict ;;
  cb <~ fdict_strs (match build_type env with
                    | Release => "compile_release"
                    | Debug => "compile_debug"
                    | RelWithDebInfo => "compile_relwithdebinfo"
                    | Coverage => "compile_coverage"
                    end) fdict ;;
  inr (fst acc ++ c ++ cb, snd acc ++ l).

Fixpoint parse_fdicts (env : environment) (acc : list string * list string)
    (fdicts : list Py.dict) : Py.exn + (list string * list string) :=
  match fdicts with
  | [] => inr acc
  | fdict :: rest =>
      acc' <~ parse_fdict env acc fdict ;; parse_fdicts env acc' rest
  end.

Definition parse_flags_options (pf : namespace) (env : environment)
    (options : Py.dict) (flags_kind : string)
  : Py.exn + (list string * list string) :=
  d0 <~ (if Py.contains flags_kind options
         then d <~ Py.as_dict (Py.get_default flags_kind (Py.VDict []) options) ;;
              inr [d]
         else inr []) ;;
  d1 <~ platform_flags_dict pf options "osx" flags_kind ;;
  d2 <~ platform_flags_dict pf options "windows" flags_kind ;;
  d3 <~ platform_flags_dict pf options "linux" flags_kind ;;
  parse_fdicts env ([], []) (d0 ++ d1 ++ d2 ++ d3).

(** The folder of the tests (or of the examples) of a target: [a] or [b]
    under the root when one exists, else the root itself when that kind
    was requested and the options give its sources. *)
Definition discover_folder (ident : string) (root : path)
    (what a b key : string) (requested : bool) (options : Py.dict)
  : Py.M (option path) :=
  let folder :=
    if path_exists (joinpath root a) then Some (joinpath root a)
    else if path_exists (joinpath root b) then Some (joinpath root b)
    else None in
  match folder with
  | Some p =>
      Py.emit (Py.Log Py.ModuleLogger Py.INFO
                 ("[" +:+ ident +:+ "]: found " +:+ what +:+ " folder "
                      +:+ path_str p)) ;;;
      Py.ret (Some p)
  | None =>
      if requested then
        sub <- Py.lift (Py.as_dict (Py.get_default key (Py.VDict []) options)) ;;
        Py.ret (if Py.contains "sources" sub then Some root else None)
      else Py.ret None
  end.

(** Include directories of one dependency, added to the private and to
    the public list of the target under construction. *)
Definition add_dependency_includes (acc : list path * list path)
    (target : target) : list path * list path :=
  ((fst acc ++ (if is_HeaderOnly (cls target)
                then include_directories target else []))
      ++ include_directories_public target,
   snd acc ++ include_directories_public target).

(** Flags of one dependency, by the class of the target under
    construction. *)
Definition add_dependency_flags (self_class : target_class)
    (fv : flag_vectors) (target : target) : flag_vectors :=
  let d := flags target in
  match self_class with
  | HeaderOnly =>
      {| compile_flags := compile_flags fv;
         link_flags := link_flags fv;
         compile_flags_interface :=
           compile_flags_interface fv ++ compile_flags_interface d;
         link_flags_interface :=
           link_flags_interface fv ++ link_flags_interface d;
         compile_flags_public :=
           compile_flags_public fv ++ compile_flags_public d;
         link_flags_public := link_flags_public fv ++ link_flags_public d |}
  | StaticLibrary =>
      {| compile_flags := compile_flags fv ++ compile_flags_public d;
         link_flags := link_flags fv ++ link_flags_public d;
         compile_flags_interface :=
           compile_flags_interface fv ++ compile_flags_interface d;
         link_flags_interface :=
           link_flags_interface fv ++ link_flags_interface d;
         compile_flags_public := compile_flags_public fv;
         link_flags_public := link_flags_public fv |}
  | _ =>
      {| compile_flags :=
           (compile_flags fv ++ compile_flags_interface d)
             ++ compile_flags_public d;
         link_flags :=
           (link_flags fv ++ link_flags_interface d) ++ link_flags_public d;
         compile_flags_interface := compile_flags_interface fv;
         link_flags_interface := link_flags_interface fv;
         compile_flags_public := compile_flags_public fv;
         link_flags_public := link_flags_public fv |}
  end.

Definition default_build_type_flags (bt : BuildType) : list string :=
  match bt with
  | Release => DEFAULT_COMPILE_FLAGS_RELEASE
  | Debug => DEFAULT_COMPILE_FLAGS_DEBUG
  | RelWithDebInfo => DEFAULT_COMPILE_FLAGS_RELWITHDEBINFO
  | Coverage => DEFAULT_COMPILE_FLAGS_COVERAGE
  end.

(** [Target.__init__], run on an object of class [self_class]; [pf] is
    the imported platform module. *)
Definition Target_init (self_class : target_class) (pf : namespace)
    (project_identifier name : string)
    (root_directory build_directory : path)
    (headers include_directories include_directories_public : list path)
    (env : environment)
    (options : option Py.dict) (dependencies : option (list target))
  : Py.M target :=
  let options := default [] options in
  let dependencies := default [] dependencies in
  let identifier :=
    if String.eqb project_identifier "" then name
    else project_identifier +:+ "." +:+ name in
  (* Default include path *)
  let public0 :=
    if path_exists (joinpath root_directory "include")
    then [joinpath root_directory "include"] else [] in
  tests_folder <- discover_folder identifier root_directory
                    "tests" "test" "tests" "tests" (tests env) options ;;
  examples_folder <- discover_folder identifier root_directory
                    "examples" "example" "examples" "examples"
                    (examples env) options ;;
  (* Parsed directories, then those of the dependencies *)
  let incs :=
    fold_left add_dependency_includes dependencies
      (include_directories ++ include_directories_public,
       public0 ++ include_directories_public) in
  let private_includes := list_set (List.map resolve (fst incs)) in
  let headers := list_set headers in
  (* C language family dialect *)
  dialect <- Py.lift
    (if Py.contains "properties" options then
       props <~ Py.getitem "properties" options ;;
       props <~ Py.as_dict props ;;
       if Py.contains "cpp_version" props then
         v <~ Py.getitem "cpp_version" props ;;
         inr (get_dialect_string v)
       else inr (get_max_supported_compiler_dialect (clangpp env))
     else inr (get_max_supported_compiler_dialect (clangpp env))) ;;
  (* Regular (private) flags *)
  own <- Py.lift (parse_flags_options pf env options "flags") ;;
  let fv0 :=
    {| compile_flags := default_build_type_flags (build_type env) ++ fst own;
       link_flags := snd own;
       compile_flags_interface := [];
       link_flags_interface := [];
       compile_flags_public := [];
       link_flags_public := [] |} in
  let fv1 := fold_left (add_dependency_flags self_class) dependencies fv0 in
  let compile_flags1 := list_set (compile_flags fv1) in
  (* Interface flags *)
  iface <- Py.lift (parse_flags_options pf env options "interface-flags") ;;
  (* Public flags *)
  pub <- Py.lift (parse_flags_options pf env options "public-flags") ;;
  Py.ret
    {| cls := self_class;
       options := options;
       dependency_targets := dependencies;
       project_identifier := project_identifier;
       name := name;
       identifier := identifier;
       root_directory := root_directory;
       build_directory := build_directory;
       include_directories := private_includes;
       include_directories_public := snd incs;
       headers := headers;
       tests_folder := tests_folder;
       examples_folder := examples_folder;
       dialect := dialect;
       flags :=
         {| compile_flags := compile_flags1 ++ fst pub;
            link_flags := link_flags fv1 ++ snd pub;
            compile_flags_interface := compile_flags_interface fv1 ++ fst iface;
            link_flags_interface := link_flags_interface fv1 ++ snd iface;
            compile_flags_public := compile_flags_public fv1 ++ fst pub;
            link_flags_public := link_flags_public fv1 ++ snd pub |};
       compiled := None |}.

(** [self.link_command = cmd] *)
Definition set_link_command (cmd : list string) (c : compilable) : compilable :=
  {| c_object_directory := c_object_directory c;
     c_depfile_directory := c_depfile_directory c;
     output_folder := output_folder c;
     outname := outname c;
     outfile := outfile c;
     source_files := source_files c;
     include_directories_command := include_directories_command c;
     buildables := buildables c;
     link_command := cmd;
     before_compile_script := before_compile_script c;
     before_link_script := before_link_script c;
     after_build_script := after_build_script c |}.

Definition set_compiled (c : compilable) (t : target) : target :=
  {| cls := cls t;
     options := options t;
     dependency_targets := dependency_targets t;
     project_identifier := project_identifier t;
     name := name t;
     identifier := identifier t;
     root_directory := root_directory t;
     build_directory := build_directory t;
     include_directories := include_directories t;
     include_directories_public := include_directories_public t;
     headers := headers t;
     tests_folder := tests_folder t;
     examples_folder := examples_folder t;
     dialect := dialect t;
     flags := flags t;
     compiled := Some c |}.

(** [Compilable.__init__]; [link_command], [output_folder],
    [platform_flags], [prefix] and [suffix] are what the subclass passes. *)
Definition Compilable_init (self_class : target_class) (pf : namespace)
    (project_identifier' name' : string)
    (root_directory' build_directory' : path)
    (headers' include_directories' include_directories_public' : list path)
    (source_files : list path) (env : environment)
    (link_command : list string)
    (output_folder platform_flags prefix suffix : pval)
    (options' : option Py.dict) (dependencies : option (list target))
  : Py.M target :=
  self <- Target_init self_class pf project_identifier' name' root_directory'
            build_directory' headers' include_directories'
            include_directories_public' env options' dependencies ;;
  match source_files with
  | [] =>
      let error_message :=
        "[" +:+ identifier self +:+ "]: ERROR: Target was defined as a "
            +:+ class_repr self_class +:+ " but no source files were found" in
      Py.emit (Py.Log Py.ModuleLogger Py.ERROR error_message) ;;;
      Py.raise (Py.RuntimeError error_message)
  | _ :: _ =>
      let object_directory := resolve (joinpath (build_directory self) "obj") in
      let depfile_directory := resolve (joinpath (build_directory self) "dep") in
      output_folder <- Py.lift (attr_str output_folder) ;;
      let output_folder := resolve (joinpath (build_directory self) output_folder) in
      outname <- Py.lift
        (if Py.contains "output_name" (options self)
         then v <~ Py.getitem "output_name" (options self) ;; inr v
         else inr (Py.VStr (name self))) ;;
      prefix <- Py.lift (attr_str prefix) ;;
      outname <- Py.lift (Py.as_str outname) ;;
      suffix <- Py.lift (attr_str suffix) ;;
      let outfile := resolve (joinpath output_folder (prefix +:+ outname +:+ suffix)) in
      (* Buildables which this Target contains *)
      let include_directories_command :=
        List.concat (List.map (fun dir => ["-I"; path_str (resolve dir)])
                              (include_directories self)) in
      let buildables :=
        List.map (fun source_file =>
               {| source_file := source_file;
                  platform_flags := platform_flags;
                  current_target_root_path := root_directory self;
                  depfile_directory := depfile_directory;
                  object_directory := object_directory;
                  include_strings := include_directories_command;
                  ss_compile_flags :=
                    DEFAULT_COMPILE_FLAGS ++ compile_flags (flags self);
                  ss_clang := clang env;
                  ss_clangpp := clangpp env;
                  max_cpp_dialect := dialect self;
                  object_file :=
                    single_source_object_file source_file
                      (root_directory self) object_directory |})
            source_files in
      (* Additional scripts *)
      scripts <- Py.lift
        (if Py.contains "scripts" (options self) then
           sc <~ Py.getitem "scripts" (options self) ;;
           sc <~ Py.as_dict sc ;;
           inr (Py.get_default "before_compile" (Py.VStr "") sc,
                Py.get_default "before_link" (Py.VStr "") sc,
                Py.get_default "after_build" (Py.VStr "") sc)
         else inr (Py.VStr "", Py.VStr "", Py.VStr "")) ;;
      Py.ret (set_compiled
             {| c_object_directory := object_directory;
                c_depfile_directory := depfile_directory;
                output_folder := output_folder;
                outname := outname;
                outfile := outfile;
                source_files := source_files;
                include_directories_command := include_directories_command;
                buildables := buildables;
                link_command := link_command ++ [path_str outfile];
                before_compile_script := fst (fst scripts);
                before_link_script := snd (fst scripts);
                after_build_script := snd scripts |} self)
  end.

(** The attributes of a [Compilable], read on any target. *)
Definition compiled_attrs (attr : string) (t : target) : Py.exn + compilable :=
  match compiled t with
  | Some c => inr c
  | None => inl (Py.AttributeError attr)
  end.

(** [for target in self.dependency_targets: if not target.__class__ is
    HeaderOnly: cmd += f(target)] *)
Fixpoint over_linked_dependencies (attr : string)
    (f : compilable -> list string) (deps : list target)
  : Py.exn + list string :=
  match deps with
  | [] => inr []
  | target :: rest =>
      if is_HeaderOnly (cls target) then over_linked_dependencies attr f rest
      else
        c <~ compiled_attrs attr target ;;
        more <~ over_linked_dependencies attr f rest ;;
        inr (f c ++ more)
  end.

Definition object_files (c : compilable) : list string :=
  List.map (fun buildable => path_str (object_file buildable)) (buildables c).

(** The body shared, word for word, by [Executable.__init__] and
    [SharedLibrary.__init__] after the call of the base constructor. *)
Definition link_with_dependencies (self : target) : Py.M target :=
  c <- Py.lift (compiled_attrs "link_command" self) ;;
  (* Link self *)
  let cmd := link_command c ++ object_files c in
  (* Library dependency search paths *)
  paths <- Py.lift
    (over_linked_dependencies "output_folder"
       (fun d => ["-L"; path_str (resolve (output_folder d))])
       (dependency_targets self)) ;;
  let cmd := (cmd ++ paths) ++ link_flags (flags self) in
  (* Link dependencies *)
  libs <- Py.lift
    (over_linked_dependencies "outname"
       (fun d => ["-l" +:+ outname d]) (dependency_targets self)) ;;
  Py.ret (set_compiled (set_link_command (cmd ++ libs) c) self).

Definition Executable_init (pf : namespace)
    (project_identifier name : string)
    (root_directory build_directory : path)
    (headers include_directories include_directories_public : list path)
    (source_files : list path) (env : environment)
    (options : option Py.dict) (dependencies : option (list target))
  : Py.M target :=
  output <- Py.lift (getattr pf "EXECUTABLE_OUTPUT") ;;
  extra <- Py.lift (getattr pf "PLATFORM_EXTRA_FLAGS_EXECUTABLE") ;;
  prefix <- Py.lift (getattr pf "EXECUTABLE_PREFIX") ;;
  suffix <- Py.lift (getattr pf "EXECUTABLE_SUFFIX") ;;
  self <- Compilable_init Executable pf project_identifier name
            root_directory build_directory headers include_directories
            include_directories_public source_files env
            [clangpp env; "-o"] output extra prefix suffix
            options dependencies ;;
  link_with_dependencies self.

Definition SharedLibrary_init (pf : namespace)
    (project_identifier name : string)
    (root_directory build_directory : path)
    (headers include_directories include_directories_public : list path)
    (source_files : list path) (env : environment)
    (options : option Py.dict) (dependencies : option (list target))
  : Py.M target :=
  output <- Py.lift (getattr pf "SHARED_LIBRARY_OUTPUT") ;;
  extra <- Py.lift (getattr pf "PLATFORM_EXTRA_FLAGS_SHARED") ;;
  prefix <- Py.lift (getattr pf "SHARED_LIBRARY_PREFIX") ;;
  suffix <- Py.lift (getattr pf "SHARED_LIBRARY_SUFFIX") ;;
  self <- Compilable_init SharedLibrary pf project_identifier name
            root_directory build_directory headers include_directories
            include_directories_public source_files env
            [clangpp env; "-shared"; "-o"] output extra prefix suffix
            options dependencies ;;
  link_with_dependencies self.

Definition StaticLibrary_init (pf : namespace)
    (project_identifier name : string)
    (root_directory build_directory : path)
    (headers include_directories include_directories_public : list path)
    (source_files : list path) (env : environment)
    (options : option Py.dict) (dependencies : option (list target))
  : Py.M target :=
  output <- Py.lift (getattr pf "STATIC_LIBRARY_OUTPUT") ;;
  extra <- Py.lift (getattr pf "PLATFORM_EXTRA_FLAGS_STATIC") ;;
  prefix <- Py.lift (getattr pf "STATIC_LIBRARY_PREFIX") ;;
  suffix <- Py.lift (getattr pf "STATIC_LIBRARY_SUFFIX") ;;
  self <- Compilable_init StaticLibrary pf project_identifier name
            root_directory build_directory headers include_directories
            include_directories_public source_files env
            [clang_ar env; "rc"] output extra prefix suffix
            options dependencies ;;
  c <- Py.lift (compiled_attrs "link_command" self) ;;
  (* Link self *)
  let cmd := (link_command c ++ object_files c) ++ link_flags (flags self) in
  (* Link dependencies *)
  objs <- Py.lift
    (over_linked_dependencies "buildables" object_files
       (dependency_targets self)) ;;
  Py.ret (set_compiled (set_link_command (cmd ++ objs) c) self).

Definition HeaderOnly_init (pf : namespace)
    (project_identifier name : string)
    (root_directory build_directory : path)
    (headers include_directories include_directories_public : list path)
    (env : environment)
    (options : option Py.dict) (dependencies : option (list target))
  : Py.M target :=
  Target_init HeaderOnly pf project_identifier name root_directory
    build_directory headers include_directories include_directories_public
    env options dependencies.

(** [Class(...)]: the constructor of the class [self_class]; a
    [HeaderOnly] takes no source files. *)
Definition new (self_class : target_class) (pf : namespace)
    (project_identifier name : string)
    (root_directory build_directory : path)
    (headers include_directories include_directories_public : list path)
    (source_files : list path) (env : environment)
    (options : option Py.dict) (dependencies : option (list target))
  : Py.M target :=
  match self_class with
  | HeaderOnly =>
      HeaderOnly_init pf project_identifier name root_directory
        build_directory headers include_directories
        include_directories_public env options dependencies
  | Executable =>
      Executable_init pf project_identifier name root_directory
        build_directory headers include_directories
        include_directories_public source_files env options dependencies
  | SharedLibrary =>
      SharedLibrary_init pf project_identifier name root_directory
        build_directory headers include_directories
        include_directories_public source_files env options dependencies
  | StaticLibrary =>
      StaticLibrary_init pf project_identifier name root_directory
        build_directory headers include_directories
        include_directories_public source_files env options dependencies
  end.

End Target.
End Target.

(** ** project.py *)

(** What [Project.__init__] calls: the dependency analyser
    ([dependency_tools.py]), the source walker ([io_tools.py]) and the four
    target classes, with the positional arguments of its call sites.  [T]
    is the type of the objects in [self.target_list]; of such an object
    the loop reads its class only.  The classes [project.py] imports are
    those of [target.py]: the module [Calls] below gives them as fields of
    this interface. *)
Class ProjectImports `{PathLib} (T : Type) : Type := {
  find_non_existent_dependencies : Py.dict -> list (string * string);
  find_circular_dependencies : Py.dict -> list (list string);
  get_dependency_walk : Py.dict -> list string;
  (** [files['headers']], [files['include_directories']],
      [files['sourcefiles']] *)
  get_sources_and_headers :
    Py.value -> path -> path -> list path * list path * list path;
  (** [target.__class__] *)
  class_of : T -> Target.target_class;
  Executable_new :
    string -> path -> path -> list path -> list path -> list path ->
    Target.BuildType -> string -> Py.value -> list T -> Py.M T;
  SharedLibrary_new :
    string -> path -> path -> list path -> list path -> list path ->
    Target.BuildType -> string -> Py.value -> list T -> Py.M T;
  StaticLibrary_new :
    string -> path -> path -> list path -> list path -> list path ->
    Target.BuildType -> string -> string -> Py.value -> list T -> Py.M T;
  HeaderOnly_new :
    string -> path -> path -> list path -> list path ->
    Target.BuildType -> string -> Py.value -> list T -> Py.M T;
  (** [f'{targets}'] *)
  repr_targets : list T -> string
}.


Module Project.
Section Project.
Context `{PL : PathLib} {T : Type} `{PI : !ProjectImports T}.

Local Open Scope py_scope.

(** The attributes of the environment that [project.py] reads; what it
    sends to [environment.logger] goes to the trace. *)
Record environment : Type := {
  workingdir : path;
  build_directory : path;
  buildType : Target.BuildType;
  clangpp : string;
  clang_ar : string;
  progress_disabled : bool
}.

(** A [Project] object; the two attributes set late are [None] when the
    constructor returned before setting them. *)
Record project : Type := {
  name : Py.value;
  targets_config : Py.dict;
  subprojects_config : Py.dict;
  target_list : option (list T);
  project_build_directory : option path
}.

Definition is_Executable (c : Target.target_class) : bool :=
  match c with Target.Executable => true | _ => false end.

Definition error (msg : string) : Py.M unit :=
  Py.emit (Py.Log Py.EnvironmentLogger Py.ERROR msg).
Definition info (msg : string) : Py.M unit :=
  Py.emit (Py.Log Py.EnvironmentLogger Py.INFO msg).
Definition print (msg : string) : Py.M unit := Py.emit (Py.Print msg).
Definition sys_exit {A} (code : Z) : Py.M A := Py.raise (Py.SystemExit code).

(** [[self.target_list[target_names.index(name)] for name in names]] *)
Fixpoint lookup_dependencies (target_list : list T)
    (target_names names : list string) : Py.exn + list T :=
  match names with
  | [] => inr []
  | name :: rest =>
      i <~ Py.index name target_names ;;
      t <~ Py.list_getitem target_list i ;;
      ts <~ lookup_dependencies target_list target_names rest ;;
      inr (t :: ts)
  end.

(** The choice of the class and the call of its constructor: the
    statement [if 'target_type' in project_node: ... else: ...] of the
    loop body. *)
Definition instantiate (env : environment) (node : Py.dict)
    (project_node : Py.value) (target_name : string)
    (target_build_dir : path)
    (files : list path * list path * list path)
    (dependencies : list T) (target_list : list T) : Py.M (list T) :=
  let headers := fst (fst files) in
  let include_directories := snd (fst files) in
  let sourcefiles := snd files in
  if Py.contains "target_type" node then
    target_type <- Py.lift (Py.getitem "target_type" node) ;;
    target_type <- Py.lift (Py.as_str target_type) ;;
    (* Add an executable *)
    target_list <-
      (if String.eqb (Py.lower target_type) "executable" then
         t <- Executable_new target_name (workingdir env) target_build_dir
                headers include_directories sourcefiles (buildType env)
                (clangpp env) project_node dependencies ;;
         Py.ret (target_list ++ [t])
       else Py.ret target_list) ;;
    (* Add a shared library *)
    if String.eqb (Py.lower target_type) "shared library" then
      t <- SharedLibrary_new target_name (workingdir env) target_build_dir
             headers include_directories sourcefiles (buildType env)
             (clangpp env) project_node dependencies ;;
      Py.ret (target_list ++ [t])
    (* Add a static library *)
    else if String.eqb (Py.lower target_type) "static library" then
      t <- StaticLibrary_new target_name (workingdir env) target_build_dir
             headers include_directories sourcefiles (buildType env)
             (clangpp env) (clang_ar env) project_node dependencies ;;
      Py.ret (target_list ++ [t])
    (* Add a header-only *)
    else if String.eqb (Py.lower target_type) "header only" then
      (match sourcefiles with
       | [] => Py.ret tt
       | _ :: _ =>
           info ("Source files found for header-only target " +:+ target_name
                 +:+ ". You may want to check your build configuration.")
       end) ;;;
      t <- HeaderOnly_new target_name (workingdir env) target_build_dir
             headers include_directories (buildType env)
             (clangpp env) project_node dependencies ;;
      Py.ret (target_list ++ [t])
    else
      error ("ERROR: Unsupported target type: " +:+ target_type) ;;;
      Py.ret target_list
  (* No target specified so must be executable or header only *)
  else
    match sourcefiles with
    | [] =>
        info ("No source files found for target " +:+ target_name
              +:+ ". Creating header-only target.") ;;;
        t <- HeaderOnly_new target_name (workingdir env) target_build_dir
               headers include_directories (buildType env)
               (clangpp env) project_node dependencies ;;
        Py.ret (target_list ++ [t])
    | _ :: _ =>
        info (pretty (length sourcefiles) +:+ " source files found for target "
              +:+ target_name +:+ ". Creating executable target.") ;;;
        t <- Executable_new target_name (workingdir env) target_build_dir
               headers include_directories sourcefiles (buildType env)
               (clangpp env) project_node dependencies ;;
        Py.ret (target_list ++ [t])
    end.

(** The message of the error logged for executables among the
    dependencies. *)
Definition executable_dependencies_message (executable_dependencies : list T)
  : string :=
  "Error: The following targets are linking dependencies but were identified as executables: "
    +:+ repr_targets executable_dependencies.

(** One round of the loop over [target_names]. *)
Definition process_target (env : environment) (targets_config : Py.dict)
    (target_names : list string) (multiple_targets : bool)
    (build_directory : path) (target_list : list T) (target_name : string)
  : Py.M (list T) :=
  project_node <- Py.lift (Py.getitem target_name targets_config) ;;
  (* Directories *)
  let target_build_dir :=
    if negb multiple_targets then build_directory
    else joinpath build_directory target_name in
  (* Sources *)
  let files := get_sources_and_headers project_node (workingdir env)
                 target_build_dir in
  (* Dependencies *)
  node <- Py.lift (Py.as_dict project_node) ;;
  names <- Py.lift (Py.as_strs (Py.get_default "dependencies" (Py.VList []) node)) ;;
  dependencies <- Py.lift (lookup_dependencies target_list target_names names) ;;
  let executable_dependencies :=
    List.filter (fun target => is_Executable (class_of target)) dependencies in
  (match executable_dependencies with
   | [] => Py.ret tt
   | _ :: _ => error (executable_dependencies_message executable_dependencies)
   end) ;;;
  instantiate env node project_node target_name target_build_dir files
    dependencies target_list.

Definition nonempty {A} (xs : list A) : bool :=
  match xs with [] => false | _ :: _ => true end.

(** The keys of [self.targets_config] and of [self.subprojects_config]. *)
Definition self_targets_config (config : Py.dict) : Py.dict :=
  Py.filter_keys (fun key => negb (Py.startswith "project" key)) config.
Definition self_subprojects_config (config : Py.dict) : Py.dict :=
  Py.filter_keys (fun key => Py.startswith "project" key) config.

(** The local [targets_config] and [subprojects_config]. *)
Definition top_level_targets (config : Py.dict) : Py.dict :=
  Py.filter_keys
    (fun key => negb (String.eqb key "subproject") && negb (String.eqb key "name"))
    config.
Definition top_level_subprojects (config : Py.dict) : Py.dict :=
  Py.filter_keys (fun key => String.eqb key "subproject") config.

Definition not_allowed : string :=
  "Your config file specified one or more projects. In this case you are not allowed to specify targets which do not belong to a project.".
Definition not_allowed_top_level : string :=
  "On the top level, your config file specified one or more projects. In this case you are not allowed to specify targets which do not belong to a project.".

(** [Project.__init__] up to the creation of the subprojects. *)
Definition Project_checks (config : Py.dict) : Py.M unit :=
  let name := Py.get_default "name" (Py.VStr "") config in
  (if nonempty (self_targets_config config)
      && nonempty (self_subprojects_config config) then
     n <- Py.lift (Py.as_str name) ;;
     print ("Project " +:+ n +:+ ": " +:+ not_allowed) ;;;
     error ("Project " +:+ n +:+ ": " +:+ not_allowed) ;;;
     sys_exit 1
   else Py.ret tt) ;;;
  if (nonempty (top_level_targets config) && negb (Py.truthy name))
     && nonempty (top_level_subprojects config) then
    print not_allowed_top_level ;;;
    error not_allowed_top_level ;;;
    sys_exit 1
  else Py.ret tt.

(** [Project.__init__] after the creation of the subprojects. *)
Definition Project_targets (env : environment) (multiple_projects : bool)
    (config : Py.dict) : Py.M project :=
  let name := Py.get_default "name" (Py.VStr "") config in
  let targets_config := top_level_targets config in
  (* Use sub-build directories if the project contains multiple targets *)
  let multiple_targets := (1 <? length (self_targets_config config))%nat in
  match targets_config with
  | [] =>
      Py.ret {| name := name;
                targets_config := self_targets_config config;
                subprojects_config := self_subprojects_config config;
                target_list := None;
                project_build_directory := None |}
  | _ :: _ =>
      (* Parse targets from toml file *)
      let non_existent_dependencies :=
        find_non_existent_dependencies targets_config in
      (match non_existent_dependencies with
       | [] => Py.ret tt
       | _ :: _ =>
           let error_messages :=
             List.map (fun td =>
                    "In " +:+ fst td +:+ ": the dependency " +:+ snd td
                          +:+ " does not point to a valid target")
                 non_existent_dependencies in
           error (Py.indent (Py.join Py.nl error_messages) "   ") ;;;
           n <- Py.lift (Py.as_str name) ;;
           print ("Project " +:+ n +:+ ": non_existent_dependencies.") ;;;
           sys_exit 1
       end) ;;;
      let circular_dependencies := find_circular_dependencies targets_config in
      (match circular_dependencies with
       | [] => Py.ret tt
       | _ :: _ =>
           let error_messages :=
             List.map (fun td =>
                    "In " +:+ fst td +:+ ": circular dependency -> " +:+ snd td)
                 non_existent_dependencies in
           error (Py.indent (Py.join Py.nl error_messages) "   ") ;;;
           n <- Py.lift (Py.as_str name) ;;
           print ("Project " +:+ n +:+ ": circular_dependencies.") ;;;
           sys_exit 1
       end) ;;;
      let target_names := get_dependency_walk targets_config in
      (* Project build directory *)
      build_dir <-
        (if multiple_projects then
           n <- Py.lift (Py.as_str name) ;;
           Py.ret (joinpath (build_directory env) n)
         else Py.ret (build_directory env)) ;;
      targets <-
        Py.foldM (process_target env targets_config target_names
                    multiple_targets build_dir)
                 target_names [] ;;
      Py.ret {| name := name;
                targets_config := self_targets_config config;
                subprojects_config := self_subprojects_config config;
                target_list := Some targets;
                project_build_directory := Some build_dir |}
  end.

(** [Project.__init__].  The subprojects are constructed, one after the
    other, from the entries of [config["subproject"]]; the list of the
    objects is local to the constructor and dropped when it returns. *)
Fixpoint Project_init (env : environment) (multiple_projects : bool)
    (config : Py.value) {struct config} : Py.M project :=
  match config with
  | Py.VDict config =>
      Project_checks config ;;;
      (* Generate Projects *)
      (fix subprojects (items : list (string * Py.value)) : Py.M unit :=
         match items with
         | [] => Py.ret tt
         | (key, val) :: items' =>
             if String.eqb key "subproject" then
               match val with
               | Py.VList configs =>
                   (fix each (configs : list Py.value) : Py.M unit :=
                      match configs with
                      | [] => Py.ret tt
                      | config :: configs' =>
                          Project_init env multiple_projects config ;;;
                          each configs'
                      end) configs
               | _ => Py.raise Py.TypeError
               end
             else subprojects items'
         end) config ;;;
      Project_targets env multiple_projects config
  | _ => Py.raise (Py.AttributeError "get")
  end.

End Project.
End Project.

(** ** target.py as project.py calls it *)

Module Calls.
Section Calls.
Context `{PL : PathLib} `{PS : PySet} `{CO : !Collaborators}.
Import Platform Target.
Local Open Scope py_scope.

(** What [project.py] takes from files that are not among the sources:
    the analyser, the source walker, and the text [f'{targets}'] of a list
    of target objects (the default [repr] of an object names its address). *)
Class Imports : Type := {
  find_non_existent_dependencies : Py.dict -> list (string * string);
  find_circular_dependencies : Py.dict -> list (list string);
  get_dependency_walk : Py.dict -> list string;
  get_sources_and_headers :
    Py.value -> path -> path -> list path * list path * list path;
  repr_targets : list target -> string
}.

(** [v.name] where [v] is a value of the configuration (a [str], a
    [bool], a [list] or a [dict]) or a string of the environment, and
    [name] is one of [clangpp], [clang_ar], [tests], [examples]: no object
    of these types has such an attribute, the read raises and nothing
    follows it. *)
Definition no_attribute (name : string) : Py.exn + Empty_set :=
  inl (Py.AttributeError name).

(** [_Executable(target_name, environment.workingdir, target_build_dir,
    files['headers'], files['include_directories'], files['sourcefiles'],
    environment.buildType, environment.clangpp, project_node,
    dependencies)], project.py 138 to 148 and 224 to 234.  The ten
    positional arguments go, in this order, to the parameters
    [project_identifier], [name], [root_directory], [build_directory],
    [headers], [include_directories], [include_directories_public],
    [source_files], [environment] and [options] of [Executable.__init__]
    (target.py 558 to 571).  The body starts with the call of the base
    constructor, whose arguments are evaluated first: the parameters, then
    [[environment.clangpp, '-o']] (line 583), where [environment] is the
    table [project_node]. *)
Definition Executable (target_name : string) (workingdir target_build_dir : path)
    (headers include_directories sourcefiles : list path)
    (buildType : BuildType) (clangpp : string)
    (project_node : Py.value) (dependencies : list target) : Py.M target :=
  link_command <- Py.lift (no_attribute "clangpp") ;;
  match link_command : Empty_set with end.

(** [_SharedLibrary(...)] with the same ten arguments, project.py 155 to
    165: [[environment.clangpp, '-shared', '-o']] (target.py 635) is read
    on the table [project_node]. *)
Definition SharedLibrary (target_name : string)
    (workingdir target_build_dir : path)
    (headers include_directories sourcefiles : list path)
    (buildType : BuildType) (clangpp : string)
    (project_node : Py.value) (dependencies : list target) : Py.M target :=
  link_command <- Py.lift (no_attribute "clangpp") ;;
  match link_command : Empty_set with end.

(** [_StaticLibrary(..., environment.clangpp, environment.clang_ar,
    project_node, dependencies)], project.py 172 to 183: eleven positional
    arguments, so that [environment] is the string [environment.clang_ar]
    of the caller, [options] the table and [dependencies] the list.
    [[environment.clang_ar, 'rc']] (target.py 687) is read on that
    string. *)
Definition StaticLibrary (target_name : string)
    (workingdir target_build_dir : path)
    (headers include_directories sourcefiles : list path)
    (buildType : BuildType) (clangpp clang_ar : string)
    (project_node : Py.value) (dependencies : list target) : Py.M target :=
  link_command <- Py.lift (no_attribute "clang_ar") ;;
  match link_command : Empty_set with end.

(** The search for the folder of the tests (or of the examples) in
    [Target.__init__] when [self.environment] is a table: [a] or [b] under
    the root is logged when it exists; else [self.environment.tests] is
    read (target.py 84 to 91, 97 to 103). *)
Definition discover_on_a_table (ident : string) (root : path)
    (what a b : string) : Py.M unit :=
  let folder :=
    if path_exists (joinpath root a) then Some (joinpath root a)
    else if path_exists (joinpath root b) then Some (joinpath root b)
    else None in
  match folder with
  | Some p =>
      Py.emit (Py.Log Py.ModuleLogger Py.INFO
                 ("[" +:+ ident +:+ "]: found " +:+ what +:+ " folder "
                      +:+ path_str p))
  | None =>
      requested <- Py.lift (no_attribute what) ;;
      match requested : Empty_set with end
  end.

(** Modelled from the spec: [build_type.py] is not among the sources; a
    build type is a member of an enumeration, which is not iterable, so
    that [xs += build_type] raises [TypeError] and nothing follows it. *)
Definition extend_with_build_type (build_type : BuildType)
  : Py.exn + Empty_set :=
  inl Py.TypeError.

(** [_HeaderOnly(target_name, environment.workingdir, target_build_dir,
    files['headers'], files['include_directories'], environment.buildType,
    environment.clangpp, project_node, dependencies)], project.py 192 to
    201 and 211 to 220.  The nine positional arguments go to
    [project_identifier], [name], [root_directory], [build_directory],
    [headers], [include_directories], [include_directories_public],
    [environment] and [options]; [HeaderOnly.__init__] hands them to
    [Target.__init__].  There the identifier is made of the target name
    and the working directory, the root directory is the build directory
    of the target, and the environment is the table: the first statements
    that can raise are the reads of [self.environment.tests] and
    [self.environment.examples], and then
    [self.include_directories += include_directories] (line 108), whose
    right-hand side is the build type. *)
Definition HeaderOnly (target_name : string)
    (workingdir target_build_dir : path)
    (headers include_directories : list path)
    (buildType : BuildType) (clangpp : string)
    (project_node : Py.value) (dependencies : list target) : Py.M target :=
  let identifier :=
    if String.eqb target_name "" then path_str workingdir
    else target_name +:+ "." +:+ path_str workingdir in
  (* Discover tests *)
  discover_on_a_table identifier target_build_dir "tests" "test" "tests" ;;;
  (* Discover examples *)
  discover_on_a_table identifier target_build_dir "examples" "example"
    "examples" ;;;
  (* Parsed directories *)
  extended <- Py.lift (extend_with_build_type buildType) ;;
  match extended : Empty_set with end.

(** The imports of [project.py] with the classes of [target.py]. *)
Definition classes `{CI : Imports} : ProjectImports target :=
  Build_ProjectImports PL target
    find_non_existent_dependencies find_circular_dependencies
    get_dependency_walk get_sources_and_headers
    cls
    Executable SharedLibrary StaticLibrary HeaderOnly
    repr_targets.

End Calls.
End Calls.

(** ** project.py: the accessor *)

Module ProjectMethods.
Section ProjectMethods.
Context `{PL : PathLib} {T : Type} `{PI : !ProjectImports T}.
Import Project.

(** [Project.get_targets]: the attribute [target_list], which exists once
    the constructor has reached the loop over the targets. *)
Definition get_targets (self : project) : Py.exn + list T :=
  match target_list self with
  | Some targets => inr targets
  | None => inl (Py.AttributeError "target_list")
  end.

End ProjectMethods.
End ProjectMethods.

(** ** A concrete system

    One instance of every interface above, on which the definitions run: a
    file system without symbolic links whose paths are absolute strings, a
    set that keeps the first occurrence of each element, and the Linux
    column of the platform table. *)

Module Demo.

Import Py Platform.

Definition posix : PathLib.
Proof.
  refine {| path := string;
            joinpath := fun p s => p +:+ "/" +:+ s;
            resolve := fun p => p;
            path_exists := fun p => String.eqb p "/w/include";
            path_str := fun p => p |}.
  reflexivity.
Defined.

Definition first_seen : PySet.
Proof.
  refine {| list_set := fun A H xs => remove_dups xs |}.
  - intros A H xs. apply NoDup_remove_dups.
  - intros A H xs x. apply elem_of_remove_dups.
Defined.

Definition tools : @Collaborators posix :=
  {| get_dialect_string := fun v =>
       match v with VStr s => "-std=c++" +:+ s | _ => "-std=c++" end;
     get_max_supported_compiler_dialect := fun _ => "-std=c++17";
     single_source_object_file := fun (source root objects : @path posix) =>
       objects +:+ source +:+ ".o" |}.

(** Modelled from the spec: the constants [target.py] reads from the
    platform module and [platform.py] does not bind, with the Linux values
    of the platform table (section 4.6) and no extra flags. *)
Definition linux_table : @namespace posix :=
  [ ("PLATFORM", PStr "linux");
    ("EXECUTABLE_PREFIX", PStr "");
    ("EXECUTABLE_SUFFIX", PStr "");
    ("EXECUTABLE_OUTPUT", PStr "bin");
    ("SHARED_LIBRARY_PREFIX", PStr "lib");
    ("SHARED_LIBRARY_SUFFIX", PStr ".so");
    ("SHARED_LIBRARY_OUTPUT", PStr "lib");
    ("STATIC_LIBRARY_PREFIX", PStr "lib");
    ("STATIC_LIBRARY_SUFFIX", PStr ".a");
    ("STATIC_LIBRARY_OUTPUT", PStr "lib");
    ("PLATFORM_EXTRA_FLAGS_EXECUTABLE", PStrs []);
    ("PLATFORM_EXTRA_FLAGS_SHARED", PStrs []);
    ("PLATFORM_EXTRA_FLAGS_STATIC", PStrs []) ].

Definition release : Target.environment :=
  {| Target.build_type := Target.Release;
     Target.clang := "clang";
     Target.clangpp := "clang++";
     Target.clang_ar := "llvm-ar";
     Target.tests := false;
     Target.examples := false |}.

(** *** Targets *)

(** The target a run of a constructor returned, as a list of dependencies. *)
Definition returned {A} (run : (exn + A) * list event) : list A :=
  match fst run with inr a => [a] | inl _ => [] end.

(** A static library with a public and an interface compile flag
    (scenario 4 of the specification). *)
Definition libA_options : dict :=
  [ ("target_type", VStr "static library");
    ("public-flags", VDict [("compile", VList [VStr "-DPUBLIC"])]);
    ("interface-flags", VDict [("compile", VList [VStr "-DIFACE"])]) ].

Definition libA_run : (exn + @Target.target posix) * list event :=
  @Target.new posix first_seen tools Target.StaticLibrary linux_table
    "" "libA" ("/p" : @path posix) ("/build/libA" : @path posix)
    [] [] [("/p/inc" : @path posix)] [("/p/a.cpp" : @path posix)]
    release (Some libA_options) None [].

(** A header-only target that publishes the directory [/p/common]. *)
Definition header_run (name : string) : (exn + @Target.target posix) * list event :=
  @Target.new posix first_seen tools Target.HeaderOnly []
    "" name ("/p" : @path posix) ("/build" : @path posix)
    [] [] [("/p/common" : @path posix)] []
    release None None [].

(** *** The imports of [project.py] *)

(** The names under [dependencies] of a target definition. *)
Definition dependencies_of (config : dict) (target : string) : list string :=
  match dict_get target config with
  | Some (VDict node) =>
      match as_strs (get_default "dependencies" (VList []) node) with
      | inr names => names
      | inl _ => []
      end
  | _ => []
  end.

(** Modelled from the spec: [dependency_tools.py] is not among the sources.
    The pairs (target, missing name) where the name is not a key of the
    mapping. *)
Definition demo_find_non_existent_dependencies (config : dict)
  : list (string * string) :=
  flat_map (fun kv =>
              List.map (fun missing => (fst kv, missing))
                (List.filter (fun dep => negb (contains dep config))
                             (dependencies_of config (fst kv))))
           config.

Fixpoint from_node (node : string) (stack : list string) : list string :=
  match stack with
  | [] => []
  | x :: rest => if String.eqb x node then stack else from_node node rest
  end.

(** Modelled from the spec: [dependency_tools.py] is not among the sources.
    A depth-first traversal; meeting a node that is on the stack records
    the path from that node back to itself.  (No node is marked done: a
    cycle is recorded once from every node that reaches it.) *)
Fixpoint visit_cycles (fuel : nat) (config : dict) (stack : list string)
    (node : string) : list (list string) :=
  match fuel with
  | O => []
  | S fuel' =>
      if existsb (String.eqb node) stack then [from_node node stack]
      else flat_map (visit_cycles fuel' config (stack ++ [node]))
                    (dependencies_of config node)
  end.

Definition demo_find_circular_dependencies (config : dict) : list (list string) :=
  flat_map (fun kv => visit_cycles (S (length config)) config [] (fst kv)) config.

(** Modelled from the spec: [dependency_tools.py] is not among the sources.
    Every dependency before its dependants, ties in declaration order. *)
Fixpoint visit_walk (fuel : nat) (config : dict) (done : list string)
    (node : string) : list string :=
  match fuel with
  | O => done
  | S fuel' =>
      if existsb (String.eqb node) done then done
      else fold_left (visit_walk fuel' config) (dependencies_of config node) done
             ++ [node]
  end.

Definition demo_get_dependency_walk (config : dict) : list string :=
  fold_left (visit_walk (S (length config)) config) (List.map fst config) [].

(** A source walker that finds the files listed under [sources], in the
    working directory. *)
Definition demo_get_sources_and_headers (project_node : value)
    (workingdir target_build_dir : @path posix)
  : list (@path posix) * list (@path posix) * list (@path posix) :=
  ([], [],
   match project_node with
   | VDict node =>
       match as_strs (get_default "sources" (VList []) node) with
       | inr names => List.map (@joinpath posix workingdir) names
       | inl _ => []
       end
   | _ => []
   end).

(** The text of a list of targets, without the addresses. *)
Definition demo_repr_targets (targets : list (@Target.target posix)) : string :=
  "[" +:+ join ", "
            (List.map (fun t => "<clang_build.target."
                                  +:+ match Target.cls t with
                                      | Target.HeaderOnly => "HeaderOnly"
                                      | Target.Executable => "Executable"
                                      | Target.SharedLibrary => "SharedLibrary"
                                      | Target.StaticLibrary => "StaticLibrary"
                                      end +:+ " object>")
                      targets)
      +:+ "]".

Definition outside : @Calls.Imports posix :=
  {| Calls.find_non_existent_dependencies := demo_find_non_existent_dependencies;
     Calls.find_circular_dependencies := demo_find_circular_dependencies;
     Calls.get_dependency_walk := demo_get_dependency_walk;
     Calls.get_sources_and_headers := demo_get_sources_and_headers;
     Calls.repr_targets := demo_repr_targets |}.

(** The classes of [target.py], called as [project.py] calls them. *)
Definition classes : @ProjectImports posix (@Target.target posix) :=
  @Calls.classes posix outside.

Definition workspace : @Project.environment posix :=
  {| Project.workingdir := ("/w" : @path posix);
     Project.build_directory := ("/build" : @path posix);
     Project.buildType := Target.Release;
     Project.clangpp := "clang++";
     Project.clang_ar := "llvm-ar";
     Project.progress_disabled := true |}.

(** *** Configurations *)

Definition sources (names : list string) : string * value :=
  ("sources", VList (List.map VStr names)).

(** Two targets that depend on each other (scenario 5). *)
Definition cyclic_config : dict :=
  [ ("a", VDict [sources ["a.cpp"]; ("dependencies", VList [VStr "b"])]);
    ("b", VDict [sources ["b.cpp"]; ("dependencies", VList [VStr "a"])]) ].

(** A named project with one target. *)
Definition named_config : dict :=
  [ ("name", VStr "proj"); ("app", VDict [sources ["main.cpp"]]) ].

(** A target of an unknown type. *)
Definition gui_node : dict :=
  [ ("target_type", VStr "gui"); sources ["main.cpp"] ].
Definition gui_config : dict := [ ("app", VDict gui_node) ].


End Demo.

(** ** target.py: the tests and the examples of a target *)

Module Expansion.
Section Expansion.
Context `{PL : PathLib} `{PS : PySet} `{CO : !Collaborators}.
Import Platform Target.
Local Open Scope py_scope.

(** What [_get_sources_and_headers] returns to [target.py]: the lists under
    the keys [headers], [include_directories],
    [include_directories_public] and [sourcefiles]. *)
Record files : Type := {
  f_headers : list path;
  f_include_directories : list path;
  f_include_directories_public : list path;
  f_sourcefiles : list path
}.

(** What the two methods use of [io_tools.py] and of [pathlib]:
    [_get_sources_and_headers(options, directory, build_dir)],
    [sourcefile.stem], and the path [_Path("")] that the constructor makes
    of a folder attribute left at the empty string. *)
Class Imports : Type := {
  get_sources_and_headers : Py.dict -> path -> path -> files;
  stem : path -> string;
  Path_of_empty : path
}.

Context `{EI : Imports}.

(** [self.dependency_targets_tests] and [self.dependency_targets_examples]
    as [Target.__init__] sets them (lines 55 to 58) from the argument
    [dependencies_tests] (or [dependencies_examples]) of the constructor:
    the target itself unless it is an executable, then the entries that
    are not [None]. *)
Definition own_dependency (self : target) : list target :=
  match cls self with
  | Executable => []
  | _ => [self]
  end.

Definition dependency_targets_for (self : target)
    (given : list (option target)) : list target :=
  own_dependency self ++ omap id given.

(** The files of the tests (or of the examples): found in the folder of
    that kind when there is one and the options give no [sources], else
    from the root directory. *)
Definition discovered_files (self : target) (folder : option path)
    (kind : string) (kind_options : Py.dict) : files :=
  match folder with
  | Some dir =>
      if negb (Py.contains "sources" kind_options)
      then get_sources_and_headers kind_options dir
             (joinpath (build_directory self) kind)
      else get_sources_and_headers kind_options (root_directory self)
             (joinpath (build_directory self) kind)
  | None =>
      get_sources_and_headers kind_options (root_directory self)
        (joinpath (build_directory self) kind)
  end.

(** [Target.create_test_targets]; [env] is [self.environment] and the
    result is [self.test_targets] when the method returns. *)
Definition create_test_targets (pf : namespace) (env : environment)
    (self : target) (dependencies_tests : list (option target))
    (target_list : list target) : Py.M (list target) :=
  if tests env then
    tests_options <- Py.lift
      (Py.as_dict (Py.get_default "tests" (Py.VDict []) (options self))) ;;
    let files := discovered_files self (tests_folder self) "tests" tests_options in
    match f_sourcefiles files with
    | [] => Py.ret []
    | _ :: _ =>
        let single_executable :=
          match tests_options with
          | [] => Py.VBool true
          | _ :: _ => Py.get_default "single_executable" (Py.VBool true) tests_options
          end in
        let dependencies := dependency_targets_for self dependencies_tests in
        (* Add the tests themselves *)
        test_targets <-
          (if Py.truthy single_executable then
             t <- Executable_init pf (identifier self) "test"
                    (default Path_of_empty (tests_folder self))
                    (joinpath (build_directory self) "tests")
                    (f_headers files) (f_include_directories files)
                    (f_include_directories_public files)
                    (f_sourcefiles files) env
                    (Some tests_options) (Some dependencies) ;;
             Py.ret [t]
           else
             Py.foldM
               (fun test_targets sourcefile =>
                  t <- Executable_init pf (identifier self)
                         ("test_" +:+ stem sourcefile)
                         (default Path_of_empty (tests_folder self))
                         (joinpath (build_directory self) "tests")
                         (f_headers files) (f_include_directories files)
                         (f_include_directories_public files)
                         [sourcefile] env
                         (Some tests_options) (Some dependencies) ;;
                  Py.ret (test_targets ++ [t]))
               (f_sourcefiles files) []) ;;
        (* Add the dependencies of the tests *)
        Py.ret (test_targets ++ dependencies)
    end
  else Py.ret [].

(** What [create_example_targets] may raise: an exception of the classes
    above or the [UnboundLocalError] of a local variable read before any
    assignment. *)
Inductive raised : Type :=
| Raised (e : Py.exn)
| UnboundLocalError (variable : string).

(** [f"{self.project_identifier}.{dependency_name}" if
    self.project_identifier else f"{dependency_name}"] *)
Definition qualified (self : target) (dependency_name : string) : string :=
  if String.eqb (project_identifier self) "" then dependency_name
  else project_identifier self +:+ "." +:+ dependency_name.

(** The loop over the names under [dependencies] of the examples. *)
Definition example_dependencies (self : target)
    (dependencies_examples : list (option target))
    (target_list : list target) (names : list string) : list target :=
  fold_left
    (fun dependencies dependency_name =>
       (dependencies
          ++ List.filter
               (fun target => String.eqb (identifier target)
                                (qualified self dependency_name))
               target_list)
         ++ List.filter
              (fun target => String.eqb (identifier target)
                               (qualified self dependency_name))
              (dependency_targets_for self dependencies_examples))
    names (own_dependency self).

(** [Target.create_example_targets]; the result is [self.example_targets]
    when the method returns. *)
Definition create_example_targets (pf : namespace) (env : environment)
    (self : target) (dependencies_examples : list (option target))
    (target_list : list target)
  : list Py.event -> (raised + list target) * list Py.event :=
  fun tr =>
    if examples env then
      match Py.as_dict (Py.get_default "examples" (Py.VDict []) (options self)) with
      | inl e => (inl (Raised e), tr)
      | inr examples_options =>
          let files := discovered_files self (examples_folder self) "examples"
                         examples_options in
          match f_sourcefiles files with
          | [] => (inr [], tr)
          | _ :: _ =>
              match Py.as_strs (Py.get_default "dependencies" (Py.VList [])
                                  examples_options) with
              | inl e => (inl (Raised e), tr)
              | inr names =>
                  let dependencies :=
                    example_dependencies self dependencies_examples
                      target_list names in
                  match dependencies with
                  | [] => (inl (UnboundLocalError "missing_dependencies"), tr)
                  | _ :: _ =>
                      match
                        Py.foldM
                          (fun example_targets sourcefile =>
                             t <- Executable_init pf (identifier self)
                                    ("example_" +:+ stem sourcefile)
                                    (default Path_of_empty (examples_folder self))
                                    (joinpath (build_directory self) "examples")
                                    (f_headers files)
                                    (f_include_directories files)
                                    (f_include_directories_public files)
                                    [sourcefile] env
                                    (Some examples_options) (Some dependencies) ;;
                             Py.ret (example_targets ++ [t]))
                          (f_sourcefiles files) [] tr
                      with
                      | (inl e, tr') => (inl (Raised e), tr')
                      | (inr example_targets, tr') => (inr example_targets, tr')
                      end
                  end
              end
          end
      end
    else (inr [], tr).

End Expansion.
End Expansion.

(** ** More of the concrete system

    A file system with folders for tests and examples, an interpreter, two
    more environments, a source walker for the tests and the examples, and
    further configurations. *)

Module Samples.

Import Py Platform.

(** A file system on which exactly the paths of [existing] exist. *)
Definition file_system (existing : list string) : PathLib.
Proof.
  refine {| path := string;
            joinpath := fun p s => p +:+ "/" +:+ s;
            resolve := fun p => p;
            path_exists := fun p => existsb (String.eqb p) existing;
            path_str := fun p => p |}.
  reflexivity.
Defined.

Definition tree : PathLib :=
  file_system ["/q/tests"; "/q/example"; "/q/examples"].

Definition tree_tools : @Collaborators tree :=
  {| get_dialect_string := fun v =>
       match v with VStr s => "-std=c++" +:+ s | _ => "-std=c++" end;
     get_max_supported_compiler_dialect := fun _ => "-std=c++17";
     single_source_object_file := fun (source root objects : @path tree) =>
       objects +:+ source +:+ ".o" |}.

(** CPython 3.8 installed under [/usr]. *)
Definition python38 : @sysconfig Demo.posix :=
  {| paths_include := ("/usr/include/python3.8" : @path Demo.posix);
     paths_data := ("/usr" : @path Demo.posix);
     version_major := 3;
     version_minor := 8;
     ext_suffix := Some ".cpython-38-x86_64-linux-gnu.so" |}.

Definition debug : Target.environment :=
  {| Target.build_type := Target.Debug;
     Target.clang := "clang";
     Target.clangpp := "clang++";
     Target.clang_ar := "llvm-ar";
     Target.tests := false;
     Target.examples := false |}.

(** A release build that asks for the tests and the examples. *)
Definition testing : Target.environment :=
  {| Target.build_type := Target.Release;
     Target.clang := "clang";
     Target.clangpp := "clang++";
     Target.clang_ar := "llvm-ar";
     Target.tests := true;
     Target.examples := true |}.

(** Options with a table for Linux and, under [osx], no table at all. *)
Definition mixed_options : dict :=
  [ ("flags", VDict [ ("compile", VList [VStr "-DX"]);
                      ("compile_debug", VList [VStr "-DTRACE"]);
                      ("link", VList [VStr "-lm"]) ]);
    ("osx", VStr "broken");
    ("linux", VDict [ ("flags", VDict [("compile", VList [VStr "-DLINUX"])]) ]) ].

(** *** The source walker of the tests and the examples *)

(** The characters after the last [/]. *)
Fixpoint base_name (cur : string) (s : string) : string :=
  match s with
  | EmptyString => cur
  | String c s' =>
      if Ascii.eqb c "/"%char then base_name "" s'
      else base_name (cur +:+ String c EmptyString) s'
  end.

(** The characters before the last dot, when there is one. *)
Fixpoint before_last_dot (s : string) : option string :=
  match s with
  | EmptyString => None
  | String c s' =>
      match before_last_dot s' with
      | Some r => Some (String c r)
      | None => if Ascii.eqb c "."%char then Some "" else None
      end
  end.

(** [PurePath.stem]: the last component without its suffix. *)
Definition demo_stem (p : @path Demo.posix) : string :=
  let last := base_name "" p in
  match before_last_dot last with
  | Some "" | None => last
  | Some r => r
  end.

(** A walker that finds the files listed under [sources], in the directory
    it is sent to, and neither headers nor include directories. *)
Definition walker : @Expansion.Imports Demo.posix :=
  {| Expansion.get_sources_and_headers :=
       fun (options : dict) (directory build_dir : @path Demo.posix) =>
         {| Expansion.f_headers := [];
            Expansion.f_include_directories := [];
            Expansion.f_include_directories_public := [];
            Expansion.f_sourcefiles :=
              match as_strs (get_default "sources" (VList []) options) with
              | inr names => List.map (@joinpath Demo.posix directory) names
              | inl _ => []
              end |};
     Expansion.stem := demo_stem;
     Expansion.Path_of_empty := ("." : @path Demo.posix) |}.

(** The options of a library with two test programs and one example. *)
Definition mathlib_options : dict :=
  [ ("tests", VDict [ Demo.sources ["t1.cpp"; "t2.cpp"];
                      ("single_executable", VBool false) ]);
    ("examples", VDict [ Demo.sources ["demo.cpp"] ]) ].

(** *** Configurations *)

(** A target beside a list of subprojects, in a project without a name. *)
Definition mixed_config : dict :=
  [ ("app", VDict [Demo.sources ["main.cpp"]]);
    ("subproject", VList [VDict Demo.named_config]) ].

(** A named project with a target whose name begins with [project]. *)
Definition prefixed_config : dict :=
  [ ("name", VStr "proj");
    ("project_utils", VDict [Demo.sources ["utils.cpp"]]) ].

(** A target that depends on a name no definition has. *)
Definition ghost_config : dict :=
  [ ("app", VDict [ Demo.sources ["main.cpp"];
                    ("dependencies", VList [VStr "ghost"]) ]) ].

(** A project that holds a subproject and no target of its own; the
    subproject has one target, of an unknown type. *)
Definition umbrella_config : dict :=
  [ ("name", VStr "top");
    ("subproject", VList [VDict (("name", VStr "inner") :: Demo.gui_config)]) ].


End Samples.

(** ** Vocabulary of the statements *)

Section Vocabulary.
Context `{PL : PathLib} `{PS : PySet} `{CO : !Collaborators}.
Import Py Platform Target.

(** The include directories before the removal of duplicates. *)
Definition gathered_includes (root_directory : path)
    (include_directories include_directories_public : list path)
    (dependencies : list target) : list path * list path :=
  fold_left add_dependency_includes dependencies
    (include_directories ++ include_directories_public,
     (if path_exists (joinpath root_directory "include")
      then [joinpath root_directory "include"] else [])
       ++ include_directories_public).

(** The flag vectors after the loop over the dependencies. *)
Definition gathered_flags (self_class : target_class) (env : environment)
    (own : list string * list string) (dependencies : list target)
  : flag_vectors :=
  fold_left (add_dependency_flags self_class) dependencies
    {| compile_flags := default_build_type_flags (build_type env) ++ fst own;
       link_flags := snd own;
       compile_flags_interface := [];
       link_flags_interface := [];
       compile_flags_public := [];
       link_flags_public := [] |}.

(** The flags of one vector of every dependency, in the order of the
    dependency list. *)
Definition from_dependencies (vector : flag_vectors -> list string)
    (dependencies : list target) : list string :=
  List.concat (List.map (fun d => vector (flags d)) dependencies).

(** The dependencies a link step names: all but the [HeaderOnly] ones. *)
Definition linked_dependencies (dependencies : list target) : list target :=
  List.filter (fun d => negb (is_HeaderOnly (cls d))) dependencies.

(** The link-command templates of the specification (section 4.4), over
    the attributes of the target ([comp]), of its linked dependencies and
    its link flags. *)
Definition link_template (self_class : target_class) (env : environment)
    (comp : compilable) (linked : list compilable) (link_flags : list string)
  : list string :=
  match self_class with
  | Executable =>
      [clangpp env; "-o"; path_str (outfile comp)]
        ++ object_files comp
        ++ List.concat
             (List.map (fun d => ["-L"; path_str (resolve (output_folder d))]) linked)
        ++ link_flags
        ++ List.map (fun d => "-l" +:+ outname d) linked
  | SharedLibrary =>
      [clangpp env; "-shared"; "-o"; path_str (outfile comp)]
        ++ object_files comp
        ++ List.concat
             (List.map (fun d => ["-L"; path_str (resolve (output_folder d))]) linked)
        ++ link_flags
        ++ List.map (fun d => "-l" +:+ outname d) linked
  | StaticLibrary =>
      [clang_ar env; "rc"; path_str (outfile comp)]
        ++ object_files comp
        ++ link_flags
        ++ List.concat (List.map object_files linked)
  | HeaderOnly => []
  end.

(** The compile flags a target takes from its dependencies for itself. *)
Definition absorbed_compile_flags (self_class : target_class)
    (dependencies : list target) : list string :=
  match self_class with
  | HeaderOnly => []
  | StaticLibrary => from_dependencies compile_flags_public dependencies
  | Executable | SharedLibrary =>
      from_dependencies
        (fun v => compile_flags_interface v ++ compile_flags_public v)
        dependencies
  end.

(** The message of the error for a [Compilable] without source files. *)
Definition no_sources_message (self_class : target_class)
    (identifier : string) : string :=
  "[" +:+ identifier +:+ "]: ERROR: Target was defined as a "
      +:+ class_repr self_class +:+ " but no source files were found".

(** A [target_type], compared in lower case, that names a class. *)
Definition supported_type (ty : string) : bool :=
  String.eqb (lower ty) "executable" || String.eqb (lower ty) "shared library"
    || String.eqb (lower ty) "static library"
    || String.eqb (lower ty) "header only".

(** The [target_type] of a definition when it is a string that names no
    class. *)
Definition unsupported_type (node : dict) : option string :=
  match dict_get "target_type" node with
  | Some (VStr ty) => if supported_type ty then None else Some ty
  | _ => None
  end.

(** The exceptions in which the choice of a class ends when the classes
    are those of [target.py]. *)
Definition constructor_errors : list exn :=
  [ AttributeError "clangpp"; AttributeError "clang_ar";
    AttributeError "tests"; AttributeError "examples"; TypeError ].
End Vocabulary.

(** ** Vocabulary of the further statements *)

Section Terms.
Context `{PL : PathLib} `{PS : PySet} `{CO : !Collaborators}.
Import Py Platform Target.

(** The value [platform.py] binds to [PLATFORM] on a supported system. *)
Definition platform_key (sys_platform : string) : string :=
  if String.eqb sys_platform "linux" then "linux"
  else if String.eqb sys_platform "darwin" then "osx"
  else "windows".

Definition is_platform_key (key : string) : bool :=
  String.eqb key "osx" || String.eqb key "windows" || String.eqb key "linux".

(** The options without the entries under the platform keys other than
    [current]. *)
Definition without_other_platforms (current : string) (options : dict) : dict :=
  filter_keys (fun key => String.eqb key current || negb (is_platform_key key))
    options.

(** The folder [a] or [b] under the root, the first that exists. *)
Definition found_folder (root : path) (a b : string) : option path :=
  if path_exists (joinpath root a) then Some (joinpath root a)
  else if path_exists (joinpath root b) then Some (joinpath root b)
  else None.

(** The record logged for a folder that was found. *)
Definition found_message (ident what : string) (folder : option path)
  : list event :=
  match folder with
  | Some p =>
      [Log ModuleLogger INFO
         ("[" +:+ ident +:+ "]: found " +:+ what +:+ " folder " +:+ path_str p)]
  | None => []
  end.

(** The folder of the tests (or of the examples) of a constructed target:
    the folder found, else the root when that kind was requested and its
    table in the options has [sources]. *)
Definition expected_folder (root : path) (a b key : string) (requested : bool)
    (options : dict) : option path :=
  match found_folder root a b with
  | Some p => Some p
  | None =>
      match dict_get key options with
      | Some (VDict sub) =>
          if requested && contains "sources" sub then Some root else None
      | _ => None
      end
  end.

(** The identifier of a target by its project and its name. *)
Definition identifier_of (project_identifier name : string) : string :=
  if String.eqb project_identifier "" then name
  else project_identifier +:+ "." +:+ name.

(** The names of the attributes of the platform module that the
    constructor of a class reads: output folder, prefix, suffix, extra
    flags. *)
Definition output_constant (c : target_class) : string :=
  match c with
  | Executable => "EXECUTABLE_OUTPUT"
  | SharedLibrary => "SHARED_LIBRARY_OUTPUT"
  | StaticLibrary => "STATIC_LIBRARY_OUTPUT"
  | HeaderOnly => ""
  end.
Definition prefix_constant (c : target_class) : string :=
  match c with
  | Executable => "EXECUTABLE_PREFIX"
  | SharedLibrary => "SHARED_LIBRARY_PREFIX"
  | StaticLibrary => "STATIC_LIBRARY_PREFIX"
  | HeaderOnly => ""
  end.
Definition suffix_constant (c : target_class) : string :=
  match c with
  | Executable => "EXECUTABLE_SUFFIX"
  | SharedLibrary => "SHARED_LIBRARY_SUFFIX"
  | StaticLibrary => "STATIC_LIBRARY_SUFFIX"
  | HeaderOnly => ""
  end.
Definition extra_flags_constant (c : target_class) : string :=
  match c with
  | Executable => "PLATFORM_EXTRA_FLAGS_EXECUTABLE"
  | SharedLibrary => "PLATFORM_EXTRA_FLAGS_SHARED"
  | StaticLibrary => "PLATFORM_EXTRA_FLAGS_STATIC"
  | HeaderOnly => ""
  end.

(** The dialect of a target: the one of [properties.cpp_version] when the
    options give it, else the newest the compiler supports. *)
Definition expected_dialect (env : environment) (options : dict) : string :=
  match dict_get "properties" options with
  | Some (VDict props) =>
      match dict_get "cpp_version" props with
      | Some v => get_dialect_string v
      | None => get_max_supported_compiler_dialect (clangpp env)
      end
  | _ => get_max_supported_compiler_dialect (clangpp env)
  end.

(** An executable constructed for a test or an example of a target: what
    the call passed is what the object holds. *)
Definition expansion_target (owner : string) (name' : string)
    (root build : path) (sources : list path) (options' : dict)
    (dependencies : list target) (t : target) : Prop :=
  cls t = Executable /\
  project_identifier t = owner /\
  name t = name' /\
  root_directory t = root /\
  build_directory t = build /\
  options t = options' /\
  dependency_targets t = dependencies /\
  exists comp, compiled t = Some comp /\ source_files comp = sources.

End Terms.

(** * Properties *)

(** ** Running the monad *)

Section Runs.
Import Py.
Context {A B : Type}.

Lemma bind_inr (m : M A) (k : A -> M B) tr b tr' :
  bind m k tr = (inr b, tr') ->
  exists a tr1, m tr = (inr a, tr1) /\ k a tr1 = (inr b, tr').
Proof.
  unfold bind. destruct (m tr) as [[e | a] tr1]; intros Hk.
  - discriminate.
  - exists a, tr1. split; [reflexivity | exact Hk].
Qed.


Lemma lift_inr (r : exn + A) tr a tr' :
  lift r tr = (inr a, tr') -> r = inr a /\ tr' = tr.
Proof. unfold lift. intros [= -> ->]. split; reflexivity. Qed.

Lemma ret_inr (a a' : A) tr tr' :
  ret a tr = (inr a', tr') -> a' = a /\ tr' = tr.
Proof. unfold ret. intros [= -> ->]. split; reflexivity. Qed.

Lemma and_then_inr (r : exn + A) (k : A -> exn + B) b :
  and_then r k = inr b -> exists a, r = inr a /\ k a = inr b.
Proof.
  destruct r as [e | a]; simpl; intros Hk.
  - discriminate.
  - exists a. split; [reflexivity | exact Hk].
Qed.

End Runs.

(** Splits the successful runs among the hypotheses along their binds. *)
Ltac run_inv :=
  repeat
    match goal with
    | H : Py.bind _ _ _ = (inr _, _) |- _ =>
        apply bind_inr in H; destruct H as (? & ? & ? & ?)
    | H : Py.lift _ _ = (inr _, _) |- _ =>
        apply lift_inr in H; destruct H as (? & ?)
    | H : Py.ret _ _ = (inr _, _) |- _ =>
        apply ret_inr in H; destruct H as (? & ?)
    | H : Py.raise _ _ = (inr _, _) |- _ => discriminate H
    end.

(** ** Facts on [Target.__init__] *)

Section TargetFacts.
Context `{PL : PathLib} `{PS : PySet} `{CO : !Collaborators}.
Import Py Platform Target.

Lemma Target_init_inv c pf pid n r b hs i ip env o d tr t tr' :
  Target_init c pf pid n r b hs i ip env o d tr = (inr t, tr') ->
  exists own iface pub,
    parse_flags_options pf env (default [] o) "flags" = inr own /\
    parse_flags_options pf env (default [] o) "interface-flags" = inr iface /\
    parse_flags_options pf env (default [] o) "public-flags" = inr pub /\
    cls t = c /\
    options t = default [] o /\
    dependency_targets t = default [] d /\
    name t = n /\
    root_directory t = r /\
    build_directory t = b /\
    include_directories t =
      list_set (List.map resolve (fst (gathered_includes r i ip (default [] d)))) /\
    include_directories_public t = snd (gathered_includes r i ip (default [] d)) /\
    compiled t = None /\
    let fv := gathered_flags c env own (default [] d) in
    flags t =
      {| compile_flags := list_set (compile_flags fv) ++ fst pub;
         link_flags := link_flags fv ++ snd pub;
         compile_flags_interface := compile_flags_interface fv ++ fst iface;
         link_flags_interface := link_flags_interface fv ++ snd iface;
         compile_flags_public := compile_flags_public fv ++ fst pub;
         link_flags_public := link_flags_public fv ++ snd pub |}.
Proof.
  unfold Target_init. intros H.
  run_inv. subst.
  do 3 eexists.
  repeat split; try eassumption; reflexivity.
Qed.

Lemma Compilable_init_inv c pf pid n r b hs i ip srcs env lc out extra pre suf
    o d tr t tr' :
  Compilable_init c pf pid n r b hs i ip srcs env lc out extra pre suf o d tr
    = (inr t, tr') ->
  exists self comp out_s pre_s suf_s,
    Target_init c pf pid n r b hs i ip env o d tr = (inr self, tr') /\
    t = set_compiled comp self /\
    srcs <> [] /\
    attr_str out = inr out_s /\
    attr_str pre = inr pre_s /\
    attr_str suf = inr suf_s /\
    output_folder comp = resolve (joinpath b out_s) /\
    outfile comp =
      resolve (joinpath (output_folder comp) (pre_s +:+ outname comp +:+ suf_s)) /\
    source_files comp = srcs /\
    List.map source_file (buildables comp) = srcs /\
    Forall (fun bu =>
              ss_compile_flags bu = DEFAULT_COMPILE_FLAGS ++ compile_flags (flags self)
              /\ platform_flags bu = extra)
           (buildables comp) /\
    link_command comp = lc ++ [path_str (outfile comp)].
Proof.
  unfold Compilable_init. intros H.
  apply bind_inr in H. destruct H as (self & tr1 & Hself & H).
  destruct srcs as [| s0 srcs'].
  { run_inv. }
  run_inv. subst.
  pose proof (Target_init_inv _ _ _ _ _ _ _ _ _ _ _ _ _ _ _ Hself) as Hinv.
  destruct Hinv as (own & iface & pub & _ & _ & _ & _ & _ & _ & _ & _ & Hb & _).
  eexists self, _, _, _, _.
  split; [exact Hself |].
  split; [reflexivity |].
  split; [discriminate |].
  repeat (split; [eassumption |]).
  cbn [output_folder outfile outname source_files buildables link_command].
  rewrite Hb.
  split; [reflexivity |].
  split; [reflexivity |].
  split; [reflexivity |].
  split.
  { cbn [List.map source_file]. f_equal.
    rewrite List.map_map. cbn [source_file]. apply List.map_id. }
  split; [| reflexivity].
  constructor.
  { cbn [ss_compile_flags platform_flags]. split; reflexivity. }
  apply Forall_map. apply Forall_forall. intros s _.
  cbn [ss_compile_flags platform_flags]. split; reflexivity.
Qed.

Lemma compiled_attrs_inr attr t c :
  compiled_attrs attr t = inr c -> compiled t = Some c.
Proof.
  unfold compiled_attrs. destruct (compiled t); intros [= ->]; reflexivity.
Qed.

Lemma over_linked_dependencies_inr attr f deps l :
  over_linked_dependencies attr f deps = inr l ->
  exists cs,
    List.map compiled (linked_dependencies deps) = List.map Some cs /\
    l = List.concat (List.map f cs).
Proof.
  revert l. induction deps as [| dep deps IH]; intros l H; simpl in H.
  - injection H as <-. exists []. split; reflexivity.
  - unfold linked_dependencies. simpl.
    destruct (is_HeaderOnly (cls dep)); simpl.
    + apply IH, H.
    + apply and_then_inr in H. destruct H as (c & Hc & H).
      apply and_then_inr in H. destruct H as (more & Hmore & H).
      injection H as <-.
      destruct (IH _ Hmore) as (cs & Hcs & ->).
      exists (c :: cs). simpl. split; [| reflexivity].
      f_equal; [apply compiled_attrs_inr in Hc; exact Hc | exact Hcs].
Qed.

Lemma map_Some_inj {X} (xs ys : list X) :
  List.map Some xs = List.map Some ys -> xs = ys.
Proof.
  revert ys. induction xs as [| x xs IH]; intros [| y ys] H; simpl in H;
    try discriminate; [reflexivity |].
  injection H as -> H. f_equal. apply IH, H.
Qed.

Lemma link_with_dependencies_inv self tr t tr' :
  link_with_dependencies self tr = (inr t, tr') ->
  exists c cs,
    compiled self = Some c /\
    List.map compiled (linked_dependencies (dependency_targets self))
      = List.map Some cs /\
    tr' = tr /\
    t = set_compiled
          (set_link_command
             ((((link_command c ++ object_files c)
                  ++ List.concat
                       (List.map (fun d => ["-L"; path_str (resolve (output_folder d))]) cs))
                 ++ link_flags (flags self))
                ++ List.concat (List.map (fun d => ["-l" +:+ outname d]) cs)) c)
          self.
Proof.
  unfold link_with_dependencies. intros H. run_inv. subst.
  match goal with H : compiled_attrs _ _ = inr _ |- _ =>
    apply compiled_attrs_inr in H; rename H into Hc end.
  repeat match goal with H : over_linked_dependencies _ _ _ = inr _ |- _ =>
    apply over_linked_dependencies_inr in H; destruct H as (? & ? & ?) end.
  subst.
  match goal with
  | H1 : List.map compiled _ = List.map Some ?xs,
    H2 : List.map compiled _ = List.map Some ?ys |- _ =>
      assert (xs = ys) by (apply map_Some_inj; congruence); subst
  end.
  eexists _, _. repeat split; eassumption || reflexivity.
Qed.

Lemma concat_map_singleton {X Y} (f : X -> Y) (xs : list X) :
  List.concat (List.map (fun x => [f x]) xs) = List.map f xs.
Proof. induction xs as [| x xs IH]; simpl; [reflexivity | f_equal; exact IH]. Qed.

(** What a constructor that returned has done: the base constructor ran
    from the same trace, and a [Compilable] got its attributes. *)
Lemma new_inv c pf pid n r b hs i ip srcs env o d tr t tr' :
  new c pf pid n r b hs i ip srcs env o d tr = (inr t, tr') ->
  exists self,
    Target_init c pf pid n r b hs i ip env o d tr = (inr self, tr') /\
    cls t = c /\
    flags t = flags self /\
    include_directories t = include_directories self /\
    include_directories_public t = include_directories_public self /\
    dependency_targets t = default [] d /\
    match c with
    | HeaderOnly => t = self
    | _ =>
        exists comp linked,
          compiled t = Some comp /\
          srcs <> [] /\
          List.map source_file (buildables comp) = srcs /\
          Forall (fun bu =>
                    ss_compile_flags bu
                      = DEFAULT_COMPILE_FLAGS ++ compile_flags (flags self))
                 (buildables comp) /\
          List.map compiled (linked_dependencies (default [] d))
            = List.map Some linked /\
          link_command comp
            = link_template c env comp linked (link_flags (flags self))
    end.
Proof.
  intros H.
  destruct c; unfold new, HeaderOnly_init, Executable_init, SharedLibrary_init,
    StaticLibrary_init in H.
  - (* HeaderOnly *)
    exists t. destruct (Target_init_inv _ _ _ _ _ _ _ _ _ _ _ _ _ _ _ H)
      as (own & iface & pub & _ & _ & _ & Hc & _ & Hd & _).
    repeat split; assumption || reflexivity.
  - (* Executable *)
    run_inv. subst.
    match goal with H : Compilable_init _ _ _ _ _ _ _ _ _ _ _ _ _ _ _ _ _ _ _ = _ |- _ =>
      apply Compilable_init_inv in H;
      destruct H as (self & comp & out_s & pre_s & suf_s & Hself & -> & Hsrcs
                     & _ & _ & _ & _ & _ & _ & Hmap & Hall & Hlc) end.
    match goal with H : link_with_dependencies _ _ = _ |- _ =>
      apply link_with_dependencies_inv in H;
      destruct H as (c0 & cs & Hc0 & Hcs & -> & ->) end.
    cbn in Hc0. injection Hc0 as <-.
    destruct (Target_init_inv _ _ _ _ _ _ _ _ _ _ _ _ _ _ _ Hself)
      as (own & iface & pub & _ & _ & _ & Hc & _ & Hd & _).
    cbn in Hcs. rewrite Hd in Hcs.
    exists self. cbn. repeat split; try assumption.
    exists (set_link_command
              ((((link_command comp ++ object_files comp)
                   ++ List.concat
                        (List.map (fun d => ["-L"; path_str (resolve (output_folder d))]) cs))
                  ++ link_flags (flags self))
                 ++ List.concat (List.map (fun d => ["-l" +:+ outname d]) cs)) comp), cs.
    cbn. repeat split; try assumption.
    + eapply Forall_impl; [exact Hall |]. intros bu [Hbu _]. exact Hbu.
    + rewrite Hlc, concat_map_singleton. unfold object_files. cbn.
      rewrite <- !app_assoc. reflexivity.
  - (* SharedLibrary *)
    run_inv. subst.
    match goal with H : Compilable_init _ _ _ _ _ _ _ _ _ _ _ _ _ _ _ _ _ _ _ = _ |- _ =>
      apply Compilable_init_inv in H;
      destruct H as (self & comp & out_s & pre_s & suf_s & Hself & -> & Hsrcs
                     & _ & _ & _ & _ & _ & _ & Hmap & Hall & Hlc) end.
    match goal with H : link_with_dependencies _ _ = _ |- _ =>
      apply link_with_dependencies_inv in H;
      destruct H as (c0 & cs & Hc0 & Hcs & -> & ->) end.
    cbn in Hc0. injection Hc0 as <-.
    destruct (Target_init_inv _ _ _ _ _ _ _ _ _ _ _ _ _ _ _ Hself)
      as (own & iface & pub & _ & _ & _ & Hc & _ & Hd & _).
    cbn in Hcs. rewrite Hd in Hcs.
    exists self. cbn. repeat split; try assumption.
    exists (set_link_command
              ((((link_command comp ++ object_files comp)
                   ++ List.concat
                        (List.map (fun d => ["-L"; path_str (resolve (output_folder d))]) cs))
                  ++ link_flags (flags self))
                 ++ List.concat (List.map (fun d => ["-l" +:+ outname d]) cs)) comp), cs.
    cbn. repeat split; try assumption.
    + eapply Forall_impl; [exact Hall |]. intros bu [Hbu _]. exact Hbu.
    + rewrite Hlc, concat_map_singleton. unfold object_files. cbn.
      rewrite <- !app_assoc. reflexivity.
  - (* StaticLibrary *)
    run_inv. subst.
    match goal with H : Compilable_init _ _ _ _ _ _ _ _ _ _ _ _ _ _ _ _ _ _ _ = _ |- _ =>
      apply Compilable_init_inv in H;
      destruct H as (self & comp & out_s & pre_s & suf_s & Hself & -> & Hsrcs
                     & _ & _ & _ & _ & _ & _ & Hmap & Hall & Hlc) end.
    match goal with H : compiled_attrs _ _ = inr _ |- _ =>
      apply compiled_attrs_inr in H; cbn in H; injection H as <- end.
    match goal with H : over_linked_dependencies _ _ _ = inr _ |- _ =>
      apply over_linked_dependencies_inr in H; destruct H as (cs & Hcs & ->) end.
    destruct (Target_init_inv _ _ _ _ _ _ _ _ _ _ _ _ _ _ _ Hself)
      as (own & iface & pub & _ & _ & _ & Hc & _ & Hd & _).
    cbn in Hcs. rewrite Hd in Hcs.
    exists self. cbn. repeat split; try assumption.
    eexists (set_link_command _ comp), cs.
    cbn. repeat split; try assumption.
    + eapply Forall_impl; [exact Hall |]. intros bu [Hbu _]. exact Hbu.
    + rewrite Hlc. unfold object_files. cbn.
      rewrite <- !app_assoc. reflexivity.
Qed.

(** The loop over the dependencies, class by class. *)

Lemma fold_flags_HeaderOnly deps fv :
  fold_left (add_dependency_flags HeaderOnly) deps fv =
  {| compile_flags := compile_flags fv;
     link_flags := link_flags fv;
     compile_flags_interface :=
       compile_flags_interface fv ++ from_dependencies compile_flags_interface deps;
     link_flags_interface :=
       link_flags_interface fv ++ from_dependencies link_flags_interface deps;
     compile_flags_public :=
       compile_flags_public fv ++ from_dependencies compile_flags_public deps;
     link_flags_public :=
       link_flags_public fv ++ from_dependencies link_flags_public deps |}.
Proof.
  revert fv. induction deps as [| dep deps IH]; intros fv.
  - destruct fv. unfold from_dependencies. cbn. rewrite !app_nil_r. reflexivity.
  - cbn [fold_left]. rewrite IH. unfold from_dependencies. cbn.
    rewrite <- !app_assoc. reflexivity.
Qed.

Lemma fold_flags_StaticLibrary deps fv :
  fold_left (add_dependency_flags StaticLibrary) deps fv =
  {| compile_flags :=
       compile_flags fv ++ from_dependencies compile_flags_public deps;
     link_flags := link_flags fv ++ from_dependencies link_flags_public deps;
     compile_flags_interface :=
       compile_flags_interface fv ++ from_dependencies compile_flags_interface deps;
     link_flags_interface :=
       link_flags_interface fv ++ from_dependencies link_flags_interface deps;
     compile_flags_public := compile_flags_public fv;
     link_flags_public := link_flags_public fv |}.
Proof.
  revert fv. induction deps as [| dep deps IH]; intros fv.
  - destruct fv. unfold from_dependencies. cbn. rewrite !app_nil_r. reflexivity.
  - cbn [fold_left]. rewrite IH. unfold from_dependencies. cbn.
    rewrite <- !app_assoc. reflexivity.
Qed.

Lemma fold_flags_absorbing c deps fv :
  c = Executable \/ c = SharedLibrary ->
  fold_left (add_dependency_flags c) deps fv =
  {| compile_flags :=
       compile_flags fv
         ++ from_dependencies
              (fun v => compile_flags_interface v ++ compile_flags_public v) deps;
     link_flags :=
       link_flags fv
         ++ from_dependencies
              (fun v => link_flags_interface v ++ link_flags_public v) deps;
     compile_flags_interface := compile_flags_interface fv;
     link_flags_interface := link_flags_interface fv;
     compile_flags_public := compile_flags_public fv;
     link_flags_public := link_flags_public fv |}.
Proof.
  intros Hc. revert fv. induction deps as [| dep deps IH]; intros fv.
  - destruct fv. unfold from_dependencies. cbn. rewrite !app_nil_r. reflexivity.
  - cbn [fold_left]. rewrite IH. unfold from_dependencies.
    destruct Hc as [-> | ->]; cbn; rewrite <- !app_assoc; reflexivity.
Qed.

Lemma gathered_compile_flags c env own deps :
  compile_flags (gathered_flags c env own deps)
  = default_build_type_flags (build_type env) ++ fst own
      ++ absorbed_compile_flags c deps.
Proof.
  unfold gathered_flags, absorbed_compile_flags. destruct c.
  - rewrite fold_flags_HeaderOnly. cbn. rewrite app_nil_r. reflexivity.
  - rewrite (fold_flags_absorbing Executable) by (left; reflexivity). cbn.
    rewrite <- app_assoc. reflexivity.
  - rewrite (fold_flags_absorbing SharedLibrary) by (right; reflexivity). cbn.
    rewrite <- app_assoc. reflexivity.
  - rewrite fold_flags_StaticLibrary. cbn. rewrite <- app_assoc. reflexivity.
Qed.

(** The loop over the dependencies that gathers the include directories. *)
Lemma fold_includes deps acc :
  fold_left add_dependency_includes deps acc
  = (fst acc
       ++ List.concat
            (List.map (fun d => (if is_HeaderOnly (cls d)
                                 then include_directories d else [])
                                  ++ include_directories_public d) deps),
     snd acc ++ List.concat (List.map include_directories_public deps)).
Proof.
  revert acc. induction deps as [| dep deps IH]; intros [priv pub].
  - cbn. rewrite !app_nil_r. reflexivity.
  - cbn [fold_left]. rewrite IH. unfold add_dependency_includes. cbn.
    rewrite <- !app_assoc. reflexivity.
Qed.

Lemma count_base_flag (f : string) (l : list string) :
  f ∈ DEFAULT_COMPILE_FLAGS -> f ∉ l ->
  count_occ string_dec (DEFAULT_COMPILE_FLAGS ++ l) f = 1%nat.
Proof.
  intros Hf Hl.
  rewrite List.count_occ_app.
  assert (Hzero : count_occ string_dec l f = 0%nat).
  { apply List.count_occ_not_In. rewrite <- list_elem_of_In. exact Hl. }
  rewrite Hzero.
  unfold DEFAULT_COMPILE_FLAGS in *.
  repeat (apply elem_of_cons in Hf; destruct Hf as [-> | Hf]; [reflexivity |]).
  apply elem_of_nil in Hf. contradiction.
Qed.

Lemma base_flag_is_no_build_type_flag (f : string) (bt : BuildType) :
  f ∈ DEFAULT_COMPILE_FLAGS -> f ∉ default_build_type_flags bt.
Proof.
  unfold DEFAULT_COMPILE_FLAGS. intros Hf.
  repeat (apply elem_of_cons in Hf; destruct Hf as [-> | Hf];
          [destruct bt; cbn;
           unfold DEFAULT_COMPILE_FLAGS_RELEASE, DEFAULT_COMPILE_FLAGS_DEBUG,
             DEFAULT_COMPILE_FLAGS_RELWITHDEBINFO, DEFAULT_COMPILE_FLAGS_COVERAGE,
             DEFAULT_COMPILE_FLAGS_DEBUG; cbn;
           intros Hin;
           repeat (apply elem_of_cons in Hin; destruct Hin as [Hin | Hin];
                   [discriminate Hin |]);
           apply elem_of_nil in Hin; contradiction |]).
  apply elem_of_nil in Hf. contradiction.
Qed.

End TargetFacts.

(** ** Flag propagation *)

Section FlagPropagation.
Context `{PL : PathLib} `{PS : PySet} `{CO : !Collaborators}.
Import Py Platform Target.

(** C1.  Flag propagation follows the visibility table.  Whatever the class
    constructed, [own], [iface] and [pub] being the flags the options of the
    target give under [flags], [interface-flags] and [public-flags]:
    a HeaderOnly appends the interface flags of every dependency to its
    interface vectors and their public flags to its public vectors, and
    applies none of them to itself; a StaticLibrary appends their interface
    flags to its interface vectors and applies their public flags to its
    private compile and link flags; an Executable or a SharedLibrary applies
    both to its private flags, and its interface and public vectors hold
    its own flags only.  (The private compile flags went through
    [list(set(...))]: they are given up to order and repetition.) *)
Theorem C1_flag_propagation c pf pid n r b hs i ip srcs env o d tr t tr' :
  new c pf pid n r b hs i ip srcs env o d tr = (inr t, tr') ->
  exists own iface pub,
    parse_flags_options pf env (default [] o) "flags" = inr own /\
    parse_flags_options pf env (default [] o) "interface-flags" = inr iface /\
    parse_flags_options pf env (default [] o) "public-flags" = inr pub /\
    let deps := default [] d in
    let defaults := default_build_type_flags (build_type env) in
    match c with
    | HeaderOnly =>
        compile_flags_interface (flags t)
          = from_dependencies compile_flags_interface deps ++ fst iface /\
        link_flags_interface (flags t)
          = from_dependencies link_flags_interface deps ++ snd iface /\
        compile_flags_public (flags t)
          = from_dependencies compile_flags_public deps ++ fst pub /\
        link_flags_public (flags t)
          = from_dependencies link_flags_public deps ++ snd pub /\
        (forall f, f ∈ compile_flags (flags t)
                   <-> f ∈ defaults ++ fst own ++ fst pub) /\
        link_flags (flags t) = snd own ++ snd pub
    | StaticLibrary =>
        compile_flags_interface (flags t)
          = from_dependencies compile_flags_interface deps ++ fst iface /\
        link_flags_interface (flags t)
          = from_dependencies link_flags_interface deps ++ snd iface /\
        (forall f, f ∈ compile_flags (flags t)
                   <-> f ∈ defaults ++ fst own
                           ++ from_dependencies compile_flags_public deps
                           ++ fst pub) /\
        link_flags (flags t)
          = snd own ++ from_dependencies link_flags_public deps ++ snd pub /\
        compile_flags_public (flags t) = fst pub /\
        link_flags_public (flags t) = snd pub
    | Executable | SharedLibrary =>
        (forall f, f ∈ compile_flags (flags t)
                   <-> f ∈ defaults ++ fst own
                           ++ from_dependencies
                                (fun v => compile_flags_interface v
                                            ++ compile_flags_public v) deps
                           ++ fst pub) /\
        link_flags (flags t)
          = snd own
              ++ from_dependencies
                   (fun v => link_flags_interface v ++ link_flags_public v) deps
              ++ snd pub /\
        compile_flags_interface (flags t) = fst iface /\
        link_flags_interface (flags t) = snd iface /\
        compile_flags_public (flags t) = fst pub /\
        link_flags_public (flags t) = snd pub
    end.
Proof.
  intros H.
  destruct (new_inv _ _ _ _ _ _ _ _ _ _ _ _ _ _ _ _ H)
    as (self & Hself & _ & Hflags & _).
  destruct (Target_init_inv _ _ _ _ _ _ _ _ _ _ _ _ _ _ _ Hself)
    as (own & iface & pub & Hown & Hiface & Hpub & _ & _ & _ & _ & _ & _ & _ & _
        & _ & Hfv).
  exists own, iface, pub.
  split; [exact Hown |]. split; [exact Hiface |]. split; [exact Hpub |].
  cbn zeta in Hfv |- *. rewrite Hflags, Hfv. unfold gathered_flags.
  destruct c.
  - rewrite fold_flags_HeaderOnly. cbn.
    repeat split; try reflexivity;
      rewrite !elem_of_app, list_set_elem, !elem_of_app; tauto.
  - rewrite (fold_flags_absorbing Executable) by (left; reflexivity). cbn.
    repeat split; try reflexivity; try (rewrite <- app_assoc; reflexivity);
      rewrite !elem_of_app, list_set_elem, !elem_of_app; tauto.
  - rewrite (fold_flags_absorbing SharedLibrary) by (right; reflexivity). cbn.
    repeat split; try reflexivity; try (rewrite <- app_assoc; reflexivity);
      rewrite !elem_of_app, list_set_elem, !elem_of_app; tauto.
  - rewrite fold_flags_StaticLibrary. cbn.
    repeat split; try reflexivity; try (rewrite <- app_assoc; reflexivity);
      rewrite !elem_of_app, list_set_elem, !elem_of_app; tauto.
Qed.

End FlagPropagation.

(** ** Link commands *)

Section LinkCommands.
Context `{PL : PathLib} `{PS : PySet} `{CO : !Collaborators}.
Import Py Platform Target.

(** C3.  The link command of a constructed Executable, SharedLibrary or
    StaticLibrary is the template of its class ([link_template]): driver,
    [-o] (after [-shared] for a shared library), output file, own object
    files, one [-L <output folder>] per dependency, the link flags, one
    [-l<outname>] per dependency; or archiver, [rc], output file, own
    object files, link flags and the object files of the dependencies.
    The dependencies named are those that are not HeaderOnly, and the
    target has one buildable per source file, in order. *)
Theorem C3_link_command_templates c pf pid n r b hs i ip srcs env o d tr t tr' :
  c <> HeaderOnly ->
  new c pf pid n r b hs i ip srcs env o d tr = (inr t, tr') ->
  exists comp linked,
    compiled t = Some comp /\
    List.map source_file (buildables comp) = srcs /\
    List.map compiled (linked_dependencies (default [] d)) = List.map Some linked /\
    link_command comp = link_template c env comp linked (link_flags (flags t)).
Proof.
  intros Hc H.
  destruct (new_inv _ _ _ _ _ _ _ _ _ _ _ _ _ _ _ _ H)
    as (self & _ & _ & Hflags & _ & _ & _ & Hcomp).
  rewrite Hflags.
  destruct c; [congruence | | |];
    destruct Hcomp as (comp & linked & Ht & _ & Hsrc & _ & Hlinked & Hcmd);
    exists comp, linked; repeat split; assumption.
Qed.

End LinkCommands.

(** ** Source files and compile flags *)

Section Sources.
Context `{PL : PathLib} `{PS : PySet} `{CO : !Collaborators}.
Import Py Platform Target.

Lemma Compilable_init_no_sources c pf pid n r b hs i ip env lc out extra pre suf
    o d tr :
  match Target_init c pf pid n r b hs i ip env o d tr with
  | (inl e, tr1) =>
      Compilable_init c pf pid n r b hs i ip [] env lc out extra pre suf o d tr
        = (inl e, tr1)
  | (inr self, tr1) =>
      Compilable_init c pf pid n r b hs i ip [] env lc out extra pre suf o d tr
        = (inl (RuntimeError (no_sources_message c (identifier self))),
           tr1 ++ [Log ModuleLogger ERROR (no_sources_message c (identifier self))])
  end.
Proof.
  unfold Compilable_init, bind.
  destruct (Target_init c pf pid n r b hs i ip env o d tr) as [[e | self] tr1];
    reflexivity.
Qed.

(** A constructor given no source file ends in an exception. *)
Lemma new_no_sources c pf pid n r b hs i ip env o d tr :
  c <> HeaderOnly ->
  exists e tr', new c pf pid n r b hs i ip [] env o d tr = (inl e, tr').
Proof.
  intros Hc.
  destruct c; [congruence | | |];
    unfold new, Executable_init, SharedLibrary_init, StaticLibrary_init;
    repeat
      match goal with
      | |- exists e tr', bind (lift ?x) _ _ = _ =>
          unfold bind at 1; unfold lift at 1;
          destruct x as [e0 | ?]; [exists e0, tr; reflexivity |]
      end;
    match goal with
    | |- exists e tr', bind (Compilable_init ?c ?pf ?pid ?n ?r ?b ?hs ?i ?ip []
                               ?env ?lc ?out ?extra ?pre ?suf ?o ?d) _ _ = _ =>
        pose proof (Compilable_init_no_sources c pf pid n r b hs i ip env lc out
                      extra pre suf o d tr) as Hno;
        destruct (Target_init c pf pid n r b hs i ip env o d tr) as [[e1 | self] tr1];
        unfold bind at 1; rewrite Hno; eexists _, _; reflexivity
    end.
Qed.

End Sources.

(** ** The loop of [Project.__init__] *)

Section ProjectFacts.
Context `{PL : PathLib} {T : Type} `{PI : !ProjectImports T}.
Import Py Project.


(** The statements of the loop body before the choice of the class. *)
Lemma process_target_run env targets_config target_names multiple_targets
    build_dir target_list target_name tr project_node node names deps :
  getitem target_name targets_config = inr project_node ->
  as_dict project_node = inr node ->
  as_strs (get_default "dependencies" (VList []) node) = inr names ->
  lookup_dependencies target_list target_names names = inr deps ->
  let target_build_dir :=
    if negb multiple_targets then build_dir else joinpath build_dir target_name in
  let executable_dependencies :=
    List.filter (fun target => is_Executable (class_of target)) deps in
  process_target env targets_config target_names multiple_targets build_dir
    target_list target_name tr
  = instantiate env node project_node target_name target_build_dir
      (get_sources_and_headers project_node (workingdir env) target_build_dir)
      deps target_list
      (match executable_dependencies with
       | [] => tr
       | _ :: _ =>
           tr ++ [Log EnvironmentLogger ERROR
                    (executable_dependencies_message executable_dependencies)]
       end).
Proof.
  intros Hnode Hdict Hnames Hdeps. cbn zeta.
  unfold process_target, bind, lift.
  rewrite Hnode, Hdict, Hnames, Hdeps.
  destruct (List.filter _ deps); reflexivity.
Qed.

(** A run of the choice of the class that returns has appended at most one
    target. *)
Lemma instantiate_inv env node project_node target_name target_build_dir files
    deps target_list tr targets' tr' :
  instantiate env node project_node target_name target_build_dir files deps
    target_list tr = (inr targets', tr') ->
  targets' = target_list \/ exists t, targets' = target_list ++ [t].
Proof.
  unfold instantiate, error, info. intros H.
  destruct (contains "target_type" node).
  - run_inv.
    repeat match goal with
           | H : (if ?c then _ else _) _ = (inr _, _) |- _ => destruct c eqn:?
           | H : match ?l with [] => _ | _ :: _ => _ end _ = (inr _, _) |- _ =>
               destruct l
           end;
      run_inv; subst;
      eauto;
      repeat match goal with
             | H : String.eqb _ _ = true |- _ => apply String.eqb_eq in H
             end;
      congruence.
  - destruct (snd files); run_inv; subst; eauto.
Qed.

End ProjectFacts.

(** ** Errors of the project construction *)

Section ProjectErrors.
Context `{PL : PathLib} {T : Type} `{PI : !ProjectImports T}.
Import Py Project.


(** C5, what the code does.  When the analyser reports a cycle (and no
    missing dependency), the constructor logs one error whose text is
    empty, prints the name of the project and exits with code 1 before the
    loop over the targets: the messages are built from the list of the
    missing dependencies, which is empty here, and no edge of a cycle is
    reported. *)
Theorem C5_cycle_report_is_empty env multiple_projects config tr n :
  top_level_targets config <> [] ->
  find_non_existent_dependencies (top_level_targets config) = [] ->
  find_circular_dependencies (top_level_targets config) <> [] ->
  get_default "name" (VStr "") config = VStr n ->
  Project_targets env multiple_projects config tr
  = (inl (SystemExit 1),
     tr ++ [Log EnvironmentLogger ERROR "";
            Print ("Project " +:+ n +:+ ": circular_dependencies.")]).
Proof.
  intros Htargets Hmissing Hcycles Hname.
  unfold Project_targets.
  destruct (top_level_targets config) as [| kv kvs]; [congruence |].
  rewrite Hmissing, Hname.
  destruct (find_circular_dependencies (kv :: kvs)) as [| cy cys]; [congruence |].
  unfold bind, ret, error, print, sys_exit, raise, lift, emit. cbn.
  rewrite <- app_assoc. reflexivity.
Qed.

End ProjectErrors.

(** ** The loop with the classes of [target.py] *)

Section ProjectCalls.
Context `{PL : PathLib} `{PS : PySet} `{CO : !Collaborators} `{CI : !Calls.Imports}.
Import Py Project.

Local Abbreviation called := (Calls.classes (CI:=CI)).

Lemma discover_on_a_table_run ident root what a b tr :
  (exists msg, Calls.discover_on_a_table ident root what a b tr
               = (inr tt, tr ++ [Log ModuleLogger INFO msg])) \/
  Calls.discover_on_a_table ident root what a b tr = (inl (AttributeError what), tr).
Proof.
  unfold Calls.discover_on_a_table.
  destruct (path_exists (joinpath root a)); [left; eexists; reflexivity |].
  destruct (path_exists (joinpath root b)); [left; eexists; reflexivity |].
  right. reflexivity.
Qed.

Lemma HeaderOnly_called_raises n w b h i bt cc pn deps tr :
  exists e logged,
    Calls.HeaderOnly n w b h i bt cc pn deps tr = (inl e, tr ++ logged) /\
    e ∈ constructor_errors.
Proof.
  unfold Calls.HeaderOnly, constructor_errors.
  set (ident := if String.eqb n "" then path_str w else n +:+ "." +:+ path_str w).
  destruct (discover_on_a_table_run ident b "tests" "test" "tests" tr)
    as [(m1 & H1) | H1]; unfold bind at 1; rewrite H1.
  2: { exists (AttributeError "tests"), []. rewrite app_nil_r.
       split; [reflexivity |]. do 2 (apply elem_of_cons; right). apply list_elem_of_here. }
  destruct (discover_on_a_table_run ident b "examples" "example" "examples"
              (tr ++ [Log ModuleLogger INFO m1]))
    as [(m2 & H2) | H2]; unfold bind at 1; rewrite H2.
  2: { exists (AttributeError "examples"), [Log ModuleLogger INFO m1].
       split; [reflexivity |]. do 3 (apply elem_of_cons; right). apply list_elem_of_here. }
  exists TypeError, [Log ModuleLogger INFO m1; Log ModuleLogger INFO m2].
  split; [unfold bind, lift, Calls.extend_with_build_type; rewrite <- app_assoc; reflexivity |].
  do 4 (apply elem_of_cons; right). apply list_elem_of_here.
Qed.

(** The choice of the class with the classes of [target.py]: a definition
    of an unsupported type is logged and skipped; any other ends in the
    exception of a constructor, or of the read of the type. *)
Lemma instantiate_called env node pn target_name tbd files deps tl tr :
  match unsupported_type node with
  | Some ty =>
      instantiate (PI:=called) env node pn target_name tbd files deps tl tr
      = (inr tl, tr ++ [Log EnvironmentLogger ERROR
                          ("ERROR: Unsupported target type: " +:+ ty)])
  | None =>
      exists e logged,
        instantiate (PI:=called) env node pn target_name tbd files deps tl tr
        = (inl e, tr ++ logged) /\
        e ∈ constructor_errors
  end.
Proof.
  unfold unsupported_type, supported_type, instantiate, contains, getitem.
  destruct (dict_get "target_type" node) as [v |].
  - destruct v as [ty | | |];
      try (exists TypeError, []; rewrite app_nil_r; split; [reflexivity |];
           unfold constructor_errors; do 4 (apply elem_of_cons; right);
           apply list_elem_of_here).
    unfold bind, lift, ret, as_str, error, info, emit. cbn beta iota.
    cbn [Executable_new SharedLibrary_new StaticLibrary_new HeaderOnly_new
         Calls.classes].
    destruct (String.eqb (lower ty) "executable") eqn:E1.
    { cbn [orb]. exists (AttributeError "clangpp"), []. rewrite app_nil_r.
      split; [reflexivity | apply list_elem_of_here]. }
    destruct (String.eqb (lower ty) "shared library") eqn:E2.
    { cbn [orb]. exists (AttributeError "clangpp"), []. rewrite app_nil_r.
      split; [reflexivity | apply list_elem_of_here]. }
    destruct (String.eqb (lower ty) "static library") eqn:E3.
    { cbn [orb]. exists (AttributeError "clang_ar"), []. rewrite app_nil_r.
      split; [reflexivity |]. apply elem_of_cons; right. apply list_elem_of_here. }
    destruct (String.eqb (lower ty) "header only") eqn:E4.
    { cbn [orb].
      destruct (snd files) as [| s0 srcs].
      - destruct (HeaderOnly_called_raises target_name (workingdir env) tbd
                    (fst (fst files)) (snd (fst files)) (buildType env)
                    (clangpp env) pn deps tr) as (e & logged & He & Hin).
        exists e, logged. split; [| exact Hin].
        rewrite He. reflexivity.
      - destruct (HeaderOnly_called_raises target_name (workingdir env) tbd
                    (fst (fst files)) (snd (fst files)) (buildType env)
                    (clangpp env) pn deps
                    (tr ++ [Log EnvironmentLogger INFO
                              ("Source files found for header-only target "
                                 +:+ target_name
                                 +:+ ". You may want to check your build configuration.")]))
          as (e & logged & He & Hin).
        eexists e, (_ :: logged). split; [| exact Hin].
        rewrite He. rewrite <- app_assoc. reflexivity. }
    cbn [orb]. reflexivity.
  - unfold bind, lift, ret, as_str, error, info, emit. cbn beta iota.
    cbn [Executable_new SharedLibrary_new StaticLibrary_new HeaderOnly_new
         Calls.classes].
    destruct (snd files) as [| s0 srcs].
    + destruct (HeaderOnly_called_raises target_name (workingdir env) tbd
                  (fst (fst files)) (snd (fst files)) (buildType env)
                  (clangpp env) pn deps
                  (tr ++ [Log EnvironmentLogger INFO
                            ("No source files found for target " +:+ target_name
                               +:+ ". Creating header-only target.")]))
        as (e & logged & He & Hin).
      eexists e, (_ :: logged). split; [| exact Hin].
      rewrite He. rewrite <- app_assoc. reflexivity.
    + eexists (AttributeError "clangpp"), [_].
      split; [reflexivity | apply list_elem_of_here].
Qed.



End ProjectCalls.

(** ** The build directory of a target *)

Section BuildDirectories.
Context `{PL : PathLib} {T : Type} `{PI : !ProjectImports T}.
Import Py Project.

Lemma dict_get_elem k (d : dict) v : dict_get k d = Some v -> (k, v) ∈ d.
Proof.
  induction d as [| [k' v'] d IH]; cbn; [discriminate |].
  destruct (String.eqb_spec k k') as [-> | Hne].
  - intros [= ->]. apply list_elem_of_here.
  - intros H. apply elem_of_cons. right. apply IH, H.
Qed.

Lemma two_members_length {A} (l : list A) x y :
  x <> y -> x ∈ l -> y ∈ l -> (1 < length l)%nat.
Proof.
  intros Hne Hx Hy.
  destruct l as [| a [| b l]]; cbn.
  - apply elem_of_nil in Hx. contradiction.
  - apply list_elem_of_singleton in Hx, Hy. congruence.
  - lia.
Qed.

(** C7, what the code does.  A project that has a name and defines exactly
    one target, without dependencies, hands the directory
    [<project_build>/<target_name>] to the source walker and, through the
    choice of the class, to the constructor of the target, not
    [<project_build>]: the number of targets is taken from the mapping
    that still holds the key [name], and is more than one.  This holds
    whatever the four constructors are.  For a definition without
    [target_type] that has source files the call is the one of
    [Executable], with that directory as its third argument. *)
Theorem C7_named_project_with_one_target_uses_a_subdirectory
    env (multiple_projects : bool) config tr n target_name node :
  dict_get "name" config = Some (VStr n) ->
  top_level_targets config = [(target_name, VDict node)] ->
  startswith "project" target_name = false ->
  find_non_existent_dependencies (top_level_targets config) = [] ->
  find_circular_dependencies (top_level_targets config) = [] ->
  get_dependency_walk (top_level_targets config) = [target_name] ->
  as_strs (get_default "dependencies" (VList []) node) = inr [] ->
  let build_dir :=
    if multiple_projects then joinpath (build_directory env) n
    else build_directory env in
  let target_build_dir := joinpath build_dir target_name in
  length (top_level_targets config) = 1%nat /\
  (1 < length (self_targets_config config))%nat /\
  Project_targets env multiple_projects config tr
  = (targets <- instantiate env node (VDict node) target_name target_build_dir
                  (get_sources_and_headers (VDict node) (workingdir env)
                     target_build_dir) [] [] ;;
     ret {| name := VStr n;
            targets_config := self_targets_config config;
            subprojects_config := self_subprojects_config config;
            target_list := Some targets;
            project_build_directory := Some build_dir |})%py tr /\
  (dict_get "target_type" node = None ->
   forall files tr0, snd files <> [] ->
     instantiate env node (VDict node) target_name target_build_dir files [] [] tr0
     = (t <- Executable_new target_name (workingdir env) target_build_dir
               (fst (fst files)) (snd (fst files)) (snd files)
               (buildType env) (clangpp env) (VDict node) [] ;;
        ret ([] ++ [t]))%py
         (tr0 ++ [Log EnvironmentLogger INFO
                    (pretty (length (snd files))
                       +:+ " source files found for target " +:+ target_name
                       +:+ ". Creating executable target.")])).
Proof.
  intros Hname Htargets Hprefix Hmissing Hcycles Hwalk Hdeps. cbn zeta.
  split; [rewrite Htargets; reflexivity |].
  assert (Hlen : (1 < length (self_targets_config config))%nat).
  { assert (Hin : (target_name, VDict node) ∈ top_level_targets config)
      by (rewrite Htargets; apply list_elem_of_here).
    unfold top_level_targets, filter_keys in Hin.
    apply list_elem_of_In, List.filter_In in Hin. destruct Hin as [Hin Hkey].
    clear Hkey.
    apply (two_members_length _ ("name", VStr n) (target_name, VDict node)).
    - intros Heq. discriminate Heq.
    - apply list_elem_of_In, List.filter_In. split.
      + apply list_elem_of_In, dict_get_elem, Hname.
      + reflexivity.
    - apply list_elem_of_In, List.filter_In. split; [exact Hin |].
      cbn [fst]. rewrite Hprefix. reflexivity. }
  split; [exact Hlen |].
  split.
  - unfold Project_targets.
    apply Nat.ltb_lt in Hlen. rewrite Hlen.
    rewrite Hmissing, Hcycles, Hwalk.
    unfold get_default. rewrite Hname.
    rewrite Htargets.
    cbn [foldM].
    assert (Hstep : forall bd tr1,
      process_target env [(target_name, VDict node)] [target_name] true bd []
        target_name tr1
      = instantiate env node (VDict node) target_name (joinpath bd target_name)
          (get_sources_and_headers (VDict node) (workingdir env)
             (joinpath bd target_name)) [] [] tr1).
    { intros bd tr1.
      rewrite (process_target_run env [(target_name, VDict node)] [target_name]
                 true bd [] target_name tr1 (VDict node) node [] []).
      - reflexivity.
      - unfold getitem. cbn [dict_get]. rewrite String.eqb_refl. reflexivity.
      - reflexivity.
      - exact Hdeps.
      - reflexivity. }
    destruct multiple_projects;
      unfold bind, ret, lift, as_str; rewrite Hstep;
      destruct (instantiate _ _ _ _ _ _ _ _ _) as [[e | targets] tr1];
      reflexivity.
  - intros Hty files tr0 Hsrcs.
    unfold instantiate, contains. rewrite Hty.
    destruct (snd files) as [| s0 srcs]; [congruence |].
    reflexivity.
Qed.

End BuildDirectories.

(** ** Source files, base flags and include directories *)

Section Construction.
Context `{PL : PathLib} `{PS : PySet} `{CO : !Collaborators}.
Context {T : Type} `{PI : !ProjectImports T}.
Import Py Platform Target.

(** C10.  The constructor of an Executable, a SharedLibrary or a
    StaticLibrary that is given no source file ends in an exception: the
    [RuntimeError] of [Compilable.__init__], logged first, once the base
    constructor has returned.  A target of these classes that was
    constructed has one buildable per source file, and at least one.  In
    the loop of the project, an explicit [target_type] of one of the three
    classes with no source file found ends in the exception of the
    constructor: no target is appended. *)
Theorem C10_compilable_needs_sources c pf pid n r b hs i ip env o d tr :
  c <> HeaderOnly ->
  (exists e tr', new c pf pid n r b hs i ip [] env o d tr = (inl e, tr')) /\
  (forall lc out extra pre suf self tr1,
      Target_init c pf pid n r b hs i ip env o d tr = (inr self, tr1) ->
      Compilable_init c pf pid n r b hs i ip [] env lc out extra pre suf o d tr
      = (inl (RuntimeError (no_sources_message c (identifier self))),
         tr1 ++ [Log ModuleLogger ERROR
                   (no_sources_message c (identifier self))])) /\
  (forall srcs t tr',
      new c pf pid n r b hs i ip srcs env o d tr = (inr t, tr') ->
      exists comp,
        compiled t = Some comp /\
        srcs <> [] /\
        buildables comp <> [] /\
        List.map source_file (buildables comp) = srcs) /\
  (forall (penv : Project.environment) node project_node target_name
          target_build_dir headers incs deps target_list ptr ty e ptr',
      dict_get "target_type" node = Some (VStr ty) ->
      match c with
      | Executable =>
          lower ty = "executable" /\
          Executable_new target_name (Project.workingdir penv) target_build_dir
            headers incs [] (Project.buildType penv) (Project.clangpp penv)
            project_node deps ptr = (inl e, ptr')
      | SharedLibrary =>
          lower ty = "shared library" /\
          SharedLibrary_new target_name (Project.workingdir penv)
            target_build_dir headers incs [] (Project.buildType penv)
            (Project.clangpp penv) project_node deps ptr = (inl e, ptr')
      | StaticLibrary =>
          lower ty = "static library" /\
          StaticLibrary_new target_name (Project.workingdir penv)
            target_build_dir headers incs [] (Project.buildType penv)
            (Project.clangpp penv) (Project.clang_ar penv) project_node deps ptr
          = (inl e, ptr')
      | HeaderOnly => False
      end ->
      Project.instantiate penv node project_node target_name target_build_dir
        (headers, incs, []) deps target_list ptr = (inl e, ptr')).
Proof.
  intros Hc.
  split; [apply new_no_sources, Hc |].
  split.
  { intros lc out extra pre suf self tr1 Hself.
    pose proof (Compilable_init_no_sources c pf pid n r b hs i ip env lc out
                  extra pre suf o d tr) as Hno.
    rewrite Hself in Hno. exact Hno. }
  split.
  { intros srcs t tr' H.
    destruct (new_inv _ _ _ _ _ _ _ _ _ _ _ _ _ _ _ _ H)
      as (self & _ & _ & _ & _ & _ & _ & Hcomp).
    destruct c; [congruence | | |];
      destruct Hcomp as (comp & linked & Ht & Hsrcs & Hmap & _);
      exists comp; repeat split; try assumption;
      intros Hnil; rewrite Hnil in Hmap; cbn in Hmap; congruence. }
  intros penv node project_node target_name target_build_dir headers incs deps
    target_list ptr ty e ptr' Hty Hraise.
  unfold Project.instantiate, contains, getitem. rewrite Hty.
  unfold bind at 1. unfold lift at 1. unfold bind at 1. unfold lift at 1.
  cbn [as_str fst snd].
  destruct c; [contradiction | | |]; destruct Hraise as (-> & Hraise).
  - cbn [String.eqb Ascii.eqb Bool.eqb]. unfold bind at 1. unfold bind at 1.
    rewrite Hraise. reflexivity.
  - cbn [String.eqb Ascii.eqb Bool.eqb]. unfold bind at 1. unfold ret at 1.
    unfold bind at 1. rewrite Hraise. reflexivity.
  - cbn [String.eqb Ascii.eqb Bool.eqb]. unfold bind at 1. unfold ret at 1.
    unfold bind at 1. rewrite Hraise. reflexivity.
Qed.

End Construction.

Section FlagsAndIncludes.
Context `{PL : PathLib} `{PS : PySet} `{CO : !Collaborators}.
Import Py Platform Target.

(** C4, as the code has it.  The construction of an Executable, a
    SharedLibrary or a StaticLibrary puts into the private compile flags
    the defaults of the build type, the flags of the options and what the
    class takes from the dependencies; the base flags [-Wall -Wextra
    -Wpedantic -Werror] are none of the build-type defaults and are not
    appended there.  They are put, once, in front of the private compile
    flags in the compile-flag list of every source unit, which so holds
    each of them exactly once unless the private flags name it. *)
Theorem C4_base_flags_per_source_unit
    c pf pid n r b hs i ip srcs env o d tr t tr' :
  c <> HeaderOnly ->
  new c pf pid n r b hs i ip srcs env o d tr = (inr t, tr') ->
  exists own pub comp,
    parse_flags_options pf env (default [] o) "flags" = inr own /\
    parse_flags_options pf env (default [] o) "public-flags" = inr pub /\
    compiled t = Some comp /\
    (forall f, f ∈ compile_flags (flags t)
               <-> f ∈ default_build_type_flags (build_type env) ++ fst own
                         ++ absorbed_compile_flags c (default [] d) ++ fst pub) /\
    (forall f, f ∈ DEFAULT_COMPILE_FLAGS ->
               f ∉ default_build_type_flags (build_type env)) /\
    List.map source_file (buildables comp) = srcs /\
    Forall (fun bu =>
              ss_compile_flags bu
                = DEFAULT_COMPILE_FLAGS ++ compile_flags (flags t) /\
              forall f, f ∈ DEFAULT_COMPILE_FLAGS ->
                        f ∉ compile_flags (flags t) ->
                        count_occ string_dec (ss_compile_flags bu) f = 1%nat)
           (buildables comp).
Proof.
  intros Hc H.
  destruct (new_inv _ _ _ _ _ _ _ _ _ _ _ _ _ _ _ _ H)
    as (self & Hself & _ & Hflags & _ & _ & _ & Hcomp).
  destruct (Target_init_inv _ _ _ _ _ _ _ _ _ _ _ _ _ _ _ Hself)
    as (own & iface & pub & Hown & _ & Hpub & _ & _ & _ & _ & _ & _ & _ & _
        & _ & Hfv).
  cbn zeta in Hfv.
  assert (Hcomp' : exists comp,
             compiled t = Some comp /\
             List.map source_file (buildables comp) = srcs /\
             Forall (fun bu => ss_compile_flags bu
                               = DEFAULT_COMPILE_FLAGS ++ compile_flags (flags self))
                    (buildables comp)).
  { destruct c; [congruence | | |];
      destruct Hcomp as (comp & linked & Ht & _ & Hsrc & Hall & _);
      exists comp; repeat split; assumption. }
  destruct Hcomp' as (comp & Ht & Hsrc & Hall).
  exists own, pub, comp.
  split; [exact Hown |]. split; [exact Hpub |]. split; [exact Ht |].
  split.
  { intros f. rewrite Hflags, Hfv. cbn [compile_flags].
    rewrite elem_of_app, list_set_elem, gathered_compile_flags, !elem_of_app.
    tauto. }
  split; [intros f; apply base_flag_is_no_build_type_flag |].
  split; [exact Hsrc |].
  rewrite Hflags.
  eapply Forall_impl; [exact Hall |]. intros bu Hbu. split; [exact Hbu |].
  intros f Hf Hnot. rewrite Hbu. apply count_base_flag; assumption.
Qed.

(** C9, as the code has it.  After construction the private list of
    include directories has no entry twice and holds resolved paths only,
    so no two of its entries resolve to the same path; it holds the
    resolved directories of the target and of its dependencies.  The
    public list is the default include directory, the public directories
    of the target and those of every dependency in turn: nothing is
    removed from it. *)
Theorem C9_private_includes_duplicate_free
    c pf pid n r b hs i ip srcs env o d tr t tr' :
  new c pf pid n r b hs i ip srcs env o d tr = (inr t, tr') ->
  NoDup (include_directories t) /\
  NoDup (List.map resolve (include_directories t)) /\
  (forall p, p ∈ include_directories t
             <-> p ∈ List.map resolve
                       ((i ++ ip)
                          ++ List.concat
                               (List.map
                                  (fun dep => (if is_HeaderOnly (cls dep)
                                               then include_directories dep
                                               else [])
                                                ++ include_directories_public dep)
                                  (default [] d)))) /\
  include_directories_public t
  = ((if path_exists (joinpath r "include") then [joinpath r "include"] else [])
       ++ ip)
      ++ List.concat (List.map include_directories_public (default [] d)).
Proof.
  intros H.
  destruct (new_inv _ _ _ _ _ _ _ _ _ _ _ _ _ _ _ _ H)
    as (self & Hself & _ & _ & Hpriv & Hpub & _).
  destruct (Target_init_inv _ _ _ _ _ _ _ _ _ _ _ _ _ _ _ Hself)
    as (_ & _ & _ & _ & _ & _ & _ & _ & _ & _ & _ & _ & Hi & Hip & _).
  rewrite Hpriv, Hpub, Hi, Hip. unfold gathered_includes.
  rewrite fold_includes. cbn [fst snd].
  set (gathered := List.map resolve _).
  assert (Hfix : List.map resolve (list_set gathered) = list_set gathered).
  { rewrite <- (List.map_id (list_set gathered)) at 2.
    apply List.map_ext_in. intros p Hp.
    rewrite <- list_elem_of_In, list_set_elem in Hp.
    subst gathered. rewrite list_elem_of_In, List.in_map_iff in Hp.
    destruct Hp as (q & <- & _). apply resolve_idemp. }
  split; [apply list_set_NoDup |].
  split; [rewrite Hfix; apply list_set_NoDup |].
  split; [intros p; apply list_set_elem | reflexivity].
Qed.

(** C2, what the code does.  The platform module is bound on Linux, macOS
    and Windows and its import raises a [RuntimeError] on any other
    system.  It binds the three output directories of the table under the
    names [..._OUTPUT_DIR], and none of the names [target.py] reads
    ([..._OUTPUT], [..._PREFIX], [..._SUFFIX], [PLATFORM_EXTRA_FLAGS_...]):
    with this module the constructor of every Compilable raises
    [AttributeError] at the first of them, before it forms any path. *)
Theorem C2_platform_module_lacks_the_constants sys_platform sc :
  match platform_py sys_platform sc with
  | inr m =>
      (sys_platform = "linux" \/ sys_platform = "darwin"
       \/ sys_platform = "win32") /\
      lookup_attr "EXECUTABLE_OUTPUT_DIR" m = Some (PStr "bin") /\
      lookup_attr "SHARED_LIBRARY_OUTPUT_DIR" m
        = Some (PStr (if String.eqb sys_platform "win32" then "bin" else "lib")) /\
      lookup_attr "STATIC_LIBRARY_OUTPUT_DIR" m = Some (PStr "lib") /\
      Forall (fun name => lookup_attr name m = None)
        [ "EXECUTABLE_PREFIX"; "EXECUTABLE_SUFFIX"; "EXECUTABLE_OUTPUT";
          "SHARED_LIBRARY_PREFIX"; "SHARED_LIBRARY_SUFFIX";
          "SHARED_LIBRARY_OUTPUT";
          "STATIC_LIBRARY_PREFIX"; "STATIC_LIBRARY_SUFFIX";
          "STATIC_LIBRARY_OUTPUT";
          "PLATFORM_EXTRA_FLAGS_EXECUTABLE"; "PLATFORM_EXTRA_FLAGS_SHARED";
          "PLATFORM_EXTRA_FLAGS_STATIC" ] /\
      forall pid n r b hs i ip srcs env o d tr,
        Executable_init m pid n r b hs i ip srcs env o d tr
          = (inl (AttributeError "EXECUTABLE_OUTPUT"), tr) /\
        SharedLibrary_init m pid n r b hs i ip srcs env o d tr
          = (inl (AttributeError "SHARED_LIBRARY_OUTPUT"), tr) /\
        StaticLibrary_init m pid n r b hs i ip srcs env o d tr
          = (inl (AttributeError "STATIC_LIBRARY_OUTPUT"), tr)
  | inl e =>
      e = RuntimeError
            ("Platform " +:+ sys_platform +:+ "is currently not supported.") /\
      sys_platform <> "linux" /\ sys_platform <> "darwin"
      /\ sys_platform <> "win32"
  end.
Proof.
  unfold platform_py.
  destruct (String.eqb_spec sys_platform "linux") as [-> | Hlinux].
  { split; [left; reflexivity |]. repeat split; repeat constructor. }
  destruct (String.eqb_spec sys_platform "darwin") as [-> | Hdarwin].
  { split; [right; left; reflexivity |]. repeat split; repeat constructor. }
  destruct (String.eqb_spec sys_platform "win32") as [-> | Hwin].
  { split; [right; right; reflexivity |]. repeat split; repeat constructor. }
  repeat split; assumption.
Qed.

End FlagsAndIncludes.

(** * The theorems on the concrete system *)

Section Examples.
Import Py Platform Target.

(** An executable that depends on the static library [libA]. *)
Local Abbreviation app_run :=
  (new (PL:=Demo.posix) (PS:=Demo.first_seen) (CO:=Demo.tools)
     Executable Demo.linux_table "" "app" "/p" "/build/app" [] [] []
     ["/p/main.cpp"] Demo.release None (Some (Demo.returned Demo.libA_run)) []).

(** An executable without options or dependencies. *)
Local Abbreviation plain_run :=
  (new (PL:=Demo.posix) (PS:=Demo.first_seen) (CO:=Demo.tools)
     Executable Demo.linux_table "" "app" "/p" "/build" [] [] []
     ["/p/main.cpp"] Demo.release None None []).

(** A header-only target that depends on two header-only targets
    publishing the same directory; no platform constant is read. *)
Local Abbreviation diamond_run :=
  (new (PL:=Demo.posix) (PS:=Demo.first_seen) (CO:=Demo.tools)
     HeaderOnly [] "" "top" "/p" "/build/top" [] [] []
     [] Demo.release None
     (Some (Demo.returned (Demo.header_run "left")
              ++ Demo.returned (Demo.header_run "right"))) []).

(** An executable without source files. *)
Local Abbreviation empty_run :=
  (new (PL:=Demo.posix) (PS:=Demo.first_seen) (CO:=Demo.tools)
     Executable Demo.linux_table "" "app" "/p" "/build" [] [] []
     [] Demo.release None None []).

(** The project of a configuration, built in [/build]. *)
Local Abbreviation project_run config :=
  (Project.Project_init (PL:=Demo.posix) (PI:=Demo.classes) Demo.workspace
     false (VDict config) []).

(** The executable [app] takes the interface and the public compile flag of
    [libA] for itself and forwards nothing. *)
Lemma C1_app_absorbs_the_flags_of_libA :
  exists t tr',
    app_run = (inr t, tr') /\
    (forall f, f ∈ compile_flags (flags t)
               <-> f ∈ ["-O3"; "-DNDEBUG"] ++ [] ++ ["-DIFACE"; "-DPUBLIC"] ++ []) /\
    link_flags (flags t) = [] /\
    compile_flags_interface (flags t) = [] /\
    link_flags_interface (flags t) = [] /\
    compile_flags_public (flags t) = [] /\
    link_flags_public (flags t) = [].
Proof.
  assert (H : exists t tr', app_run = (inr t, tr')).
  { vm_compute. eexists _, _. reflexivity. }
  destruct H as (t & tr' & H). exists t, tr'. split; [exact H |].
  destruct (C1_flag_propagation _ _ _ _ _ _ _ _ _ _ _ _ _ _ _ _ H)
    as (own & iface & pub & Hown & Hiface & Hpub & Hc).
  vm_compute in Hown, Hiface, Hpub.
  injection Hown as <-. injection Hiface as <-. injection Hpub as <-.
  exact Hc.
Defined.

(** The link command of [app]. *)
Lemma C3_app_links_libA :
  exists t tr' comp,
    app_run = (inr t, tr') /\
    compiled t = Some comp /\
    link_command comp
    = ["clang++"; "-o"; "/build/app/bin/app"; "/build/app/obj/p/main.cpp.o";
       "-L"; "/build/libA/lib"; "-llibA"].
Proof.
  assert (H : exists t tr', app_run = (inr t, tr')).
  { vm_compute. eexists _, _. reflexivity. }
  destruct H as (t & tr' & H).
  assert (Hne : Executable <> HeaderOnly) by discriminate.
  destruct (C3_link_command_templates Executable _ _ _ _ _ _ _ _ _ _ _ _ _ _ _
              Hne H)
    as (comp & linked & Hcomp & Hsrc & Hlinked & Hcmd).
  exists t, tr', comp. split; [exact H |]. split; [exact Hcomp |].
  rewrite Hcmd. clear Hcmd.
  vm_compute in H. injection H as Ht Htr. subst t tr'.
  vm_compute in Hcomp. injection Hcomp as Hc. subst comp.
  vm_compute in Hlinked.
  destruct linked as [| l0 [| l1 ls]]; try discriminate Hlinked.
  injection Hlinked as Hl. subst l0.
  vm_compute. reflexivity.
Defined.

(** The private compile flags of a Release executable without options
    are the two defaults of the build type: [-Wall] is not among them. *)
Lemma C4_base_flags_not_in_private_flags :
  exists t tr',
    plain_run = (inr t, tr') /\
    compile_flags (flags t) = ["-O3"; "-DNDEBUG"] /\
    "-Wall" ∉ compile_flags (flags t).
Proof.
  eexists _, _. split; [vm_compute; reflexivity |].
  split; [reflexivity |].
  cbn [compile_flags flags].
  intros Hin.
  repeat (apply elem_of_cons in Hin; destruct Hin as [Hin | Hin];
          [discriminate Hin |]).
  apply elem_of_nil in Hin. exact Hin.
Qed.

(** The compile flags of its source unit. *)
Lemma C4_source_unit_of_app_has_each_base_flag_once :
  exists t tr' comp,
    plain_run = (inr t, tr') /\
    compiled t = Some comp /\
    Forall (fun bu =>
              ss_compile_flags bu
                = ["-Wall"; "-Wextra"; "-Wpedantic"; "-Werror"; "-O3"; "-DNDEBUG"]
              /\ count_occ string_dec (ss_compile_flags bu) "-Wall" = 1%nat)
           (buildables comp).
Proof.
  assert (H : exists t tr', plain_run = (inr t, tr')).
  { vm_compute. eexists _, _. reflexivity. }
  destruct H as (t & tr' & H).
  assert (Hne : Executable <> HeaderOnly) by discriminate.
  destruct (C4_base_flags_per_source_unit Executable _ _ _ _ _ _ _ _ _ _ _ _ _ _ _
              Hne H)
    as (own & pub & comp & _ & _ & Hcomp & _ & _ & _ & Hall).
  exists t, tr', comp. split; [exact H |]. split; [exact Hcomp |].
  assert (Hflags : compile_flags (flags t) = ["-O3"; "-DNDEBUG"]).
  { vm_compute in H. injection H as Ht Htr. subst t. reflexivity. }
  eapply Forall_impl; [exact Hall |]. intros bu [Hbu Hcount].
  rewrite Hflags in Hbu, Hcount.
  split; [exact Hbu |].
  apply Hcount.
  - unfold DEFAULT_COMPILE_FLAGS. apply list_elem_of_here.
  - intros Hin.
    repeat (apply elem_of_cons in Hin; destruct Hin as [Hin | Hin];
            [discriminate Hin |]).
    apply elem_of_nil in Hin. exact Hin.
Defined.

(** The public include directories of a target whose two dependencies
    publish [/p/common] hold it twice. *)
Lemma C9_public_includes_are_duplicated :
  exists t tr',
    diamond_run = (inr t, tr') /\
    include_directories_public t = ["/p/common"; "/p/common"] /\
    ~ NoDup (List.map (resolve (PathLib:=Demo.posix)) (include_directories_public t)).
Proof.
  eexists _, _. split; [vm_compute; reflexivity |].
  split; [reflexivity |].
  cbn. intros Hnodup. apply NoDup_cons in Hnodup. destruct Hnodup as [Hnot _].
  apply Hnot. apply list_elem_of_here.
Qed.

(** Its private include directories hold it once. *)
Lemma C9_private_includes_of_the_diamond :
  exists t tr',
    diamond_run = (inr t, tr') /\
    NoDup (include_directories t) /\
    NoDup (List.map (resolve (PathLib:=Demo.posix)) (include_directories t)) /\
    include_directories t = ["/p/common"].
Proof.
  assert (H : exists t tr', diamond_run = (inr t, tr')).
  { vm_compute. eexists _, _. reflexivity. }
  destruct H as (t & tr' & H). exists t, tr'. split; [exact H |].
  destruct (C9_private_includes_duplicate_free _ _ _ _ _ _ _ _ _ _ _ _ _ _ _ _ H)
    as (Hnodup & Hresolved & _ & _).
  split; [exact Hnodup |]. split; [exact Hresolved |].
  vm_compute in H. injection H as Ht Htr. subst t. reflexivity.
Defined.

(** The constructor of an executable without source files. *)
Lemma C10_executable_without_sources_is_refused :
  Executable <> HeaderOnly /\
  (exists e tr', empty_run = (inl e, tr')) /\
  empty_run
  = (inl (RuntimeError
            "[app]: ERROR: Target was defined as a <class 'clang_build.target.Executable'> but no source files were found"),
     [Log ModuleLogger ERROR
        "[app]: ERROR: Target was defined as a <class 'clang_build.target.Executable'> but no source files were found"]).
Proof.
  assert (Hne : Executable <> HeaderOnly) by discriminate.
  split; [exact Hne |].
  split.
  - exact (proj1 (C10_compilable_needs_sources (PI:=Demo.classes)
                    Executable Demo.linux_table "" "app" "/p" "/build" [] [] []
                    Demo.release None None [] Hne)).
  - vm_compute. reflexivity.
Defined.



(** The project of two targets that depend on each other. *)
Lemma C5_cyclic_project_logs_an_empty_message :
  Project.top_level_targets Demo.cyclic_config <> [] /\
  find_non_existent_dependencies (ProjectImports:=Demo.classes)
    (Project.top_level_targets Demo.cyclic_config) = [] /\
  find_circular_dependencies (ProjectImports:=Demo.classes)
    (Project.top_level_targets Demo.cyclic_config) = [["a"; "b"]; ["b"; "a"]] /\
  Project.Project_targets (PL:=Demo.posix) (PI:=Demo.classes) Demo.workspace
    false Demo.cyclic_config []
  = (inl (SystemExit 1),
     [Log EnvironmentLogger ERROR ""; Print "Project : circular_dependencies."]) /\
  project_run Demo.cyclic_config
  = (inl (SystemExit 1),
     [Log EnvironmentLogger ERROR ""; Print "Project : circular_dependencies."]).
Proof.
  assert (Htargets : Project.top_level_targets Demo.cyclic_config <> [])
    by discriminate.
  assert (Hcycles : find_circular_dependencies (ProjectImports:=Demo.classes)
                      (Project.top_level_targets Demo.cyclic_config)
                    = [["a"; "b"]; ["b"; "a"]])
    by (vm_compute; reflexivity).
  split; [exact Htargets |]. split; [reflexivity |]. split; [exact Hcycles |].
  split; [| vm_compute; reflexivity].
  apply (C5_cycle_report_is_empty (PI:=Demo.classes) Demo.workspace false
           Demo.cyclic_config [] "" Htargets eq_refl).
  - rewrite Hcycles. discriminate.
  - reflexivity.
Defined.

(** The executable [tool], constructed as [target.py] has it. *)
Local Abbreviation tool_run :=
  (new (PL:=Demo.posix) (PS:=Demo.first_seen) (CO:=Demo.tools)
     Executable Demo.linux_table "" "tool" "/w" "/build/tool" [] [] []
     ["/w/tool.cpp"] Demo.release None None []).


(** The project [proj] with the one target [app]. *)
Lemma C7_app_of_proj_is_given_the_directory_build_app :
  length (Project.top_level_targets Demo.named_config) = 1%nat /\
  (1 < length (Project.self_targets_config Demo.named_config))%nat /\
  Project.Project_targets (PL:=Demo.posix) (PI:=Demo.classes) Demo.workspace
    false Demo.named_config []
  = Py.bind
      (Project.instantiate (PL:=Demo.posix) (PI:=Demo.classes) Demo.workspace
         [Demo.sources ["main.cpp"]] (VDict [Demo.sources ["main.cpp"]])
         "app" "/build/app" ([], [], ["/w/main.cpp"]) [] [])
      (fun targets =>
         Py.ret {| Project.name := VStr "proj";
                   Project.targets_config :=
                     Project.self_targets_config Demo.named_config;
                   Project.subprojects_config :=
                     Project.self_subprojects_config Demo.named_config;
                   Project.target_list := Some targets;
                   Project.project_build_directory :=
                     Some ("/build" : @path Demo.posix) |}) [] /\
  Project.instantiate (PL:=Demo.posix) (PI:=Demo.classes) Demo.workspace
    [Demo.sources ["main.cpp"]] (VDict [Demo.sources ["main.cpp"]])
    "app" "/build/app" ([], [], ["/w/main.cpp"]) [] [] []
  = Py.bind
      (Executable_new (ProjectImports:=Demo.classes) "app" "/w" "/build/app"
         [] [] ["/w/main.cpp"] Release "clang++"
         (VDict [Demo.sources ["main.cpp"]]) [])
      (fun t => Py.ret [t])
      [Log EnvironmentLogger INFO
         "1 source files found for target app. Creating executable target."] /\
  project_run Demo.named_config
  = (inl (AttributeError "clangpp"),
     [Log EnvironmentLogger INFO
        "1 source files found for target app. Creating executable target."]).
Proof.
  destruct (C7_named_project_with_one_target_uses_a_subdirectory
              (PI:=Demo.classes) Demo.workspace false Demo.named_config []
              "proj" "app" [Demo.sources ["main.cpp"]]
              eq_refl eq_refl eq_refl eq_refl eq_refl eq_refl eq_refl)
    as (Hone & Hlen & Hrun & Hcall).
  split; [exact Hone |]. split; [exact Hlen |].
  split; [exact Hrun |].
  split; [| vm_compute; reflexivity].
  apply (Hcall eq_refl ([], [], ["/w/main.cpp"]) []). discriminate.
Defined.

End Examples.

(** * Further properties of the code *)

(** ** Parsing the flags *)

Section DictFacts.
Import Py.

Lemma dict_get_filter_keys p k d :
  p k = true -> dict_get k (filter_keys p d) = dict_get k d.
Proof.
  intros Hk. unfold filter_keys.
  induction d as [| [k' v] d IH]; [reflexivity |].
  cbn. destruct (String.eqb k k') eqn:E.
  - apply String.eqb_eq in E. subst k'. rewrite Hk. cbn.
    rewrite String.eqb_refl. reflexivity.
  - destruct (p k'); cbn; [rewrite E |]; exact IH.
Qed.

Lemma dict_get_filter_keys_out p k d :
  p k = false -> dict_get k (filter_keys p d) = None.
Proof.
  intros Hk. unfold filter_keys.
  induction d as [| [k' v] d IH]; [reflexivity |].
  cbn. destruct (p k') eqn:E; cbn; [| exact IH].
  destruct (String.eqb k k') eqn:E'; [| exact IH].
  apply String.eqb_eq in E'. subst k'. congruence.
Qed.

End DictFacts.

Section Flags.
Context `{PL : PathLib} `{PS : PySet} `{CO : !Collaborators}.
Import Py Platform Target.

Lemma platform_flags_dict_other pf options plat flags_kind current :
  getattr pf "PLATFORM" = inr (PStr current) ->
  is_platform_key plat = true ->
  platform_flags_dict pf (without_other_platforms current options) plat flags_kind
  = platform_flags_dict pf options plat flags_kind.
Proof.
  intros Hp Hplat. unfold platform_flags_dict, contains, getitem, without_other_platforms.
  destruct (String.eqb plat current) eqn:E.
  - rewrite dict_get_filter_keys by (rewrite E; reflexivity). reflexivity.
  - rewrite dict_get_filter_keys_out by (rewrite E, Hplat; reflexivity).
    rewrite Hp. cbn. rewrite String.eqb_sym, E.
    destruct (dict_get plat options); reflexivity.
Qed.

Lemma platform_py_PLATFORM sys_platform sc m :
  platform_py sys_platform sc = inr m ->
  getattr m "PLATFORM" = inr (PStr (platform_key sys_platform)).
Proof.
  unfold platform_py, platform_key.
  destruct (String.eqb sys_platform "linux");
    [intros [= <-]; reflexivity |].
  destruct (String.eqb sys_platform "darwin");
    [intros [= <-]; reflexivity |].
  destruct (String.eqb sys_platform "win32");
    [intros [= <-]; reflexivity | discriminate].
Qed.

(** X1.  With the platform module as imported on a supported system, the
    flags of a kind that [parse_flags_options] returns do not depend on the
    entries of the options under the keys of the other platforms: whatever
    these entries hold, tables or not, the result is the same as without
    them, exception included.  ([PLATFORM] is [linux], [osx] or [windows]
    for a [sys.platform] of [linux], [darwin] or [win32].) *)
Theorem X1_other_platform_tables_are_ignored sys_platform sc m env options flags_kind :
  platform_py sys_platform sc = inr m ->
  is_platform_key flags_kind = false ->
  parse_flags_options m env
    (without_other_platforms (platform_key sys_platform) options) flags_kind
  = parse_flags_options m env options flags_kind.
Proof.
  intros Hm Hkind. apply platform_py_PLATFORM in Hm.
  unfold parse_flags_options.
  rewrite !(platform_flags_dict_other _ _ _ _ _ Hm) by reflexivity.
  unfold contains, get_default, without_other_platforms.
  rewrite dict_get_filter_keys by (rewrite Hkind, orb_true_r; reflexivity).
  reflexivity.
Qed.

Lemma parse_fdicts_link env1 env2 fdicts acc1 acc2 r1 r2 :
  snd acc1 = snd acc2 ->
  parse_fdicts env1 acc1 fdicts = inr r1 ->
  parse_fdicts env2 acc2 fdicts = inr r2 ->
  snd r1 = snd r2.
Proof.
  revert acc1 acc2. induction fdicts as [| fdict rest IH]; intros acc1 acc2 Hacc H1 H2.
  - cbn in H1, H2. congruence.
  - cbn in H1, H2.
    apply and_then_inr in H1. destruct H1 as (a1 & Ha1 & H1).
    apply and_then_inr in H2. destruct H2 as (a2 & Ha2 & H2).
    apply (IH a1 a2); [| assumption | assumption].
    unfold parse_fdict in Ha1, Ha2.
    repeat match goal with H : and_then _ _ = inr _ |- _ =>
      apply and_then_inr in H; destruct H as (? & ? & H) end.
    injection Ha1 as <-. injection Ha2 as <-. cbn. congruence.
Qed.

(** X2.  The link flags [parse_flags_options] returns do not depend on the
    build type: two calls on the same options that return, under any two
    environments, return the same link flags.  (Only the compile flags have
    keys per build type.) *)
Theorem X2_link_flags_ignore_the_build_type pf env1 env2 options flags_kind r1 r2 :
  parse_flags_options pf env1 options flags_kind = inr r1 ->
  parse_flags_options pf env2 options flags_kind = inr r2 ->
  snd r1 = snd r2.
Proof.
  unfold parse_flags_options. intros H1 H2.
  apply and_then_inr in H1. destruct H1 as (d0 & E0 & H1).
  apply and_then_inr in H1. destruct H1 as (d1 & E1 & H1).
  apply and_then_inr in H1. destruct H1 as (d2 & E2 & H1).
  apply and_then_inr in H1. destruct H1 as (d3 & E3 & H1).
  rewrite E0, E1, E2, E3 in H2. cbn in H2.
  eapply parse_fdicts_link; [| exact H1 | exact H2].
  reflexivity.
Qed.
End Flags.

(** ** The attributes of a constructed target *)

Section TargetAttributes.
Context `{PL : PathLib} `{PS : PySet} `{CO : !Collaborators}.
Import Py Platform Target.

Lemma discover_folder_inv ident root what a b key requested options tr f tr' :
  discover_folder ident root what a b key requested options tr = (inr f, tr') ->
  f = expected_folder root a b key requested options /\
  tr' = tr ++ found_message ident what (found_folder root a b).
Proof.
  unfold discover_folder, expected_folder, found_folder.
  destruct (path_exists (joinpath root a)).
  { unfold bind, emit, ret. intros [= <- <-]. split; reflexivity. }
  destruct (path_exists (joinpath root b)).
  { unfold bind, emit, ret. intros [= <- <-]. split; reflexivity. }
  cbn [found_message]. rewrite app_nil_r.
  destruct requested.
  - intros H. run_inv. subst.
    unfold get_default in *.
    destruct (dict_get key options) as [[| | |sub] |]; try discriminate;
      match goal with H : as_dict _ = inr _ |- _ => injection H as <- end;
      split; reflexivity.
  - unfold ret. intros [= <- <-].
    destruct (dict_get key options) as [[| | |sub] |]; split; reflexivity.
Qed.

(** The attributes [Target.__init__] sets beside the flags and the include
    directories, and what it logs. *)
Lemma Target_init_attributes c pf pid n r b hs i ip env o d tr t tr' :
  Target_init c pf pid n r b hs i ip env o d tr = (inr t, tr') ->
  project_identifier t = pid /\
  identifier t = identifier_of pid n /\
  headers t = list_set hs /\
  dialect t = expected_dialect env (default [] o) /\
  tests_folder t
    = expected_folder r "test" "tests" "tests" (tests env) (default [] o) /\
  examples_folder t
    = expected_folder r "example" "examples" "examples" (examples env)
        (default [] o) /\
  tr' = tr ++ found_message (identifier_of pid n) "tests"
                (found_folder r "test" "tests")
           ++ found_message (identifier_of pid n) "examples"
                (found_folder r "example" "examples").
Proof.
  unfold Target_init. intros H.
  apply bind_inr in H. destruct H as (tf & tr1 & Htf & H).
  apply bind_inr in H. destruct H as (ef & tr2 & Hef & H).
  apply discover_folder_inv in Htf. destruct Htf as [-> ->].
  apply discover_folder_inv in Hef. destruct Hef as [-> ->].
  apply bind_inr in H. destruct H as (dl & tr3 & Hd & H).
  apply lift_inr in Hd. destruct Hd as [Hd ->].
  run_inv. subst. cbn.
  repeat split; try reflexivity.
  - unfold expected_dialect, contains, getitem in *.
    destruct (dict_get "properties" (default [] o)) as [[| | |props] |];
      cbn in Hd; try discriminate; try (injection Hd as <-; reflexivity).
    destruct (dict_get "cpp_version" props); cbn in Hd;
      injection Hd as <-; reflexivity.
  - rewrite <- app_assoc. reflexivity.
Qed.

(** A constructor that returned has run the base constructor from the same
    trace; of the object the base constructor made, a [Compilable] changes
    the attribute [compiled] only. *)
Lemma new_frame c pf pid n r b hs i ip srcs env o d tr t tr' :
  new c pf pid n r b hs i ip srcs env o d tr = (inr t, tr') ->
  exists self,
    Target_init c pf pid n r b hs i ip env o d tr = (inr self, tr') /\
    (t = self \/ exists comp, t = set_compiled comp self).
Proof.
  intros H.
  destruct c; unfold new, HeaderOnly_init, Executable_init, SharedLibrary_init,
    StaticLibrary_init in H.
  - exists t. split; [exact H | left; reflexivity].
  - run_inv. subst.
    match goal with H : Compilable_init _ _ _ _ _ _ _ _ _ _ _ _ _ _ _ _ _ _ _ = _ |- _ =>
      apply Compilable_init_inv in H;
      destruct H as (self & comp & out_s & pre_s & suf_s & Hself & -> & _) end.
    match goal with H : link_with_dependencies _ _ = _ |- _ =>
      apply link_with_dependencies_inv in H;
      destruct H as (c0 & cs & _ & _ & -> & ->) end.
    exists self. split; [exact Hself |]. right. eexists. reflexivity.
  - run_inv. subst.
    match goal with H : Compilable_init _ _ _ _ _ _ _ _ _ _ _ _ _ _ _ _ _ _ _ = _ |- _ =>
      apply Compilable_init_inv in H;
      destruct H as (self & comp & out_s & pre_s & suf_s & Hself & -> & _) end.
    match goal with H : link_with_dependencies _ _ = _ |- _ =>
      apply link_with_dependencies_inv in H;
      destruct H as (c0 & cs & _ & _ & -> & ->) end.
    exists self. split; [exact Hself |]. right. eexists. reflexivity.
  - run_inv. subst.
    match goal with H : Compilable_init _ _ _ _ _ _ _ _ _ _ _ _ _ _ _ _ _ _ _ = _ |- _ =>
      apply Compilable_init_inv in H;
      destruct H as (self & comp & out_s & pre_s & suf_s & Hself & -> & _) end.
    exists self. split; [exact Hself |]. right. eexists. reflexivity.
Qed.

(** X4.  The folders of the tests and of the examples of a constructed
    target, of any class, and what the constructor has logged when it
    returns.  The folder of the tests is [test] under the root if it
    exists, else [tests] if that exists, else the root itself when tests
    were requested and the options give [sources] under [tests], else
    none; the same with [example], [examples] for the examples.  A
    constructor that returns has logged one record per folder found on
    disk, the tests first, and nothing else. *)
Theorem X4_folders_found_and_logged c pf pid n r b hs i ip srcs env o d tr t tr' :
  new c pf pid n r b hs i ip srcs env o d tr = (inr t, tr') ->
  tests_folder t
    = expected_folder r "test" "tests" "tests" (tests env) (default [] o) /\
  examples_folder t
    = expected_folder r "example" "examples" "examples" (examples env)
        (default [] o) /\
  tr' = tr ++ found_message (identifier t) "tests"
                (found_folder r "test" "tests")
           ++ found_message (identifier t) "examples"
                (found_folder r "example" "examples").
Proof.
  intros H. apply new_frame in H. destruct H as (self & Hself & Ht).
  apply Target_init_attributes in Hself.
  destruct Hself as (_ & Hid & _ & _ & Htf & Hef & Htr).
  assert (E : identifier t = identifier self /\ tests_folder t = tests_folder self
              /\ examples_folder t = examples_folder self).
  { destruct Ht as [-> | (comp & ->)]; repeat split; reflexivity. }
  destruct E as (-> & -> & ->). rewrite Hid. auto.
Qed.

(** X3.  Include directories of a constructed target, of any class.  Every
    directory the caller passes, private or public, is among the private
    ones once resolved, and the public ones are in the public list as
    passed; every public directory of a dependency is in the public list
    and, resolved, in the private one; the private directories of a
    HeaderOnly dependency are, resolved, in the private list; the folder
    [include] under the root, when it exists, is in the public list.  The
    private list holds nothing else: in particular not the private
    directories of a dependency that is not HeaderOnly, and the folder
    [include] only when it comes from one of the lists above. *)
Theorem X3_include_directories_forwarded c pf pid n r b hs i ip srcs env o d tr t tr' :
  new c pf pid n r b hs i ip srcs env o d tr = (inr t, tr') ->
  (forall p, p ∈ i ++ ip -> resolve p ∈ include_directories t) /\
  (forall p, p ∈ ip -> p ∈ include_directories_public t) /\
  (forall dep p, dep ∈ default [] d -> p ∈ include_directories_public dep ->
     p ∈ include_directories_public t /\ resolve p ∈ include_directories t) /\
  (forall dep p, dep ∈ default [] d -> cls dep = HeaderOnly ->
     p ∈ include_directories dep -> resolve p ∈ include_directories t) /\
  (path_exists (joinpath r "include") = true ->
     joinpath r "include" ∈ include_directories_public t) /\
  (forall q, q ∈ include_directories t ->
     exists p, q = resolve p /\
       (p ∈ i ++ ip \/
        exists dep, dep ∈ default [] d /\
          (p ∈ include_directories_public dep \/
           (cls dep = HeaderOnly /\ p ∈ include_directories dep)))).
Proof.
  intros H.
  destruct (new_inv _ _ _ _ _ _ _ _ _ _ _ _ _ _ _ _ H)
    as (self & Hself & _ & _ & Hi & Hip & _).
  destruct (Target_init_inv _ _ _ _ _ _ _ _ _ _ _ _ _ _ _ Hself)
    as (own & iface & pub & _ & _ & _ & _ & _ & _ & _ & _ & _ & Hpriv & Hpub & _).
  rewrite Hi, Hip, Hpriv, Hpub. unfold gathered_includes.
  rewrite fold_includes. cbn [fst snd].
  set (deps := default [] d).
  assert (Hin : forall q, q ∈ list_set (List.map resolve
             ((i ++ ip) ++ List.concat (List.map (fun d0 =>
                 (if is_HeaderOnly (cls d0) then include_directories d0 else [])
                   ++ include_directories_public d0) deps)))
           <-> exists p, q = resolve p /\
                (p ∈ i ++ ip \/
                 exists dep, dep ∈ deps /\
                   (p ∈ include_directories_public dep \/
                    (cls dep = HeaderOnly /\ p ∈ include_directories dep)))).
  { intros q. rewrite list_set_elem, list_elem_of_In, List.in_map_iff.
    split.
    - intros (p & <- & Hp). exists p. split; [reflexivity |].
      apply List.in_app_or in Hp. destruct Hp as [Hp | Hp].
      { left. apply list_elem_of_In, Hp. }
      right. apply List.in_concat in Hp.
      destruct Hp as (l & Hl & Hp). apply List.in_map_iff in Hl.
      destruct Hl as (dep & <- & Hdep).
      exists dep. split; [apply list_elem_of_In, Hdep |].
      apply List.in_app_or in Hp. destruct Hp as [Hp | Hp].
      + right. destruct (cls dep); cbn in Hp; try contradiction.
        split; [reflexivity | apply list_elem_of_In, Hp].
      + left. apply list_elem_of_In, Hp.
    - intros (p & -> & Hp). exists p. split; [reflexivity |].
      apply List.in_or_app.
      destruct Hp as [Hp | (dep & Hdep & Hp)].
      { left. apply list_elem_of_In, Hp. }
      right. apply List.in_concat.
      eexists. split.
      { apply List.in_map_iff. exists dep. split; [reflexivity |].
        apply list_elem_of_In, Hdep. }
      apply List.in_or_app.
      destruct Hp as [Hp | [Hc Hp]]; [right; apply list_elem_of_In, Hp |].
      left. rewrite Hc. apply list_elem_of_In, Hp. }
  assert (Hpubin : forall dep p, dep ∈ deps -> p ∈ include_directories_public dep ->
            p ∈ List.concat (List.map include_directories_public deps)).
  { intros dep p Hdep Hp. apply list_elem_of_In, List.in_concat.
    exists (include_directories_public dep). split.
    - apply List.in_map, list_elem_of_In, Hdep.
    - apply list_elem_of_In, Hp. }
  repeat split.
  - intros p Hp. apply Hin. exists p. split; [reflexivity | left; exact Hp].
  - intros p Hp. rewrite !elem_of_app. left. right. exact Hp.
  - rewrite elem_of_app. right. eapply Hpubin; eassumption.
  - apply Hin. exists p. split; [reflexivity |]. right. exists dep. auto.
  - intros dep p Hdep Hc Hp. apply Hin. exists p. split; [reflexivity |].
    right. exists dep. auto.
  - intros He. rewrite He. rewrite !elem_of_app. left. left.
    apply list_elem_of_here.
  - intros q Hq. apply Hin, Hq.
Qed.


(** [Compilable.__init__] that returned: the attributes it added. *)
Lemma Compilable_init_attributes c pf pid n r b hs i ip srcs env lc out extra
    pre suf o d tr t tr' :
  Compilable_init c pf pid n r b hs i ip srcs env lc out extra pre suf o d tr
    = (inr t, tr') ->
  exists self comp out_s pre_s suf_s name_s,
    Target_init c pf pid n r b hs i ip env o d tr = (inr self, tr') /\
    t = set_compiled comp self /\
    attr_str out = inr out_s /\
    attr_str pre = inr pre_s /\
    attr_str suf = inr suf_s /\
    get_default "output_name" (VStr n) (default [] o) = VStr name_s /\
    c_object_directory comp = resolve (joinpath b "obj") /\
    c_depfile_directory comp = resolve (joinpath b "dep") /\
    output_folder comp = resolve (joinpath b out_s) /\
    outname comp = name_s /\
    outfile comp
      = resolve (joinpath (resolve (joinpath b out_s))
                          (pre_s +:+ name_s +:+ suf_s)) /\
    source_files comp = srcs /\
    include_directories_command comp
      = List.concat (List.map (fun dir => ["-I"; path_str (resolve dir)])
                              (include_directories self)) /\
    buildables comp
      = List.map (fun source_file =>
               {| source_file := source_file;
                  platform_flags := extra;
                  current_target_root_path := r;
                  depfile_directory := resolve (joinpath b "dep");
                  object_directory := resolve (joinpath b "obj");
                  include_strings := include_directories_command comp;
                  ss_compile_flags :=
                    DEFAULT_COMPILE_FLAGS ++ compile_flags (flags self);
                  ss_clang := clang env;
                  ss_clangpp := clangpp env;
                  max_cpp_dialect := dialect self;
                  object_file :=
                    single_source_object_file source_file r
                      (resolve (joinpath b "obj")) |})
            srcs.
Proof.
  unfold Compilable_init. intros H.
  apply bind_inr in H. destruct H as (self & tr1 & Hself & H).
  destruct srcs as [| s0 srcs'].
  { run_inv. }
  apply bind_inr in H. destruct H as (out_s & tr2 & Hout & H).
  apply lift_inr in Hout. destruct Hout as [Hout ->].
  apply bind_inr in H. destruct H as (nm & tr2 & Hnm & H).
  apply lift_inr in Hnm. destruct Hnm as [Hnm ->].
  apply bind_inr in H. destruct H as (pre_s & tr2 & Hpre & H).
  apply lift_inr in Hpre. destruct Hpre as [Hpre ->].
  apply bind_inr in H. destruct H as (name_s & tr2 & Hname & H).
  apply lift_inr in Hname. destruct Hname as [Hname ->].
  apply bind_inr in H. destruct H as (suf_s & tr2 & Hsuf & H).
  apply lift_inr in Hsuf. destruct Hsuf as [Hsuf ->].
  apply bind_inr in H. destruct H as (scripts & tr2 & Hsc & H).
  apply lift_inr in Hsc. destruct Hsc as [_ ->].
  apply ret_inr in H. destruct H as [-> ->].
  pose proof (Target_init_inv _ _ _ _ _ _ _ _ _ _ _ _ _ _ _ Hself) as Hinv.
  destruct Hinv as (own & iface & pub & _ & _ & _ & _ & Ho & _ & Hn & Hr & Hb & _).
  rewrite Ho, Hn, Hr, Hb in *.
  eexists self, _, out_s, pre_s, suf_s, name_s.
  split; [exact Hself |].
  split; [reflexivity |].
  repeat (split; [assumption |]).
  split.
  { unfold contains, getitem, get_default in *.
    destruct (dict_get "output_name" (default [] o)) as [v |]; cbn in Hnm;
      injection Hnm as Hnm; subst nm;
      [destruct v; try discriminate |];
      injection Hname as ->; reflexivity. }
  cbn. repeat split; reflexivity.
Qed.

(** The constructor of a class with source files has read the four
    constants of its class, run [Compilable.__init__] and then replaced the
    link command. *)
Lemma new_compiled c pf pid n r b hs i ip srcs env o d tr t tr' :
  c <> HeaderOnly ->
  new c pf pid n r b hs i ip srcs env o d tr = (inr t, tr') ->
  exists lc out extra pre suf self comp cmd,
    getattr pf (output_constant c) = inr out /\
    getattr pf (extra_flags_constant c) = inr extra /\
    getattr pf (prefix_constant c) = inr pre /\
    getattr pf (suffix_constant c) = inr suf /\
    Compilable_init c pf pid n r b hs i ip srcs env lc out extra pre suf o d tr
      = (inr (set_compiled comp self), tr') /\
    t = set_compiled (set_link_command cmd comp) self.
Proof.
  intros Hc H.
  destruct c; [congruence | | |];
    unfold new, Executable_init, SharedLibrary_init, StaticLibrary_init in H;
    apply bind_inr in H; destruct H as (out & tr1 & Hout & H);
    apply lift_inr in Hout; destruct Hout as [Hout ->];
    apply bind_inr in H; destruct H as (extra & tr1 & Hextra & H);
    apply lift_inr in Hextra; destruct Hextra as [Hextra ->];
    apply bind_inr in H; destruct H as (pre & tr1 & Hpre & H);
    apply lift_inr in Hpre; destruct Hpre as [Hpre ->];
    apply bind_inr in H; destruct H as (suf & tr1 & Hsuf & H);
    apply lift_inr in Hsuf; destruct Hsuf as [Hsuf ->];
    apply bind_inr in H; destruct H as (t0 & tr1 & Ht0 & H);
    pose proof Ht0 as Hinv; apply Compilable_init_inv in Hinv;
    destruct Hinv as (self & comp & _ & _ & _ & _ & -> & _).
  - apply link_with_dependencies_inv in H.
    destruct H as (c0 & cs & Hc0 & _ & -> & ->).
    cbn in Hc0. injection Hc0 as <-.
    eexists _, out, extra, pre, suf, self, comp, _.
    repeat (split; [eassumption |]). reflexivity.
  - apply link_with_dependencies_inv in H.
    destruct H as (c0 & cs & Hc0 & _ & -> & ->).
    cbn in Hc0. injection Hc0 as <-.
    eexists _, out, extra, pre, suf, self, comp, _.
    repeat (split; [eassumption |]). reflexivity.
  - run_inv. subst.
    match goal with H : compiled_attrs _ _ = inr _ |- _ =>
      apply compiled_attrs_inr in H; cbn in H; injection H as <- end.
    eexists _, out, extra, pre, suf, self, comp, _.
    repeat (split; [eassumption |]). reflexivity.
Qed.

Lemma set_compiled_inj comp comp' self self' :
  set_compiled comp self = set_compiled comp' self' -> comp = comp'.
Proof. intros H. apply (f_equal compiled) in H. cbn in H. congruence. Qed.

(** X5.  The artifact of a constructed Executable, SharedLibrary or
    StaticLibrary.  The three attributes of the platform module that
    belong to the class are strings; the output folder is the folder of
    that name under the build directory, resolved; the output name is the
    string under [output_name] of the options when there is one, else the
    name of the target; the output file is prefix, output name and suffix
    in one file name under the output folder, resolved; the object files
    and the dependency files go to [obj] and [dep] under the build
    directory. *)
Theorem X5_artifact_of_a_compilable c pf pid n r b hs i ip srcs env o d tr t tr' :
  c <> HeaderOnly ->
  new c pf pid n r b hs i ip srcs env o d tr = (inr t, tr') ->
  exists comp out_s pre_s suf_s name_s,
    compiled t = Some comp /\
    getattr pf (output_constant c) = inr (PStr out_s) /\
    getattr pf (prefix_constant c) = inr (PStr pre_s) /\
    getattr pf (suffix_constant c) = inr (PStr suf_s) /\
    get_default "output_name" (VStr n) (default [] o) = VStr name_s /\
    outname comp = name_s /\
    output_folder comp = resolve (joinpath b out_s) /\
    outfile comp
      = resolve (joinpath (output_folder comp) (pre_s +:+ name_s +:+ suf_s)) /\
    c_object_directory comp = resolve (joinpath b "obj") /\
    c_depfile_directory comp = resolve (joinpath b "dep") /\
    source_files comp = srcs.
Proof.
  intros Hc H.
  destruct (new_compiled _ _ _ _ _ _ _ _ _ _ _ _ _ _ _ _ Hc H)
    as (lc & out & extra & pre & suf & self & comp & cmd
        & Hout & Hextra & Hpre & Hsuf & Hinit & ->).
  apply Compilable_init_attributes in Hinit.
  destruct Hinit as (self' & comp' & out_s & pre_s & suf_s & name_s & _ & Heq
                     & Ho & Hp & Hs & Hname & Hobj & Hdep & Hfolder & Hout_name
                     & Hfile & Hsrc & _).
  apply set_compiled_inj in Heq. subst comp'.
  destruct out; try discriminate. injection Ho as ->.
  destruct pre; try discriminate. injection Hp as ->.
  destruct suf; try discriminate. injection Hs as ->.
  exists (set_link_command cmd comp), out_s, pre_s, suf_s, name_s.
  cbn. rewrite Hfolder. repeat split; assumption.
Qed.

Lemma resolve_fixed_of_list_set (l : list path) p :
  p ∈ list_set (List.map resolve l) -> resolve p = p.
Proof.
  rewrite list_set_elem, list_elem_of_In, List.in_map_iff.
  intros (q & <- & _). apply resolve_idemp.
Qed.

(** X6.  The source units of a constructed Executable, SharedLibrary or
    StaticLibrary are made alike: each has the include options of the
    target, which are one pair [-I <directory>] per private include
    directory in the order of that list (the directories are resolved
    already), the dialect of the target, which is the one of
    [properties.cpp_version] when the options give it and the newest the
    compiler supports otherwise, the extra flags of the class from the
    platform module, the root directory, the object and dependency-file
    directories of the target, the two compilers of the environment, and
    the object file [SingleSource] derives from its source file. *)
Theorem X6_source_units_are_uniform c pf pid n r b hs i ip srcs env o d tr t tr' :
  c <> HeaderOnly ->
  new c pf pid n r b hs i ip srcs env o d tr = (inr t, tr') ->
  exists comp extra,
    compiled t = Some comp /\
    getattr pf (extra_flags_constant c) = inr extra /\
    dialect t = expected_dialect env (default [] o) /\
    include_directories_command comp
      = List.concat (List.map (fun dir => ["-I"; path_str dir])
                              (include_directories t)) /\
    Forall (fun bu =>
              include_strings bu = include_directories_command comp /\
              max_cpp_dialect bu = dialect t /\
              platform_flags bu = extra /\
              current_target_root_path bu = r /\
              object_directory bu = c_object_directory comp /\
              depfile_directory bu = c_depfile_directory comp /\
              ss_clang bu = clang env /\
              ss_clangpp bu = clangpp env /\
              object_file bu
                = single_source_object_file (source_file bu) r
                    (c_object_directory comp))
           (buildables comp).
Proof.
  intros Hc H.
  destruct (new_compiled _ _ _ _ _ _ _ _ _ _ _ _ _ _ _ _ Hc H)
    as (lc & out & extra & pre & suf & self & comp & cmd
        & Hout & Hextra & Hpre & Hsuf & Hinit & ->).
  apply Compilable_init_attributes in Hinit.
  destruct Hinit as (self' & comp' & out_s & pre_s & suf_s & name_s & Hself & Heq
                     & _ & _ & _ & _ & Hobj & Hdep & _ & _ & _ & _ & Hcmd & Hbu).
  pose proof (set_compiled_inj _ _ _ _ Heq) as <-.
  pose proof (f_equal dialect Heq) as Hd. cbn in Hd.
  pose proof (f_equal include_directories Heq) as Hi. cbn in Hi.
  pose proof (Target_init_attributes _ _ _ _ _ _ _ _ _ _ _ _ _ _ _ Hself)
    as (_ & _ & _ & Hdialect & _).
  pose proof (Target_init_inv _ _ _ _ _ _ _ _ _ _ _ _ _ _ _ Hself)
    as (own & iface & pub & _ & _ & _ & _ & _ & _ & _ & _ & _ & Hpriv & _).
  exists (set_link_command cmd comp), extra. cbn.
  split; [reflexivity |]. split; [exact Hextra |].
  split; [rewrite Hd; exact Hdialect |].
  split.
  { rewrite Hcmd, Hi. f_equal. apply List.map_ext_in. intros p Hp.
    rewrite (resolve_fixed_of_list_set
               (fst (gathered_includes r i ip (default [] d)))); [reflexivity |].
    rewrite <- Hpriv. apply list_elem_of_In, Hp. }
  rewrite Hbu, Hobj, Hdep. apply Forall_map, Forall_forall. intros s _.
  cbn. rewrite Hd. repeat split; reflexivity.
Qed.

End TargetAttributes.

(** ** The constructor of a project *)

Section ProjectRuns.
Context `{PL : PathLib} {T : Type} `{PI : !ProjectImports T}.
Import Py Project ProjectMethods.

Lemma nonempty_filter_keys p (d : dict) k v :
  (k, v) ∈ d -> p k = true -> nonempty (filter_keys p d) = true.
Proof.
  intros Hin Hp. unfold filter_keys.
  assert (H : (k, v) ∈ List.filter (fun kv => p (fst kv)) d).
  { apply list_elem_of_In, List.filter_In. split; [apply list_elem_of_In, Hin | exact Hp]. }
  destruct (List.filter _ d); [apply elem_of_nil in H; contradiction | reflexivity].
Qed.

(** The constructor on a mapping: the checks, the subprojects, the
    targets. *)
Lemma Project_init_inr env multiple_projects config tr p tr' :
  Project_init env multiple_projects (VDict config) tr = (inr p, tr') ->
  exists tr1, Project_targets env multiple_projects config tr1 = (inr p, tr').
Proof.
  cbn [Project_init]. intros H.
  apply bind_inr in H. destruct H as (? & tr0 & _ & H).
  apply bind_inr in H. destruct H as (? & tr1 & _ & H).
  exists tr1. exact H.
Qed.

Lemma Project_init_rejected env multiple_projects config tr e tr' :
  Project_checks config tr = (inl e, tr') ->
  Project_init env multiple_projects (VDict config) tr = (inl e, tr').
Proof. cbn [Project_init]. unfold bind. intros ->. reflexivity. Qed.

Lemma Project_init_without_subprojects env multiple_projects config tr :
  self_subprojects_config config = [] ->
  top_level_subprojects config = [] ->
  Project_init env multiple_projects (VDict config) tr
  = Project_targets env multiple_projects config tr.
Proof.
  intros Hself Htop. cbn [Project_init].
  assert (Hchecks : Project_checks config tr = (inr tt, tr)).
  { unfold Project_checks. rewrite Hself, Htop. cbn [nonempty].
    rewrite !andb_false_r. reflexivity. }
  unfold bind at 1. rewrite Hchecks.
  unfold bind at 1.
  match goal with
  | |- (let (_, _) := ?f config tr in _) = _ => set (sub := f)
  end.
  assert (Hsub : forall items,
            filter_keys (fun key => String.eqb key "subproject") items = [] ->
            sub items tr = (inr tt, tr)).
  { induction items as [| [key val] items IH]; intros Hitems; [reflexivity |].
    cbn in Hitems |- *.
    destruct (String.eqb key "subproject"); [discriminate |].
    apply IH, Hitems. }
  rewrite (Hsub config Htop). reflexivity.
Qed.

(** X7.  A configuration without a name that has an entry [subproject]
    and an entry that defines a target is refused: the constructor prints
    a message, logs the same text as an error and exits with code 1, and it
    has done nothing else; no subproject and no target is constructed.  The
    text is the one for the top level, or the one that begins with
    [Project : ] when a key of the configuration begins with [project]. *)
Theorem X7_anonymous_project_with_subprojects_exits env multiple_projects config tr k v sub :
  (k, v) ∈ config -> k <> "subproject" -> k <> "name" ->
  ("subproject", sub) ∈ config ->
  get_default "name" (VStr "") config = VStr "" ->
  exists msg,
    (msg = not_allowed_top_level \/ msg = "Project : " +:+ not_allowed) /\
    Project_init env multiple_projects (VDict config) tr
    = (inl (SystemExit 1), tr ++ [Print msg; Log EnvironmentLogger ERROR msg]).
Proof.
  intros Hk Hk1 Hk2 Hsub Hname.
  assert (Htargets : nonempty (top_level_targets config) = true).
  { apply (nonempty_filter_keys _ _ k v Hk).
    apply String.eqb_neq in Hk1, Hk2. rewrite Hk1, Hk2. reflexivity. }
  assert (Hsubs : nonempty (top_level_subprojects config) = true).
  { apply (nonempty_filter_keys _ _ "subproject" sub Hsub). reflexivity. }
  assert (Hself : nonempty (self_targets_config config) = true).
  { apply (nonempty_filter_keys _ _ "subproject" sub Hsub). reflexivity. }
  destruct (nonempty (self_subprojects_config config)) eqn:Hproj.
  - exists ("Project : " +:+ not_allowed). split; [right; reflexivity |].
    apply Project_init_rejected. unfold Project_checks.
    rewrite Hself, Hproj, Hname. cbn.
    unfold bind, print, error, emit, sys_exit, raise, lift. cbn.
    rewrite <- app_assoc. reflexivity.
  - exists not_allowed_top_level. split; [left; reflexivity |].
    apply Project_init_rejected. unfold Project_checks.
    rewrite Hself, Hproj, Hname, Htargets, Hsubs. cbn.
    unfold bind, print, error, emit, sys_exit, raise, lift, ret. cbn.
    rewrite <- app_assoc. reflexivity.
Qed.

(** X8.  A configuration that has a key beginning with [project] and any
    key that does not, the key [name] included, is refused: the
    constructor prints [Project <name>: Your config file specified one or
    more projects ...], logs the same text as an error and exits with code
    1 before anything is constructed.  So a named project cannot hold a
    target whose name begins with [project]. *)
Theorem X8_key_beginning_with_project_exits env multiple_projects config tr k1 v1 k2 v2 n :
  (k1, v1) ∈ config -> startswith "project" k1 = true ->
  (k2, v2) ∈ config -> startswith "project" k2 = false ->
  get_default "name" (VStr "") config = VStr n ->
  Project_init env multiple_projects (VDict config) tr
  = (inl (SystemExit 1),
     tr ++ [Print ("Project " +:+ n +:+ ": " +:+ not_allowed);
            Log EnvironmentLogger ERROR ("Project " +:+ n +:+ ": " +:+ not_allowed)]).
Proof.
  intros H1 Hp1 H2 Hp2 Hname.
  apply Project_init_rejected. unfold Project_checks.
  assert (Htargets : nonempty (self_targets_config config) = true).
  { apply (nonempty_filter_keys _ _ k2 v2 H2). rewrite Hp2. reflexivity. }
  assert (Hprojects : nonempty (self_subprojects_config config) = true).
  { apply (nonempty_filter_keys _ _ k1 v1 H1). exact Hp1. }
  rewrite Htargets, Hprojects, Hname.
  unfold bind, print, error, emit, sys_exit, raise, lift, as_str. cbn.
  rewrite <- app_assoc. reflexivity.
Qed.

(** X9.  In a configuration without subprojects, when the analyser
    reports dependencies that point to no target, the constructor logs one
    error, the lines [In <target>: the dependency <name> does not point to
    a valid target] joined and indented by three spaces, prints [Project
    <name>: non_existent_dependencies.] and exits with code 1; the messages
    are not printed and no target is constructed. *)
Theorem X9_missing_dependency_exits env multiple_projects config tr n :
  self_subprojects_config config = [] ->
  top_level_subprojects config = [] ->
  top_level_targets config <> [] ->
  find_non_existent_dependencies (top_level_targets config) <> [] ->
  get_default "name" (VStr "") config = VStr n ->
  Project_init env multiple_projects (VDict config) tr
  = (inl (SystemExit 1),
     tr ++ [Log EnvironmentLogger ERROR
              (indent
                 (join nl
                    (List.map
                       (fun td => "In " +:+ fst td +:+ ": the dependency "
                                    +:+ snd td +:+ " does not point to a valid target")
                       (find_non_existent_dependencies (top_level_targets config))))
                 "   ");
            Print ("Project " +:+ n +:+ ": non_existent_dependencies.")]).
Proof.
  intros Hself Htop Htargets Hmissing Hname.
  rewrite Project_init_without_subprojects by assumption.
  unfold Project_targets.
  destruct (top_level_targets config) as [| kv kvs]; [congruence |].
  rewrite Hname.
  destruct (find_non_existent_dependencies (kv :: kvs)) as [| m ms]; [congruence |].
  unfold bind, ret, error, print, sys_exit, raise, lift, emit, as_str.
  rewrite <- app_assoc. reflexivity.
Qed.

Lemma process_target_length env targets_config target_names multiple_targets
    build_dir target_list target_name tr targets' tr' :
  process_target env targets_config target_names multiple_targets build_dir
    target_list target_name tr = (inr targets', tr') ->
  (length targets' <= S (length target_list))%nat.
Proof.
  unfold process_target. intros H.
  apply bind_inr in H. destruct H as (pn & tr1 & _ & H).
  apply bind_inr in H. destruct H as (node & tr2 & _ & H).
  apply bind_inr in H. destruct H as (names & tr3 & _ & H).
  apply bind_inr in H. destruct H as (deps & tr4 & _ & H).
  apply bind_inr in H. destruct H as (? & tr5 & _ & H).
  apply instantiate_inv in H. destruct H as [-> | (t & ->)].
  - lia.
  - rewrite length_app. cbn. lia.
Qed.

Lemma foldM_process_target_length env targets_config target_names
    multiple_targets build_dir names target_list tr targets' tr' :
  foldM (process_target env targets_config target_names multiple_targets
           build_dir) names target_list tr = (inr targets', tr') ->
  (length targets' <= length target_list + length names)%nat.
Proof.
  revert target_list tr.
  induction names as [| name names IH]; intros target_list tr H.
  - cbn in H. apply ret_inr in H. destruct H as [-> _]. cbn. lia.
  - cbn [foldM] in H. apply bind_inr in H. destruct H as (l1 & tr1 & H1 & H).
    apply process_target_length in H1. apply IH in H. cbn [length]. lia.
Qed.

(** X10.  [get_targets] on a project whose constructor returned.  When
    the configuration defines no target at the top level (it is empty, or
    holds a name and subprojects only), the attribute [target_list] was
    never set and [get_targets] raises [AttributeError]; the targets of the
    subprojects are not reachable from the project.  Otherwise it returns a
    list that has at most one target per name of the dependency walk. *)
Theorem X10_get_targets_after_construction env multiple_projects config tr p tr' :
  Project_init env multiple_projects (VDict config) tr = (inr p, tr') ->
  match top_level_targets config with
  | [] => get_targets p = inl (AttributeError "target_list")
  | _ :: _ =>
      exists targets,
        get_targets p = inr targets /\
        (length targets
           <= length (get_dependency_walk (top_level_targets config)))%nat
  end.
Proof.
  intros H. apply Project_init_inr in H. destruct H as (tr1 & H).
  unfold Project_targets in H.
  destruct (top_level_targets config) as [| kv kvs].
  - apply ret_inr in H. destruct H as [-> _]. reflexivity.
  - apply bind_inr in H. destruct H as (? & tr2 & _ & H).
    apply bind_inr in H. destruct H as (? & tr3 & _ & H).
    apply bind_inr in H. destruct H as (bd & tr4 & _ & H).
    apply bind_inr in H. destruct H as (targets & tr5 & Hloop & H).
    apply ret_inr in H. destruct H as [-> _].
    exists targets. split; [reflexivity |].
    apply foldM_process_target_length in Hloop. cbn in Hloop. exact Hloop.
Qed.

Lemma index_inl x xs e :
  index x xs = inl e -> e = ValueError /\ x ∉ xs.
Proof.
  induction xs as [| y xs IH]; cbn.
  - intros [= <-]. split; [reflexivity | apply not_elem_of_nil].
  - destruct (String.eqb_spec x y) as [-> | Hne]; [discriminate |].
    destruct (index x xs) as [e' | i]; [| discriminate].
    intros [= <-]. destruct (IH eq_refl) as [-> Hnot].
    split; [reflexivity |]. rewrite elem_of_cons. tauto.
Qed.

(** X11.  How the names under [dependencies] are resolved.  Each name is
    looked up by its position in the dependency walk and replaced by the
    target at that position of the list constructed so far, whatever the
    name of that target.  The lookup fails with [ValueError] for a name
    that is not in the walk, and with [IndexError] for a name whose
    position is not below the length of the list (fewer targets were
    constructed than names walked). *)
Theorem X11_dependencies_resolved_by_position (target_list : list T) target_names names :
  match lookup_dependencies target_list target_names names with
  | inr dependencies =>
      Forall2 (fun name t =>
                 exists i, index name target_names = inr i /\
                           target_list !! i = Some t)
              names dependencies
  | inl e =>
      exists name,
        name ∈ names /\
        ((e = ValueError /\ name ∉ target_names) \/
         (e = IndexError /\
          exists i, index name target_names = inr i /\
                    (length target_list <= i)%nat))
  end.
Proof.
  induction names as [| name names IH]; cbn.
  - constructor.
  - destruct (index name target_names) as [e | i] eqn:Hi; cbn.
    { apply index_inl in Hi. destruct Hi as [-> Hnot].
      exists name. split; [apply list_elem_of_here |]. left. auto. }
    unfold list_getitem.
    destruct (target_list !! i) as [t |] eqn:Ht; cbn.
    2: { exists name. split; [apply list_elem_of_here |]. right.
         split; [reflexivity |]. exists i. split; [exact Hi |].
         apply lookup_ge_None, Ht. }
    destruct (lookup_dependencies target_list target_names names) as [e | ts]; cbn.
    + destruct IH as (name' & Hin & Hcase).
      exists name'. split; [apply elem_of_cons; right; exact Hin | exact Hcase].
    + constructor; [| exact IH]. exists i. split; [exact Hi | exact Ht].
Qed.

End ProjectRuns.

(** ** The constructor of a project with the classes of [target.py] *)

Section ProjectRunsOfTheClasses.
Context `{PL : PathLib} `{PS : PySet} `{CO : !Collaborators} `{CI : !Calls.Imports}.
Import Py Project.

Local Abbreviation called := (Calls.classes (CI:=CI)).


Lemma process_target_called env targets_config target_names multiple_targets
    build_dir target_list target_name tr targets' tr' :
  process_target (PI:=called) env targets_config target_names multiple_targets
    build_dir target_list target_name tr = (inr targets', tr') ->
  targets' = target_list.
Proof.
  unfold process_target. intros H.
  apply bind_inr in H. destruct H as (pn & tr1 & _ & H).
  apply bind_inr in H. destruct H as (node & tr2 & _ & H).
  apply bind_inr in H. destruct H as (names & tr3 & _ & H).
  apply bind_inr in H. destruct H as (deps & tr4 & _ & H).
  apply bind_inr in H. destruct H as (? & tr5 & _ & H).
  match type of H with
  | instantiate ?e ?n ?p ?tn ?b ?f ?d ?l ?t = _ =>
      pose proof (instantiate_called e n p tn b f d l t) as Hc
  end.
  destruct (unsupported_type node).
  - rewrite Hc in H. injection H as <- _. reflexivity.
  - destruct Hc as (e & logged & Hc & _). rewrite Hc in H. discriminate.
Qed.

Lemma foldM_process_target_called env targets_config target_names
    multiple_targets build_dir names target_list tr targets' tr' :
  foldM (process_target (PI:=called) env targets_config target_names
           multiple_targets build_dir) names target_list tr = (inr targets', tr') ->
  targets' = target_list.
Proof.
  revert target_list tr.
  induction names as [| name names IH]; intros target_list tr H.
  - cbn in H. apply ret_inr in H. destruct H as [-> _]. reflexivity.
  - cbn [foldM] in H. apply bind_inr in H. destruct H as (l1 & tr1 & H1 & H).
    apply process_target_called in H1. subst l1. apply IH in H. exact H.
Qed.

(** X16.  With the classes of [target.py], no constructor of a project
    returns a project that has a target: when [Project.__init__] returns,
    the attribute [target_list] is unset or the empty list.  (Every
    definition of a supported type ends the constructor in an exception;
    the definitions of an unsupported type are skipped.) *)
Theorem X16_no_project_has_a_target env multiple_projects config tr p tr' :
  Project_init (PI:=called) env multiple_projects (VDict config) tr = (inr p, tr') ->
  target_list p = None \/ target_list p = Some [].
Proof.
  intros H. apply Project_init_inr in H. destruct H as (tr1 & H).
  unfold Project_targets in H.
  destruct (top_level_targets config) as [| kv kvs].
  - apply ret_inr in H. destruct H as [-> _]. left. reflexivity.
  - apply bind_inr in H. destruct H as (? & tr2 & _ & H).
    apply bind_inr in H. destruct H as (? & tr3 & _ & H).
    apply bind_inr in H. destruct H as (bd & tr4 & _ & H).
    apply bind_inr in H. destruct H as (targets & tr5 & Hloop & H).
    apply ret_inr in H. destruct H as [-> _].
    apply foldM_process_target_called in Hloop. subst targets.
    right. reflexivity.
Qed.

End ProjectRunsOfTheClasses.

(** ** The tests and the examples *)

Section ExpansionFacts.
Context `{PL : PathLib} `{PS : PySet} `{CO : !Collaborators}.
Context `{EI : !Expansion.Imports}.
Import Py Platform Target Expansion.

Lemma Executable_init_expansion pf pid n r b hs i ip srcs env o d tr t tr' :
  Executable_init pf pid n r b hs i ip srcs env (Some o) (Some d) tr = (inr t, tr') ->
  expansion_target pid n r b srcs o d t.
Proof.
  intros H. change (new Executable pf pid n r b hs i ip srcs env (Some o) (Some d) tr
                    = (inr t, tr')) in H.
  assert (Hc : Executable <> HeaderOnly) by discriminate.
  destruct (new_compiled _ _ _ _ _ _ _ _ _ _ _ _ _ _ _ _ Hc H)
    as (lc & out & extra & pre & suf & self & comp & cmd & _ & _ & _ & _ & Hinit & ->).
  apply Compilable_init_attributes in Hinit.
  destruct Hinit as (self' & comp' & out_s & pre_s & suf_s & name_s & Hself & Heq
                     & _ & _ & _ & _ & _ & _ & _ & _ & _ & Hsrc & _).
  pose proof (set_compiled_inj _ _ _ _ Heq) as <-.
  pose proof (Target_init_attributes _ _ _ _ _ _ _ _ _ _ _ _ _ _ _ Hself)
    as (Hpid & _).
  pose proof (Target_init_inv _ _ _ _ _ _ _ _ _ _ _ _ _ _ _ Hself)
    as (own & iface & pub & _ & _ & _ & Hcls & Ho & Hd & Hn & Hr & Hb & _).
  pose proof (f_equal cls Heq) as E1.
  pose proof (f_equal project_identifier Heq) as E2.
  pose proof (f_equal name Heq) as E3.
  pose proof (f_equal root_directory Heq) as E4.
  pose proof (f_equal build_directory Heq) as E5.
  pose proof (f_equal options Heq) as E6.
  pose proof (f_equal dependency_targets Heq) as E7.
  cbn in E1, E2, E3, E4, E5, E6, E7.
  unfold expansion_target. cbn.
  rewrite E1, E2, E3, E4, E5, E6, E7.
  repeat split; try assumption.
  eexists. split; [reflexivity | exact Hsrc].
Qed.

(** A loop that appends one constructed object per element. *)
Lemma foldM_append {X Y} (mk : X -> M Y) (xs : list X) (acc : list Y) tr res tr' :
  foldM (fun acc x => bind (mk x) (fun y => ret (acc ++ [y]))) xs acc tr
    = (inr res, tr') ->
  exists ys, res = acc ++ ys /\
    Forall2 (fun x y => exists tr1 tr2, mk x tr1 = (inr y, tr2)) xs ys.
Proof.
  revert acc tr. induction xs as [| x xs IH]; intros acc tr H.
  - cbn in H. apply ret_inr in H. destruct H as [-> _].
    exists []. split; [rewrite app_nil_r; reflexivity | constructor].
  - cbn [foldM] in H. apply bind_inr in H. destruct H as (acc1 & tr1 & H1 & H).
    apply bind_inr in H1. destruct H1 as (y & tr2 & Hy & H1).
    apply ret_inr in H1. destruct H1 as [-> ->].
    apply IH in H. destruct H as (ys & -> & Hys).
    exists (y :: ys). split; [rewrite <- app_assoc; reflexivity |].
    constructor; [eauto | exact Hys].
Qed.

(** X13.  [create_test_targets].  Without a request for tests, or when the
    walker finds no source file, the list of test targets is empty and
    nothing is logged.  Otherwise the list is the executables made,
    followed by the test dependencies of the target: the target itself
    unless it is an Executable, then the given ones that are not [None].
    There is one executable named [test] on all the source files when
    [single_executable] is absent or true, else one executable
    [test_<stem>] per source file, in order; each belongs to the project
    named by the identifier of the target, is rooted in the folder of the
    tests, builds under [tests] in the build directory of the target,
    takes the table [tests] as its options and the test dependencies as
    its dependencies. *)
Theorem X13_create_test_targets pf env self dependencies_tests target_list tr
    test_targets tr' :
  create_test_targets pf env self dependencies_tests target_list tr
    = (inr test_targets, tr') ->
  if tests env then
    exists tests_options,
      get_default "tests" (VDict []) (options self) = VDict tests_options /\
      let files := discovered_files self (tests_folder self) "tests" tests_options in
      let dependencies := dependency_targets_for self dependencies_tests in
      let root := default Path_of_empty (tests_folder self) in
      let build := joinpath (build_directory self) "tests" in
      match f_sourcefiles files with
      | [] => test_targets = [] /\ tr' = tr
      | _ :: _ =>
          exists made,
            test_targets = made ++ dependencies /\
            if truthy (get_default "single_executable" (VBool true) tests_options)
            then exists t,
                made = [t] /\
                expansion_target (identifier self) "test" root build
                  (f_sourcefiles files) tests_options dependencies t
            else Forall2
                   (fun sourcefile t =>
                      expansion_target (identifier self)
                        ("test_" +:+ stem sourcefile) root build [sourcefile]
                        tests_options dependencies t)
                   (f_sourcefiles files) made
      end
  else test_targets = [] /\ tr' = tr.
Proof.
  unfold create_test_targets. intros H.
  destruct (tests env).
  2: { apply ret_inr in H. destruct H as [-> ->]. split; reflexivity. }
  apply bind_inr in H. destruct H as (tests_options & tr1 & Hopt & H).
  apply lift_inr in Hopt. destruct Hopt as [Hopt ->].
  exists tests_options. split.
  { destruct (get_default "tests" (VDict []) (options self)); try discriminate.
    injection Hopt as ->. reflexivity. }
  cbn zeta.
  destruct (f_sourcefiles (discovered_files self (tests_folder self) "tests"
                             tests_options)) as [| s0 srcs] eqn:Hsrcs.
  { apply ret_inr in H. destruct H as [-> ->]. split; reflexivity. }
  apply bind_inr in H. destruct H as (made & tr2 & Hmade & H).
  apply ret_inr in H. destruct H as [-> ->].
  exists made. split; [reflexivity |].
  assert (Hsingle :
    match tests_options with
    | [] => VBool true
    | _ :: _ => get_default "single_executable" (VBool true) tests_options
    end = get_default "single_executable" (VBool true) tests_options).
  { destruct tests_options; reflexivity. }
  rewrite Hsingle in Hmade.
  destruct (truthy (get_default "single_executable" (VBool true) tests_options)).
  - apply bind_inr in Hmade. destruct Hmade as (t & tr3 & Ht & Hmade).
    apply ret_inr in Hmade. destruct Hmade as [-> ->].
    exists t. split; [reflexivity |].
    apply Executable_init_expansion in Ht. exact Ht.
  - apply (foldM_append
             (fun sourcefile =>
                Executable_init pf (identifier self) ("test_" +:+ stem sourcefile)
                  (default Path_of_empty (tests_folder self))
                  (joinpath (build_directory self) "tests")
                  (f_headers (discovered_files self (tests_folder self) "tests" tests_options))
                  (f_include_directories (discovered_files self (tests_folder self) "tests" tests_options))
                  (f_include_directories_public (discovered_files self (tests_folder self) "tests" tests_options))
                  [sourcefile] env (Some tests_options)
                  (Some (dependency_targets_for self dependencies_tests))))
      in Hmade.
    destruct Hmade as (ys & -> & Hys). cbn [app].
    eapply Forall2_impl; [exact Hys |].
    intros s t (tr3 & tr4 & Ht). cbn beta in Ht.
    apply Executable_init_expansion in Ht. exact Ht.
Qed.

Lemma example_dependencies_none self dependencies_examples target_list names :
  cls self = Executable ->
  (forall name t, name ∈ names ->
     t ∈ target_list ++ omap id dependencies_examples ->
     identifier t <> qualified self name) ->
  example_dependencies self dependencies_examples target_list names = [].
Proof.
  intros Hcls Hnone. unfold example_dependencies, dependency_targets_for,
    own_dependency. rewrite Hcls. cbn [app].
  induction names as [| name names IH]; [reflexivity |].
  cbn [fold_left].
  assert (Hf : forall l, (forall t, t ∈ l -> t ∈ target_list ++ omap id dependencies_examples) ->
             List.filter (fun target => String.eqb (identifier target) (qualified self name)) l = []).
  { intros l Hl. induction l as [| t l IHl]; [reflexivity |].
    cbn. destruct (String.eqb_spec (identifier t) (qualified self name)) as [E | _].
    - exfalso. apply (Hnone name t); [apply list_elem_of_here | | exact E].
      apply Hl, list_elem_of_here.
    - apply IHl. intros t' Ht'. apply Hl. apply elem_of_cons. right. exact Ht'. }
  rewrite !Hf.
  - apply IH. intros name' t Hin. apply Hnone. apply elem_of_cons. right. exact Hin.
  - intros t Ht. apply elem_of_app. right. exact Ht.
  - intros t Ht. apply elem_of_app. left. exact Ht.
Qed.

(** X14.  [create_example_targets] on an Executable whose examples have
    source files and whose [dependencies], if any, name no target of the
    list nor of the given example dependencies: the list of dependencies
    of the examples is empty, and the method reads the local variable
    [missing_dependencies], which no statement has assigned; it raises
    [UnboundLocalError] and makes no example. *)
Theorem X14_examples_of_an_executable_raise pf env self dependencies_examples target_list tr
    examples_options names :
  examples env = true ->
  get_default "examples" (VDict []) (options self) = VDict examples_options ->
  f_sourcefiles (discovered_files self (examples_folder self) "examples"
                   examples_options) <> [] ->
  as_strs (get_default "dependencies" (VList []) examples_options) = inr names ->
  cls self = Executable ->
  (forall name t, name ∈ names ->
     t ∈ target_list ++ omap id dependencies_examples ->
     identifier t <> qualified self name) ->
  create_example_targets pf env self dependencies_examples target_list tr
  = (inl (UnboundLocalError "missing_dependencies"), tr).
Proof.
  intros Henv Hopt Hsrcs Hnames Hcls Hnone.
  unfold create_example_targets. rewrite Henv, Hopt. cbn [as_dict].
  destruct (f_sourcefiles _) as [| s0 srcs]; [congruence |].
  rewrite Hnames.
  rewrite example_dependencies_none by assumption. reflexivity.
Qed.

Lemma example_dependencies_members self dependencies_examples target_list names t :
  t ∈ example_dependencies self dependencies_examples target_list names ->
  t ∈ own_dependency self \/
  exists name, name ∈ names /\ identifier t = qualified self name /\
    t ∈ target_list ++ dependency_targets_for self dependencies_examples.
Proof.
  unfold example_dependencies.
  assert (G : forall acc,
    t ∈ fold_left
      (fun dependencies dependency_name =>
         (dependencies
            ++ List.filter
                 (fun target => String.eqb (identifier target)
                                  (qualified self dependency_name))
                 target_list)
           ++ List.filter
                (fun target => String.eqb (identifier target)
                                 (qualified self dependency_name))
                (dependency_targets_for self dependencies_examples))
      names acc ->
    t ∈ acc \/
    exists name, name ∈ names /\ identifier t = qualified self name /\
      t ∈ target_list ++ dependency_targets_for self dependencies_examples).
  { induction names as [| name names IH]; intros acc Ht; cbn in Ht.
    - left. exact Ht.
    - apply IH in Ht. destruct Ht as [Ht | (name' & Hin & Hid & Ht)].
      + rewrite !elem_of_app in Ht. destruct Ht as [[Ht | Ht] | Ht].
        * left. exact Ht.
        * right. apply list_elem_of_In, List.filter_In in Ht. destruct Ht as [Ht E].
          exists name. split; [apply list_elem_of_here |].
          split; [apply String.eqb_eq, E |].
          apply elem_of_app. left. apply list_elem_of_In, Ht.
        * right. apply list_elem_of_In, List.filter_In in Ht. destruct Ht as [Ht E].
          exists name. split; [apply list_elem_of_here |].
          split; [apply String.eqb_eq, E |].
          apply elem_of_app. right. apply list_elem_of_In, Ht.
      + right. exists name'. split; [apply elem_of_cons; right; exact Hin |].
        split; assumption. }
  apply G.
Qed.

Lemma example_dependencies_prefix self dependencies_examples target_list names :
  exists more,
    example_dependencies self dependencies_examples target_list names
    = own_dependency self ++ more.
Proof.
  unfold example_dependencies. generalize (own_dependency self) as acc.
  induction names as [| name names IH]; intros acc; cbn [fold_left].
  - exists []. rewrite app_nil_r. reflexivity.
  - destruct (IH ((acc ++ List.filter
                 (fun target => String.eqb (identifier target) (qualified self name))
                 target_list)
           ++ List.filter
                (fun target => String.eqb (identifier target) (qualified self name))
                (dependency_targets_for self dependencies_examples))) as (more & ->).
    eexists. rewrite <- !app_assoc. reflexivity.
Qed.

(** X15.  [create_example_targets] when it returns.  Without a request
    for examples, or without source files, the list is empty.  Otherwise
    there is one executable [example_<stem>] per source file, in order,
    and nothing else in the list (the dependencies are not appended, as
    they are for the tests); each is rooted in the folder of the examples,
    builds under [examples], takes the table [examples] as options and the
    same non-empty list of dependencies: the target itself first unless it
    is an Executable, then, name by name, the targets of the list and of
    the example dependencies whose identifier is that name qualified by
    the project of the target. *)
Theorem X15_create_example_targets pf env self dependencies_examples target_list
    tr example_targets tr' :
  create_example_targets pf env self dependencies_examples target_list tr
    = (inr example_targets, tr') ->
  if examples env then
    exists examples_options names,
      get_default "examples" (VDict []) (options self) = VDict examples_options /\
      let files := discovered_files self (examples_folder self) "examples"
                     examples_options in
      let root := default Path_of_empty (examples_folder self) in
      let build := joinpath (build_directory self) "examples" in
      match f_sourcefiles files with
      | [] => example_targets = [] /\ tr' = tr
      | _ :: _ =>
          as_strs (get_default "dependencies" (VList []) examples_options)
            = inr names /\
          let dependencies :=
            example_dependencies self dependencies_examples target_list names in
          dependencies <> [] /\
          (exists more, dependencies = own_dependency self ++ more) /\
          (forall t, t ∈ dependencies ->
             t ∈ own_dependency self \/
             exists name, name ∈ names /\ identifier t = qualified self name /\
               t ∈ target_list ++ dependency_targets_for self dependencies_examples) /\
          Forall2
            (fun sourcefile t =>
               expansion_target (identifier self)
                 ("example_" +:+ stem sourcefile) root build [sourcefile]
                 examples_options dependencies t)
            (f_sourcefiles files) example_targets
      end
  else example_targets = [] /\ tr' = tr.
Proof.
  unfold create_example_targets. intros H.
  destruct (examples env).
  2: { injection H as <- <-. split; reflexivity. }
  destruct (get_default "examples" (VDict []) (options self))
    as [| | | examples_options]; try discriminate.
  cbn [as_dict] in H.
  destruct (as_strs (get_default "dependencies" (VList []) examples_options))
    as [e | names] eqn:Hnames.
  { exists examples_options, []. split; [reflexivity |]. cbn zeta.
    destruct (f_sourcefiles _); [| discriminate].
    injection H as <- <-. split; reflexivity. }
  exists examples_options, names. split; [reflexivity |]. cbn zeta.
  destruct (f_sourcefiles (discovered_files self (examples_folder self) "examples"
                             examples_options)) as [| s0 srcs] eqn:Hsrcs.
  { injection H as <- <-. split; reflexivity. }
  cbv iota.
  split; [exact Hnames |].
  destruct (example_dependencies self dependencies_examples target_list names)
    as [| d0 deps] eqn:Hdeps; [discriminate |].
  split; [discriminate |].
  split; [rewrite <- Hdeps; apply example_dependencies_prefix |].
  split; [intros t Ht; apply example_dependencies_members; rewrite Hdeps; exact Ht |].
  match type of H with
  | match ?run with _ => _ end = _ => destruct run as [[e | made] tr2] eqn:Hrun
  end; [discriminate |].
  injection H as <- <-.
  apply (foldM_append
           (fun sourcefile =>
              Executable_init pf (identifier self) ("example_" +:+ stem sourcefile)
                (default Path_of_empty (examples_folder self))
                (joinpath (build_directory self) "examples")
                (f_headers (discovered_files self (examples_folder self) "examples" examples_options))
                (f_include_directories (discovered_files self (examples_folder self) "examples" examples_options))
                (f_include_directories_public (discovered_files self (examples_folder self) "examples" examples_options))
                [sourcefile] env (Some examples_options) (Some (d0 :: deps))))
    in Hrun.
  destruct Hrun as (ys & -> & Hys). cbn [app].
  eapply Forall2_impl; [exact Hys |].
  intros s t (tr3 & tr4 & Ht). cbn beta in Ht.
  apply Executable_init_expansion in Ht. exact Ht.
Qed.

End ExpansionFacts.

(** * The further properties on the concrete system *)

Section FurtherExamples.
Import Py Platform Target.

Lemma X1_table_of_another_platform_is_not_read :
  exists m,
    platform_py (H:=Demo.posix) "linux" Samples.python38 = inr m /\
    is_platform_key "flags" = false /\
    parse_flags_options (PL:=Demo.posix) m Demo.release
      (without_other_platforms (platform_key "linux") Samples.mixed_options)
      "flags"
    = parse_flags_options (PL:=Demo.posix) m Demo.release Samples.mixed_options "flags" /\
    parse_flags_options (PL:=Demo.posix) m Demo.release Samples.mixed_options "flags"
    = inr (["-DX"; "-DLINUX"], ["-lm"]).
Proof.
  eexists. split; [reflexivity |]. split; [reflexivity |].
  split.
  - apply (X1_other_platform_tables_are_ignored (PL:=Demo.posix) "linux" Samples.python38);
      reflexivity.
  - vm_compute. reflexivity.
Defined.

Lemma X2_release_and_debug_link_alike :
  exists r1 r2,
    parse_flags_options (PL:=Demo.posix) Demo.linux_table Demo.release
      Samples.mixed_options "flags" = inr r1 /\
    parse_flags_options (PL:=Demo.posix) Demo.linux_table Samples.debug
      Samples.mixed_options "flags" = inr r2 /\
    fst r1 = ["-DX"; "-DLINUX"] /\
    fst r2 = ["-DX"; "-DTRACE"; "-DLINUX"] /\
    snd r1 = snd r2.
Proof.
  eexists _, _.
  split; [vm_compute; reflexivity |].
  split; [vm_compute; reflexivity |].
  split; [reflexivity |]. split; [reflexivity |].
  apply (X2_link_flags_ignore_the_build_type (PL:=Demo.posix) Demo.linux_table
           Demo.release Samples.debug Samples.mixed_options "flags");
    vm_compute; reflexivity.
Defined.

(** An executable rooted where a folder [include] exists, with one
    private include directory, that depends on the static library
    [libA]. *)
Local Abbreviation viewer_run :=
  (new (PL:=Demo.posix) (PS:=Demo.first_seen) (CO:=Demo.tools)
     Executable Demo.linux_table "" "viewer" "/w" "/build/viewer" []
     ["/w/src"] [] ["/w/main.cpp"] Demo.release
     (Some [("properties", VDict [("cpp_version", VStr "14")])])
     (Some (Demo.returned Demo.libA_run)) []).

Lemma X3_viewer_sees_the_public_directory_of_libA :
  exists t tr',
    viewer_run = (inr t, tr') /\
    include_directories_public t = ["/w/include"; "/p/inc"] /\
    ("/w/src" : @path Demo.posix) ∈ include_directories t /\
    ("/p/inc" : @path Demo.posix) ∈ include_directories t /\
    ("/w/include" : @path Demo.posix) ∈ include_directories_public t.
Proof.
  assert (H : exists t tr', viewer_run = (inr t, tr')).
  { vm_compute. eexists _, _. reflexivity. }
  destruct H as (t & tr' & H).
  destruct (X3_include_directories_forwarded _ _ _ _ _ _ _ _ _ _ _ _ _ _ _ _ H)
    as (Hgiven & _ & Hdeps & _ & Hdefault & _).
  exists t, tr'. split; [exact H |].
  split.
  { vm_compute in H. injection H as Ht Htr. subst t tr'. reflexivity. }
  split.
  { apply (Hgiven ("/w/src" : @path Demo.posix)). apply list_elem_of_here. }
  split.
  { assert (Hlib : exists lib, Demo.returned Demo.libA_run = [lib] /\
                     ("/p/inc" : @path Demo.posix) ∈ include_directories_public lib).
    { vm_compute. eexists. split; [reflexivity |]. apply list_elem_of_here. }
    destruct Hlib as (lib & Hlib & Hinc).
    apply (Hdeps lib ("/p/inc" : @path Demo.posix)); [| exact Hinc].
    cbn [default]. rewrite Hlib. apply list_elem_of_here. }
  apply Hdefault. reflexivity.
Defined.

(** A header-only library of the project [proj], on the file system with
    the folders [tests], [example] and [examples]. *)
Local Abbreviation kit_run :=
  (new (PL:=Samples.tree) (PS:=Demo.first_seen) (CO:=Samples.tree_tools)
     HeaderOnly [] "proj" "kit" "/q" "/build/kit" [] [] [] []
     Samples.testing None None []).

Lemma X4_kit_finds_its_folders :
  exists t,
    kit_run
    = (inr t,
       [Log ModuleLogger INFO "[proj.kit]: found tests folder /q/tests";
        Log ModuleLogger INFO "[proj.kit]: found examples folder /q/example"]) /\
    tests_folder t = Some ("/q/tests" : @path Samples.tree) /\
    examples_folder t = Some ("/q/example" : @path Samples.tree).
Proof.
  assert (H : exists t tr', kit_run = (inr t, tr')).
  { vm_compute. eexists _, _. reflexivity. }
  destruct H as (t & tr' & H).
  destruct (X4_folders_found_and_logged _ _ _ _ _ _ _ _ _ _ _ _ _ _ _ _ H)
    as (Htests & Hexamples & Htr).
  exists t. split; [| split].
  - rewrite H. f_equal. rewrite Htr.
    vm_compute in H. injection H as Ht _. subst t. reflexivity.
  - rewrite Htests. reflexivity.
  - rewrite Hexamples. reflexivity.
Defined.

(** A shared library that is given a name for its output. *)
Local Abbreviation engine_run :=
  (new (PL:=Demo.posix) (PS:=Demo.first_seen) (CO:=Demo.tools)
     SharedLibrary Demo.linux_table "" "core" "/p" "/build/core" [] [] []
     ["/p/core.cpp"] Demo.release
     (Some [("output_name", VStr "engine")]) None []).

Lemma X5_core_is_written_as_libengine :
  exists t tr' comp,
    engine_run = (inr t, tr') /\
    compiled t = Some comp /\
    outname comp = "engine" /\
    output_folder comp = ("/build/core/lib" : @path Demo.posix) /\
    outfile comp = ("/build/core/lib/libengine.so" : @path Demo.posix) /\
    c_object_directory comp = ("/build/core/obj" : @path Demo.posix) /\
    c_depfile_directory comp = ("/build/core/dep" : @path Demo.posix).
Proof.
  assert (H : exists t tr', engine_run = (inr t, tr')).
  { vm_compute. eexists _, _. reflexivity. }
  destruct H as (t & tr' & H).
  assert (Hne : SharedLibrary <> HeaderOnly) by discriminate.
  destruct (X5_artifact_of_a_compilable SharedLibrary _ _ _ _ _ _ _ _ _ _ _ _ _ _ _ Hne H)
    as (comp & out_s & pre_s & suf_s & name_s & Hcomp & Hout & Hpre & Hsuf & Hname
        & Houtname & Hfolder & Hfile & Hobj & Hdep & _).
  vm_compute in Hout. injection Hout as <-.
  vm_compute in Hpre. injection Hpre as <-.
  vm_compute in Hsuf. injection Hsuf as <-.
  vm_compute in Hname. injection Hname as <-.
  exists t, tr', comp.
  split; [exact H |]. split; [exact Hcomp |]. split; [exact Houtname |].
  split; [exact Hfolder |].
  split; [rewrite Hfile, Hfolder; reflexivity |].
  split; [exact Hobj | exact Hdep].
Defined.

Lemma X6_source_unit_of_viewer :
  exists t tr' comp,
    viewer_run = (inr t, tr') /\
    compiled t = Some comp /\
    dialect t = "-std=c++14" /\
    Forall (fun bu =>
              include_strings bu = ["-I"; "/w/src"; "-I"; "/p/inc"] /\
              max_cpp_dialect bu = "-std=c++14" /\
              platform_flags bu = PStrs [] /\
              ss_clangpp bu = "clang++")
           (buildables comp).
Proof.
  assert (H : exists t tr', viewer_run = (inr t, tr')).
  { vm_compute. eexists _, _. reflexivity. }
  destruct H as (t & tr' & H).
  assert (Hne : Executable <> HeaderOnly) by discriminate.
  destruct (X6_source_units_are_uniform Executable _ _ _ _ _ _ _ _ _ _ _ _ _ _ _ Hne H)
    as (comp & extra & Hcomp & Hextra & Hdialect & Hcmd & Hall).
  vm_compute in Hextra. injection Hextra as <-.
  assert (Hincs : include_directories t = ["/w/src"; "/p/inc"]).
  { vm_compute in H. injection H as Ht _. subst t. reflexivity. }
  rewrite Hincs in Hcmd. cbn in Hcmd.
  exists t, tr', comp.
  split; [exact H |]. split; [exact Hcomp |].
  split; [rewrite Hdialect; reflexivity |].
  eapply Forall_impl; [exact Hall |].
  intros bu (Hi & Hd & Hp & _ & _ & _ & _ & Hcc & _).
  rewrite Hi, Hd, Hp, Hcc, Hcmd, Hdialect. repeat split; reflexivity.
Defined.

Local Abbreviation construct config :=
  (Project.Project_init (PL:=Demo.posix) (PI:=Demo.classes) Demo.workspace false
     (VDict config) []).

Lemma X7_target_beside_subprojects_is_refused :
  exists msg,
    (msg = Project.not_allowed_top_level
     \/ msg = "Project : " +:+ Project.not_allowed) /\
    construct Samples.mixed_config
    = (inl (SystemExit 1), [Print msg; Log EnvironmentLogger ERROR msg]).
Proof.
  apply (X7_anonymous_project_with_subprojects_exits (PI:=Demo.classes)
           Demo.workspace false Samples.mixed_config []
           "app" (VDict [Demo.sources ["main.cpp"]])
           (VList [VDict Demo.named_config])).
  - apply list_elem_of_here.
  - discriminate.
  - discriminate.
  - apply elem_of_cons. right. apply list_elem_of_here.
  - reflexivity.
Defined.

Lemma X8_target_project_utils_is_refused :
  construct Samples.prefixed_config
  = (inl (SystemExit 1),
     [Print ("Project proj: " +:+ Project.not_allowed);
      Log EnvironmentLogger ERROR ("Project proj: " +:+ Project.not_allowed)]).
Proof.
  apply (X8_key_beginning_with_project_exits (PI:=Demo.classes)
           Demo.workspace false Samples.prefixed_config []
           "project_utils" (VDict [Demo.sources ["utils.cpp"]])
           "name" (VStr "proj") "proj").
  - apply elem_of_cons. right. apply list_elem_of_here.
  - reflexivity.
  - apply list_elem_of_here.
  - reflexivity.
  - reflexivity.
Defined.

Lemma X9_dependency_on_ghost_is_refused :
  construct Samples.ghost_config
  = (inl (SystemExit 1),
     [Log EnvironmentLogger ERROR
        "   In app: the dependency ghost does not point to a valid target";
      Print "Project : non_existent_dependencies."]).
Proof.
  etransitivity.
  - apply (X9_missing_dependency_exits (PI:=Demo.classes)
             Demo.workspace false Samples.ghost_config [] "").
    + reflexivity.
    + reflexivity.
    + discriminate.
    + vm_compute. discriminate.
    + reflexivity.
  - vm_compute. reflexivity.
Defined.

Lemma X10_umbrella_project_has_no_target_list :
  exists p tr',
    construct Samples.umbrella_config = (inr p, tr') /\
    ProjectMethods.get_targets p = inl (AttributeError "target_list").
Proof.
  assert (H : exists p tr', construct Samples.umbrella_config = (inr p, tr')).
  { vm_compute. eexists _, _. reflexivity. }
  destruct H as (p & tr' & H).
  exists p, tr'. split; [exact H |].
  exact (X10_get_targets_after_construction (PI:=Demo.classes) _ _ _ _ _ _ H).
Defined.


Lemma X16_project_of_an_unknown_type_has_no_target :
  exists p tr',
    construct Demo.gui_config = (inr p, tr') /\
    (Project.target_list p = None \/ Project.target_list p = Some []) /\
    Project.target_list p = Some [].
Proof.
  assert (H : exists p tr', construct Demo.gui_config = (inr p, tr')).
  { vm_compute. eexists _, _. reflexivity. }
  destruct H as (p & tr' & H).
  exists p, tr'. split; [exact H |].
  split; [exact (X16_no_project_has_a_target (CI:=Demo.outside) _ _ _ _ _ _ H) |].
  vm_compute in H. injection H as <- _. reflexivity.
Defined.

(** A header-only library whose options list two test programs, to be
    built one by one, and one example. *)
Local Abbreviation mathlib_run :=
  (new (PL:=Demo.posix) (PS:=Demo.first_seen) (CO:=Demo.tools)
     HeaderOnly Demo.linux_table "" "mathlib" "/p" "/build/mathlib" [] [] [] []
     Samples.testing (Some Samples.mathlib_options) None []).

(** An executable with the same options. *)
Local Abbreviation calc_run :=
  (new (PL:=Demo.posix) (PS:=Demo.first_seen) (CO:=Demo.tools)
     Executable Demo.linux_table "" "calc" "/p" "/build/calc" [] [] []
     ["/p/calc.cpp"] Samples.testing (Some Samples.mathlib_options) None []).

Local Abbreviation tests_of self tr :=
  (Expansion.create_test_targets (PL:=Demo.posix) (PS:=Demo.first_seen)
     (CO:=Demo.tools) (EI:=Samples.walker)
     Demo.linux_table Samples.testing self [] [] tr).

Local Abbreviation examples_of self tr :=
  (Expansion.create_example_targets (PL:=Demo.posix) (PS:=Demo.first_seen)
     (CO:=Demo.tools) (EI:=Samples.walker)
     Demo.linux_table Samples.testing self [] [] tr).

Lemma X13_tests_of_mathlib :
  exists self tr t1 t2 tr',
    mathlib_run = (inr self, tr) /\
    tests_of self tr = (inr [t1; t2; self], tr') /\
    name t1 = "test_t1" /\ name t2 = "test_t2" /\
    project_identifier t1 = "mathlib" /\
    build_directory t1 = ("/build/mathlib/tests" : @path Demo.posix) /\
    dependency_targets t1 = [self] /\ dependency_targets t2 = [self].
Proof.
  assert (H : exists self tr, mathlib_run = (inr self, tr)).
  { vm_compute. eexists _, _. reflexivity. }
  destruct H as (self & tr & H).
  assert (Hself : cls self = HeaderOnly /\ identifier self = "mathlib"
                  /\ build_directory self = ("/build/mathlib" : @path Demo.posix)).
  { vm_compute in H. injection H as Hs _. subst self. repeat split. }
  destruct Hself as (Hcls & Hid & Hbuild).
  assert (Hrun : exists ts tr', tests_of self tr = (inr ts, tr')).
  { vm_compute in H. injection H as Hs Htr. subst self tr.
    vm_compute. eexists _, _. reflexivity. }
  destruct Hrun as (ts & tr' & Hrun).
  pose proof (X13_create_test_targets (EI:=Samples.walker) _ _ _ _ _ _ _ _ Hrun) as HT.
  cbn [tests Samples.testing] in HT.
  destruct HT as (tests_options & Hopt & HT).
  assert (Hoptions : options self = Samples.mathlib_options).
  { vm_compute in H. injection H as Hs _. subst self. reflexivity. }
  rewrite Hoptions in Hopt. vm_compute in Hopt. injection Hopt as <-.
  assert (Hfolder : tests_folder self = Some ("/p" : @path Demo.posix)).
  { vm_compute in H. injection H as Hs _. subst self. reflexivity. }
  assert (Hroot : root_directory self = ("/p" : @path Demo.posix)).
  { vm_compute in H. injection H as Hs _. subst self. reflexivity. }
  cbn zeta in HT. unfold Expansion.discovered_files in HT.
  rewrite Hfolder, Hroot, Hbuild in HT.
  cbn in HT.
  destruct HT as (made & -> & Hmade).
  apply Forall2_cons_inv_l in Hmade. destruct Hmade as (t1 & made1 & H1 & Hmade & ->).
  apply Forall2_cons_inv_l in Hmade. destruct Hmade as (t2 & made2 & H2 & Hmade & ->).
  apply Forall2_nil_inv_l in Hmade. subst made2.
  unfold Expansion.dependency_targets_for, Expansion.own_dependency in *.
  rewrite Hcls in *. cbn in Hrun, H1, H2.
  destruct H1 as (_ & Hp1 & Hn1 & _ & Hb1 & _ & Hd1 & _).
  destruct H2 as (_ & _ & Hn2 & _ & _ & _ & Hd2 & _).
  exists self, tr, t1, t2, tr'.
  split; [exact H |]. split; [exact Hrun |].
  rewrite Hid in Hp1.
  repeat split; assumption.
Defined.

Lemma X14_examples_of_calc_raise :
  exists self tr,
    calc_run = (inr self, tr) /\
    examples_of self tr
    = (inl (Expansion.UnboundLocalError "missing_dependencies"), tr).
Proof.
  assert (H : exists self tr, calc_run = (inr self, tr)).
  { vm_compute. eexists _, _. reflexivity. }
  destruct H as (self & tr & H).
  exists self, tr. split; [exact H |].
  apply (X14_examples_of_an_executable_raise (EI:=Samples.walker) _ _ _ _ _ _
           [Demo.sources ["demo.cpp"]] []).
  - reflexivity.
  - vm_compute in H. injection H as Hs _. subst self. reflexivity.
  - vm_compute in H. injection H as Hs _. subst self. vm_compute. discriminate.
  - reflexivity.
  - vm_compute in H. injection H as Hs _. subst self. reflexivity.
  - intros name0 t Hin. apply elem_of_nil in Hin. contradiction.
Defined.

Lemma X15_example_of_mathlib :
  exists self tr t tr',
    mathlib_run = (inr self, tr) /\
    examples_of self tr = (inr [t], tr') /\
    name t = "example_demo" /\
    build_directory t = ("/build/mathlib/examples" : @path Demo.posix) /\
    dependency_targets t = [self].
Proof.
  assert (H : exists self tr, mathlib_run = (inr self, tr)).
  { vm_compute. eexists _, _. reflexivity. }
  destruct H as (self & tr & H).
  assert (Hrun : exists ts tr', examples_of self tr = (inr ts, tr')).
  { vm_compute in H. injection H as Hs Htr. subst self tr.
    vm_compute. eexists _, _. reflexivity. }
  destruct Hrun as (ts & tr' & Hrun).
  pose proof (X15_create_example_targets (EI:=Samples.walker) _ _ _ _ _ _ _ _ Hrun) as HT.
  cbn [examples Samples.testing] in HT.
  destruct HT as (examples_options & names & Hopt & HT).
  assert (Hself : options self = Samples.mathlib_options
                  /\ examples_folder self = Some ("/p" : @path Demo.posix)
                  /\ root_directory self = ("/p" : @path Demo.posix)
                  /\ build_directory self = ("/build/mathlib" : @path Demo.posix)
                  /\ cls self = HeaderOnly).
  { vm_compute in H. injection H as Hs _. subst self. repeat split. }
  destruct Hself as (Hoptions & Hfolder & Hroot & Hbuild & Hcls).
  rewrite Hoptions in Hopt. vm_compute in Hopt. injection Hopt as <-.
  cbn zeta in HT. unfold Expansion.discovered_files in HT.
  rewrite Hfolder, Hroot, Hbuild in HT. cbn in HT.
  destruct HT as (Hnames & _ & _ & _ & Hmade).
  injection Hnames as <-.
  apply Forall2_cons_inv_l in Hmade. destruct Hmade as (t & made & Ht & Hmade & ->).
  apply Forall2_nil_inv_l in Hmade. subst made.
  unfold Expansion.example_dependencies, Expansion.own_dependency in Ht.
  rewrite Hcls in Ht. cbn in Ht.
  destruct Ht as (_ & _ & Hn & _ & Hb & _ & Hd & _).
  exists self, tr, t, tr'.
  split; [exact H |]. split; [exact Hrun |].
  repeat split; assumption.
Defined.

End FurtherExamples.
